(** * ScheduleCalendar: the availability scheduling engine

    A shallow embedding of the scheduling logic of the [ScheduleCalendar]
    component (slot generation, duplicate detection, single-slot add / edit /
    delete, day toggle, quick setup and quick clear, and the reload of the
    displayed page from storage), together with the properties the
    specification states about it.

    Conventions of the embedding.
    - JavaScript numbers that the component manipulates are minute counts,
      hour counts, durations chosen from a [<select>] and array indexes: all
      integers far below 2^53, so they are modelled by [Z].  [Math.floor(a/b)]
      is [Z.div] and [%] is [Z.rem].  [NaN] (the result of [Number] on a
      string that is not a number) is [None].
    - Times of day are the strings the component handles (["09:30"],
      ["09:30:00"]).
    - A calendar date is a day number (days since an arbitrary epoch, in the
      provider's local calendar); the injective rendering [YYYY-MM-DD] the
      component sends over the wire is not modelled.  The instant at which a
      day starts on the local clock is given by the [World], so that a day
      may be 23 or 25 hours long where the clock changes.
    - The slot table and the key-value entry [working_days_<barberId>] of one
      provider form the [Store]; the answers of the network (success, HTTP
      error, exception) are read from an oracle carried by the [World]. *)

From Stdlib Require Import ZArith List Bool Lia Sorted.
From Stdlib Require Import Strings.String Strings.Ascii.
From Stdlib Require DecimalString.
From stdpp Require Import base option list gmap strings.

Local Open Scope string_scope.
Local Open Scope list_scope.
Local Open Scope Z_scope.

(** ** JavaScript string helpers *)

Module Js.

(** [String(n)] for an integer [n]. *)
Definition String_ (n : Z) : string :=
  DecimalString.NilZero.string_of_int (Z.to_int n).

(** [s.repeat(n)] for a one-character string. *)
Fixpoint repeat0 (n : nat) : string :=
  match n with
  | O => EmptyString
  | S k => String "0" (repeat0 k)
  end.

(** [s.padStart(2, '0')]. *)
Definition padStart2 (s : string) : string :=
  repeat0 (2 - String.length s) +:+ s.

(** [s.split(':')]: never empty; the last piece is what follows the last
    colon. *)
Fixpoint split_colon (s : string) : list string :=
  match s with
  | EmptyString => [EmptyString]
  | String c rest =>
      if Ascii.eqb c ":" then EmptyString :: split_colon rest
      else match split_colon rest with
           | piece :: pieces => String c piece :: pieces
           | [] => [String c EmptyString]
           end
  end.

Definition digit_value (c : ascii) : option Z :=
  let n := Z.of_nat (nat_of_ascii c) in
  if (48 <=? n) && (n <=? 57) then Some (n - 48) else None.

Fixpoint digits_value (acc : Z) (s : string) : option Z :=
  match s with
  | EmptyString => Some acc
  | String c rest =>
      match digit_value c with
      | Some d => digits_value (10 * acc + d) rest
      | None => None
      end
  end.

(** [Number(s)] on the strings a time control produces: a run of decimal
    digits is its value and the empty string is 0.  Every other string is
    answered [None] (NaN); JavaScript also reads signs, blanks, fractions,
    exponents, hexadecimal literals and [Infinity], none of which occurs in
    the value of a time control.  The properties that turn on the number
    read are stated for such values ([time_control_value], [hhmm]). *)
Definition Number_ (s : string) : option Z := digits_value 0 s.

(** [s.slice(0, 5)]. *)
Definition slice05 (s : string) : string := String.substring 0 5 s.

(** [x || dflt] for an optional string: [undefined] and the empty string are
    falsy. *)
Definition or_default (x : option string) (dflt : string) : string :=
  match x with
  | Some EmptyString | None => dflt
  | Some s => s
  end.

End Js.

(** ** Times of day *)

(** [`${String(h).padStart(2,'0')}:${String(m).padStart(2,'0')}`]: the text
    the component builds for hour [h] and minute [m], which is also the value
    an [<input type="time">] reports. *)
Definition hhmm (h m : Z) : string :=
  Js.padStart2 (Js.String_ h) +:+ ":" +:+ Js.padStart2 (Js.String_ m).

(** The text for a minute count: [Math.floor(x / 60)] hours and [x % 60]
    minutes. *)
Definition timeStr (x : Z) : string := hhmm (x / 60) (Z.rem x 60).

(** [const [h, m] = s.split(':').map(Number); h * 60 + m]: [None] is NaN,
    which also arises when there is no colon ([m] is [undefined]). *)
Definition toMinutes (s : string) : option Z :=
  match Js.split_colon s with
  | hs :: ms :: _ =>
      match Js.Number_ hs, Js.Number_ ms with
      | Some h, Some m => Some (h * 60 + m)
      | _, _ => None
      end
  | _ => None
  end.

(** [normalizeTime]: the [HH:MM:SS] form sent to storage. *)
Definition normalizeTime (time : string) : string :=
  let parts := Js.split_colon time in
  let hours := Js.padStart2 (Js.or_default (parts !! 0%nat) "") in
  let minutes := Js.padStart2 (Js.or_default (parts !! 1%nat) "00") in
  let seconds := Js.padStart2 (Js.or_default (parts !! 2%nat) "00") in
  hours +:+ ":" +:+ minutes +:+ ":" +:+ seconds.

(** ** Slot generation *)

(** The [while (currentMinutes + quickSetupDuration <= toMinutes)] loop of
    [generateTimeSlots].  [fuel] bounds the number of iterations; [None]
    means the bound was reached with the loop condition still true. *)
Fixpoint generate_loop (fuel : nat) (currentMinutes duration toMin : Z)
  : option (list string) :=
  if currentMinutes + duration <=? toMin then
    match fuel with
    | O => None
    | S fuel' =>
        cons (timeStr currentMinutes)
          <$> generate_loop fuel' (currentMinutes + duration) duration toMin
    end
  else Some [].

(** [generateTimeSlots] on the three quick-setup inputs.  A NaN bound makes
    the loop condition false at once.  The iteration bound [toMinutes -
    fromMinutes] is never reached by a positive duration
    ([generate_loop_fuel_enough]) and every bound is reached by a
    non-positive duration whose first test succeeds
    ([generate_loop_diverges]), so [None] is exactly the non-terminating
    loop. *)
Definition generateTimeSlots (quickSetupFromTime quickSetupToTime : string)
    (quickSetupDuration : Z) : option (list string) :=
  match toMinutes quickSetupFromTime, toMinutes quickSetupToTime with
  | Some fromMinutes, Some toMin =>
      generate_loop (Z.to_nat (toMin - fromMinutes))
        fromMinutes quickSetupDuration toMin
  | _, _ => Some []
  end.


(** ** Data model *)

Definition DAYS_PER_PAGE : Z := 8.
Definition MAX_PAGES : Z := 3.

(** [interface TimeSlot]. *)
Record TimeSlot := mkTimeSlot {
  slot_id : string;
  slot_time : string;
  available : bool;
  booked : bool
}.

(** [interface DaySchedule]; [date] is a day number. *)
Record DaySchedule := mkDaySchedule {
  day : string;
  date : Z;
  isOff : bool;
  slots : list TimeSlot
}.

(** A row of [barber_slots] as the backend returns it. *)
Record SlotRow := mkSlotRow {
  row_id : string;
  slot_date : Z;
  start_time : string;
  end_time : string;
  is_booked : bool
}.

(** The body of a create request and the elements of a batch. *)
Record NewSlot := mkNewSlot {
  new_date : Z;
  new_start : string;
  new_end : string;
  is_available : bool
}.

(** The provider's partition of the storage: its rows of [barber_slots] and
    the object kept under [working_days_<barberId>] (no entry and the empty
    object read alike).  [next_id] is the key the storage gives to the next
    created row. *)
Record Store := mkStore {
  barber_slots : list SlotRow;
  working_days : gmap Z bool;
  next_id : Z
}.

(** What a request comes back with: [response.ok], a response that is not
    ok, or a rejected promise. *)
Inductive Answer := Ok | HttpError | NetworkError.

Inductive Event :=
| ReqListSlots (startDate endDate : Z)
| ReqKvGet
| ReqKvPut (value : gmap Z bool)
| ReqSelectLatest (d : Z)
| ReqCreateSlot (payload : NewSlot)
| ReqUpdateSlot (id startTime endTime : string)
| ReqDeleteSlot (id : string)
| ReqDeleteDay (d : Z)
| ReqBatch (newSlots : list NewSlot) (deleteFrom deleteTo : Z)
| Toast (success : bool) (message : string).

(** The React state of the component that the scheduling logic reads or
    writes. *)
Record Comp := mkComp {
  barberId : option string;
  weekSchedule : list DaySchedule;
  pageIndex : Z;
  editingSlot : option (Z * string);
  editingTime : string;
  pauseAutoReload : bool;
  showTimePickerModal : bool;
  timePickerDayIndex : option Z;
  selectedStartTime : string;
  quickSetupFromTime : string;
  quickSetupToTime : string;
  quickSetupDuration : Z;
  quickSetupError : string;
  showQuickSetupConfirmModal : bool;
  isQuickSetupProcessing : bool
}.

(** Everything an operation can see or change: the component, the storage,
    the clock ([today] is the local date and [currentMinutes] the local
    time of day of [new Date()]; [localMidnight d] is
    [new Date(dateStr + 'T00:00:00').getTime()] for the date of day [d], the
    epoch milliseconds at which that day starts on the local clock), whether
    [localStorage] holds a session token, the answers the coming requests
    will get (all [Ok] once the list is used up) and the requests and toasts
    issued so far, oldest first.

    A later day starts later, so where the code compares two local
    midnights ([selectedDate < today], [slotDate < today],
    [selectedDate.getTime() === today.getTime()]) the comparison is the one
    of the day numbers.  How far apart two midnights are depends on the
    clock, and only [daysDiff] of [loadSlots] looks at that. *)
Record World := mkWorld {
  comp : Comp;
  store : Store;
  today : Z;
  currentMinutes : Z;
  localMidnight : Z -> Z;
  sessionToken : bool;
  oracle : list Answer;
  trace : list Event
}.

Definition with_comp (f : Comp -> Comp) (w : World) : World :=
  mkWorld (f (comp w)) (store w) (today w) (currentMinutes w)
    (localMidnight w) (sessionToken w) (oracle w) (trace w).

Definition with_store (f : Store -> Store) (w : World) : World :=
  mkWorld (comp w) (f (store w)) (today w) (currentMinutes w)
    (localMidnight w) (sessionToken w) (oracle w) (trace w).

Definition emit (e : Event) (w : World) : World :=
  mkWorld (comp w) (store w) (today w) (currentMinutes w)
    (localMidnight w) (sessionToken w) (oracle w) (trace w ++ [e]).

(** Issue a request: log it and read its answer off the oracle. *)
Definition request (e : Event) (w : World) : Answer * World :=
  (hd Ok (oracle w),
   mkWorld (comp w) (store w) (today w) (currentMinutes w)
     (localMidnight w) (sessionToken w) (tl (oracle w)) (trace w ++ [e])).

Definition toast_error (msg : string) : World -> World := emit (Toast false msg).
Definition toast_success (msg : string) : World -> World := emit (Toast true msg).

(** *** State setters *)

Definition setWeekSchedule (f : list DaySchedule -> list DaySchedule) : World -> World :=
  with_comp (fun c =>
    mkComp (barberId c) (f (weekSchedule c)) (pageIndex c) (editingSlot c)
      (editingTime c) (pauseAutoReload c) (showTimePickerModal c)
      (timePickerDayIndex c) (selectedStartTime c) (quickSetupFromTime c)
      (quickSetupToTime c) (quickSetupDuration c) (quickSetupError c)
      (showQuickSetupConfirmModal c) (isQuickSetupProcessing c)).

Definition setEditingSlot (v : option (Z * string)) : World -> World :=
  with_comp (fun c =>
    mkComp (barberId c) (weekSchedule c) (pageIndex c) v
      (editingTime c) (pauseAutoReload c) (showTimePickerModal c)
      (timePickerDayIndex c) (selectedStartTime c) (quickSetupFromTime c)
      (quickSetupToTime c) (quickSetupDuration c) (quickSetupError c)
      (showQuickSetupConfirmModal c) (isQuickSetupProcessing c)).

Definition setEditingTime (v : string) : World -> World :=
  with_comp (fun c =>
    mkComp (barberId c) (weekSchedule c) (pageIndex c) (editingSlot c)
      v (pauseAutoReload c) (showTimePickerModal c)
      (timePickerDayIndex c) (selectedStartTime c) (quickSetupFromTime c)
      (quickSetupToTime c) (quickSetupDuration c) (quickSetupError c)
      (showQuickSetupConfirmModal c) (isQuickSetupProcessing c)).

Definition setPauseAutoReload (v : bool) : World -> World :=
  with_comp (fun c =>
    mkComp (barberId c) (weekSchedule c) (pageIndex c) (editingSlot c)
      (editingTime c) v (showTimePickerModal c)
      (timePickerDayIndex c) (selectedStartTime c) (quickSetupFromTime c)
      (quickSetupToTime c) (quickSetupDuration c) (quickSetupError c)
      (showQuickSetupConfirmModal c) (isQuickSetupProcessing c)).

Definition setShowTimePickerModal (v : bool) : World -> World :=
  with_comp (fun c =>
    mkComp (barberId c) (weekSchedule c) (pageIndex c) (editingSlot c)
      (editingTime c) (pauseAutoReload c) v
      (timePickerDayIndex c) (selectedStartTime c) (quickSetupFromTime c)
      (quickSetupToTime c) (quickSetupDuration c) (quickSetupError c)
      (showQuickSetupConfirmModal c) (isQuickSetupProcessing c)).

Definition setTimePickerDayIndex (v : option Z) : World -> World :=
  with_comp (fun c =>
    mkComp (barberId c) (weekSchedule c) (pageIndex c) (editingSlot c)
      (editingTime c) (pauseAutoReload c) (showTimePickerModal c)
      v (selectedStartTime c) (quickSetupFromTime c)
      (quickSetupToTime c) (quickSetupDuration c) (quickSetupError c)
      (showQuickSetupConfirmModal c) (isQuickSetupProcessing c)).

Definition setSelectedStartTime (v : string) : World -> World :=
  with_comp (fun c =>
    mkComp (barberId c) (weekSchedule c) (pageIndex c) (editingSlot c)
      (editingTime c) (pauseAutoReload c) (showTimePickerModal c)
      (timePickerDayIndex c) v (quickSetupFromTime c)
      (quickSetupToTime c) (quickSetupDuration c) (quickSetupError c)
      (showQuickSetupConfirmModal c) (isQuickSetupProcessing c)).

Definition setQuickSetupError (v : string) : World -> World :=
  with_comp (fun c =>
    mkComp (barberId c) (weekSchedule c) (pageIndex c) (editingSlot c)
      (editingTime c) (pauseAutoReload c) (showTimePickerModal c)
      (timePickerDayIndex c) (selectedStartTime c) (quickSetupFromTime c)
      (quickSetupToTime c) (quickSetupDuration c) v
      (showQuickSetupConfirmModal c) (isQuickSetupProcessing c)).

Definition setShowQuickSetupConfirmModal (v : bool) : World -> World :=
  with_comp (fun c =>
    mkComp (barberId c) (weekSchedule c) (pageIndex c) (editingSlot c)
      (editingTime c) (pauseAutoReload c) (showTimePickerModal c)
      (timePickerDayIndex c) (selectedStartTime c) (quickSetupFromTime c)
      (quickSetupToTime c) (quickSetupDuration c) (quickSetupError c)
      v (isQuickSetupProcessing c)).

Definition setIsQuickSetupProcessing (v : bool) : World -> World :=
  with_comp (fun c =>
    mkComp (barberId c) (weekSchedule c) (pageIndex c) (editingSlot c)
      (editingTime c) (pauseAutoReload c) (showTimePickerModal c)
      (timePickerDayIndex c) (selectedStartTime c) (quickSetupFromTime c)
      (quickSetupToTime c) (quickSetupDuration c) (quickSetupError c)
      (showQuickSetupConfirmModal c) v).

(** ** Storage operations

    The backend is not part of the component; its effect on an accepted
    request is the one its interface names ([create], [update], [delete],
    [deleteRange], [listByDateRange], [get] and [put] of the working-day
    object). *)

Module Storage.

(** Modelled from the spec: [listByDateRange(providerId, dateFrom, dateTo)],
    the rows whose date lies in the closed range. *)
Definition listByDateRange (dateFrom dateTo : Z) (s : Store) : list SlotRow :=
  filter (fun r => dateFrom ≤ slot_date r ∧ slot_date r ≤ dateTo) (barber_slots s).

(** Modelled from the spec: [create(slot)], a new unbooked row under a fresh
    key. *)
Definition create (p : NewSlot) (s : Store) : Store :=
  mkStore
    (barber_slots s ++
       [mkSlotRow (Js.String_ (next_id s)) (new_date p) (new_start p) (new_end p) false])
    (working_days s) (next_id s + 1).

(** Modelled from the spec: [update(id, fields)] with the fields
    [start_time] and [end_time]. *)
Definition update (id startTime endTime : string) (s : Store) : Store :=
  mkStore
    (map (fun r => if decide (row_id r = id)
                   then mkSlotRow (row_id r) (slot_date r) startTime endTime (is_booked r)
                   else r) (barber_slots s))
    (working_days s) (next_id s).

(** Modelled from the spec: [delete(id)]. *)
Definition delete (id : string) (s : Store) : Store :=
  mkStore (filter (fun r => row_id r ≠ id) (barber_slots s))
    (working_days s) (next_id s).

(** Modelled from the spec: [deleteRange(providerId, dateFrom, dateTo)]. *)
Definition deleteRange (dateFrom dateTo : Z) (s : Store) : Store :=
  mkStore
    (filter (fun r => ¬ (dateFrom ≤ slot_date r ∧ slot_date r ≤ dateTo)) (barber_slots s))
    (working_days s) (next_id s).

(** Modelled from the spec: the batch commit, [deleteRange] of the given
    dates followed by [create] of every element, as one unit. *)
Definition batch (ps : list NewSlot) (dateFrom dateTo : Z) (s : Store) : Store :=
  fold_left (fun acc p => create p acc) ps (deleteRange dateFrom dateTo s).

(** Modelled from the spec: [put(providerId, map)] of the working-day
    object. *)
Definition put (m : gmap Z bool) (s : Store) : Store :=
  mkStore (barber_slots s) m (next_id s).

End Storage.

(** ** Calendar windowing *)

(** [getPageStartDate]: local midnight of today advanced by
    [pageIdx * DAYS_PER_PAGE] days. *)
Definition getPageStartDate (w : World) (pageIdx : Z) : Z :=
  today w + pageIdx * DAYS_PER_PAGE.

(** [getActualDate]. *)
Definition getActualDate (w : World) (dayIndex pageIdx : Z) : Z :=
  getPageStartDate w pageIdx + dayIndex.

(** [1000 * 60 * 60 * 24], the milliseconds of 24 hours. *)
Definition MS_PER_DAY : Z := 1000 * 60 * 60 * 24.

(** [Math.floor((slotDate.getTime() - windowStart.getTime())
    / (1000 * 60 * 60 * 24))] for the local midnights of two days. *)
Definition daysDiff (midnight : Z -> Z) (windowStart slotDate : Z) : Z :=
  (midnight slotDate - midnight windowStart) / MS_PER_DAY.

(** A local clock that never changes: every day starts 24 hours after the
    day before. *)
Definition steady_clock (d : Z) : Z := d * MS_PER_DAY.

(** A local clock that is put forward by one hour in the course of day
    [change]: the days after it start an hour early. *)
Definition spring_forward_clock (change : Z) (d : Z) : Z :=
  if d <=? change then d * MS_PER_DAY else d * MS_PER_DAY - 1000 * 60 * 60.

(** [arr[i]] for a number [i]: [undefined] outside the array. *)
Definition at_index {A} (l : list A) (i : Z) : option A :=
  if i <? 0 then None else l !! Z.to_nat i.

(** [arr.map((x, idx) => idx === i ? f(x) : x)]. *)
Definition map_at {A} (i : Z) (f : A -> A) (l : list A) : list A :=
  imap (fun idx x => if Z.of_nat idx =? i then f x else x) l.

(** ** Loading the displayed page *)

(** The comparator of the sort in [loadSlots],
    [timeA[0]*60 + timeA[1] - (timeB[0]*60 + timeB[1])], as "a may stay
    before b": a NaN difference counts as 0. *)
Definition time_le (a b : TimeSlot) : bool :=
  match toMinutes (slot_time a), toMinutes (slot_time b) with
  | Some x, Some y => x <=? y
  | _, _ => true
  end.

Fixpoint insert_sorted {A} (le : A -> A -> bool) (x : A) (l : list A) : list A :=
  match l with
  | [] => [x]
  | y :: l' => if le x y then x :: l else y :: insert_sorted le x l'
  end.

(** [arr.sort(cmp)]: a stable sort. *)
Definition sort_by {A} (le : A -> A -> bool) (l : list A) : list A :=
  foldr (insert_sorted le) [] l.

(** The slot object [loadSlots] pushes for a fetched row. *)
Definition slot_of_row (r : SlotRow) : TimeSlot :=
  mkTimeSlot (row_id r) (Js.slice05 (start_time r))
    (negb (is_booked r)) (is_booked r).

(** [newSchedule] of [loadSlots]: one entry per day of the page, off unless
    [workingDaysData[dateStr] === true], holding the fetched rows whose
    [daysDiff] is the entry's index (a row whose [daysDiff] is outside
    [0 .. DAYS_PER_PAGE - 1] is dropped), in fetch order and then sorted. *)
Definition newSchedule (midnight : Z -> Z) (windowStart : Z)
    (workingDaysData : gmap Z bool) (data : list SlotRow) : list DaySchedule :=
  map (fun idx =>
         let dateStr := windowStart + idx in
         let isWorkingDay := bool_decide (workingDaysData !! dateStr = Some true) in
         mkDaySchedule "" dateStr (negb isWorkingDay)
           (sort_by time_le
              (map slot_of_row
                 (filter (fun r => daysDiff midnight windowStart (slot_date r) = idx)
                    data))))
      (seqZ 0 DAYS_PER_PAGE).

(** [loadSlots(isBackgroundRefresh)].  The flag only drives the skeleton
    display.  A failed slot request leaves the schedule as it was; a failed
    read of the working-day object falls back to the empty object. *)
Definition loadSlots (w : World) : World :=
  match barberId (comp w) with
  | None => w
  | Some _ =>
      let windowStart := getPageStartDate w (pageIndex (comp w)) in
      let windowEnd := windowStart + (DAYS_PER_PAGE - 1) in
      if negb (sessionToken w) then toast_error "Please login to view schedule" w
      else
        let '(a, w1) := request (ReqListSlots windowStart windowEnd) w in
        match a with
        | Ok =>
            let data := Storage.listByDateRange windowStart windowEnd (store w1) in
            let '(a2, w2) := request ReqKvGet w1 in
            let workingDaysData :=
              match a2 with
              | Ok => working_days (store w2)
              | _ => ∅
              end in
            setWeekSchedule
              (fun _ => newSchedule (localMidnight w) windowStart workingDaysData data) w2
        | _ => toast_error "Failed to load schedule" w1
        end
  end.

(** ** Working-day state *)

(** [updateWorkingDayState(date, isWorkingDay)]: read the object, set the
    key to [true] or delete it, write the object back.  Every failure is
    only logged. *)
Definition updateWorkingDayState (d : Z) (isWorkingDay : bool) (w : World) : World :=
  if negb (sessionToken w) then w
  else
    let '(a, w1) := request ReqKvGet w in
    match a with
    | NetworkError => w1
    | _ =>
        let current : gmap Z bool :=
          match a with
          | Ok => working_days (store w1)
          | _ => ∅
          end in
        let workingDaysData : gmap Z bool :=
          if isWorkingDay then <[d := true]> current else delete d current in
        let '(a2, w2) := request (ReqKvPut workingDaysData) w1 in
        match a2 with
        | Ok => with_store (Storage.put workingDaysData) w2
        | _ => w2
        end
    end.

(** [toggleDayOff(dayIndex)].  Reading [isOff] of a missing day throws
    before anything is done. *)
Definition toggleDayOff (dayIndex : Z) (w : World) : World :=
  match at_index (weekSchedule (comp w)) dayIndex with
  | None => w
  | Some currentDay =>
      let newIsOff := negb (isOff currentDay) in
      let slotDate := getActualDate w dayIndex (pageIndex (comp w)) in
      if newIsOff then
        let '(a, w1) := request (ReqDeleteDay slotDate) w in
        match a with
        | Ok =>
            let w2 := with_store (Storage.deleteRange slotDate slotDate) w1 in
            let w3 := updateWorkingDayState slotDate false w2 in
            let w4 :=
              setWeekSchedule
                (map_at dayIndex
                   (fun d => mkDaySchedule (day d) (date d) true [])) w3 in
            toast_success "schedule.markedAsOff" w4
        | _ => toast_error "Failed to update schedule" w1
        end
      else
        let w1 := updateWorkingDayState slotDate true w in
        let w2 :=
          setWeekSchedule
            (map_at dayIndex
               (fun d => mkDaySchedule (day d) (date d) false (slots d))) w1 in
        toast_success "schedule.markedAsWorking" w2
  end.

(** ** Conflict check *)

(** [isDuplicateTime(dayIndex, time, excludeSlotId?)]: with no third
    argument, [slot.id !== undefined] holds for every slot. *)
Definition isDuplicateTime (w : World) (dayIndex : Z) (time : string)
    (excludeSlotId : option string) : bool :=
  match at_index (weekSchedule (comp w)) dayIndex with
  | Some d =>
      existsb (fun slot =>
                 bool_decide (slot_time slot = time)
                 && bool_decide (Some (slot_id slot) ≠ excludeSlotId))
        (slots d)
  | None => false
  end.

(** ** Single-slot editor *)

(** The text built from a minute count that may be NaN. *)
Definition hhmm_of (hours minutes : option Z) : string :=
  match hours, minutes with
  | Some h, Some m => hhmm h m
  | _, _ => "NaN:NaN"
  end.

(** [calculateEndTime] of [instantAddTimeSlot] and the same computation in
    [saveTimeSlot]: start + 60 minutes, hours modulo 24. *)
Definition calculateEndTime (startTime : string) : string :=
  let totalMinutes := (fun t => t + 60) <$> toMinutes startTime in
  hhmm_of ((fun t => Z.rem (t / 60) 24) <$> totalMinutes)
          ((fun t => Z.rem t 60) <$> totalMinutes).

(** [slotMinutes <= currentMinutes]; false when [slotMinutes] is NaN. *)
Definition time_passed (w : World) (slotTime : string) : bool :=
  match toMinutes slotTime with
  | Some slotMinutes => slotMinutes <=? currentMinutes w
  | None => false
  end.

(** [instantAddTimeSlot(dayIndex, slotTime)].  For a response that is not
    ok the toast depends on the status and on the error text the response
    carries; [HttpError] stands for a response whose status is neither 401
    nor 403 and which carries no error text.  A rejected request is only
    logged. *)
Definition instantAddTimeSlot (dayIndex : Z) (slotTime : string) (w : World) : World :=
  let slotDate := getActualDate w dayIndex (pageIndex (comp w)) in
  if slotDate <? today w then toast_error "Cannot add slots in the past" w
  else if (slotDate =? today w) && time_passed w slotTime
  then toast_error "toast.cannotAddPastSlots" w
  else if negb (sessionToken w) then toast_error "Please login to add slots" w
  else
    let payload :=
      mkNewSlot slotDate (normalizeTime slotTime)
        (normalizeTime (calculateEndTime slotTime)) true in
    let '(a, w1) := request (ReqCreateSlot payload) w in
    match a with
    | Ok =>
        let w2 := with_store (Storage.create payload) w1 in
        loadSlots (toast_success "schedule.slotAddedSuccess" w2)
    | HttpError => toast_error "Failed to add slot. Please try again." w1
    | NetworkError => w1
    end.

(** The row [order('start_time', { ascending: false }).limit(1)] selects. *)
Definition latest_start (rows : list SlotRow) : option string :=
  foldr (fun r acc =>
           match acc with
           | Some t => if String.leb t (start_time r) then Some (start_time r) else Some t
           | None => Some (start_time r)
           end) None rows.

(** [nextTime] of [openAddSlotDialog]: the latest stored start plus 30
    minutes, the hours not reduced modulo 24. *)
Definition next_start (lastStart : string) : string :=
  let totalMinutes := (fun t => t + 30) <$> toMinutes lastStart in
  hhmm_of ((fun t => t / 60) <$> totalMinutes) ((fun t => Z.rem t 60) <$> totalMinutes).

(** [openAddSlotDialog(dayIndex)]: the time picker for a day without slots,
    otherwise the latest stored start + 30 minutes. *)
Definition openAddSlotDialog (dayIndex : Z) (w : World) : World :=
  let slotDate := getActualDate w dayIndex (pageIndex (comp w)) in
  let existingSlotsForDay :=
    match at_index (weekSchedule (comp w)) dayIndex with
    | Some d => slots d
    | None => []
    end in
  match existingSlotsForDay with
  | [] =>
      setShowTimePickerModal true
        (setTimePickerDayIndex (Some dayIndex)
           (setSelectedStartTime (timeStr (currentMinutes w)) w))
  | _ :: _ =>
      let '(a, w1) := request (ReqSelectLatest slotDate) w in
      match a with
      | Ok =>
          match latest_start (Storage.listByDateRange slotDate slotDate (store w1)) with
          | Some lastStart =>
              let nextTime := next_start lastStart in
              if isDuplicateTime w1 dayIndex nextTime None
              then toast_error "This time slot already exists" w1
              else instantAddTimeSlot dayIndex nextTime w1
          | None => w1
          end
      | HttpError => toast_error "Failed to load slots" w1
      | NetworkError => toast_error "Failed to add slot" w1
      end
  end.

(** [removeTimeSlot(dayIndex, slotId)]. *)
Definition removeTimeSlot (dayIndex : Z) (slotId : string) (w : World) : World :=
  if negb (sessionToken w) then toast_error "Please login to delete slots" w
  else
    let '(a, w1) := request (ReqDeleteSlot slotId) w in
    match a with
    | Ok =>
        let w2 := with_store (Storage.delete slotId) w1 in
        let w3 :=
          setWeekSchedule
            (map_at dayIndex
               (fun d => mkDaySchedule (day d) (date d) (isOff d)
                           (filter (fun slot => slot_id slot ≠ slotId) (slots d)))) w2 in
        loadSlots (toast_success "toast.timeSlotRemoved" w3)
    | _ => toast_error "Failed to delete slot" w1
    end.

(** [startEditingSlot(dayIndex, slotId, time)]. *)
Definition startEditingSlot (dayIndex : Z) (slotId time : string) (w : World) : World :=
  setPauseAutoReload true (setEditingTime time (setEditingSlot (Some (dayIndex, slotId)) w)).

(** [cancelEditingSlot()]. *)
Definition cancelEditingSlot (w : World) : World :=
  setPauseAutoReload false (setEditingTime "09:00" (setEditingSlot None w)).

(** [saveTimeSlot()].  On failure the toast shows the message of the error
    caught: for a response that is not ok and carries no error text it is
    the one thrown here; for a rejected request it is worded by the browser,
    and the fallback text of the code stands for it.  [localeCompare] in
    the re-sort agrees with the code-point order on [HH:MM] texts, whose
    colons are at the same position. *)
Definition saveTimeSlot (w : World) : World :=
  match editingSlot (comp w) with
  | None => w
  | Some (dayIndex, slotId) =>
      let time := editingTime (comp w) in
      if isDuplicateTime w dayIndex time (Some slotId)
      then toast_error "toast.duplicateTimeError" w
      else
        let endTime := calculateEndTime time in
        if negb (sessionToken w)
        then setPauseAutoReload false (toast_error "Please login to edit slots" w)
        else
          let '(a, w1) := request (ReqUpdateSlot slotId time endTime) w in
          match a with
          | Ok =>
              let w2 := with_store (Storage.update slotId time endTime) w1 in
              let w3 :=
                setWeekSchedule
                  (map_at dayIndex
                     (fun d =>
                        mkDaySchedule (day d) (date d) (isOff d)
                          (sort_by (fun a b => String.leb (slot_time a) (slot_time b))
                             (map (fun slot =>
                                     if decide (slot_id slot = slotId)
                                     then mkTimeSlot (slot_id slot) time
                                            (available slot) (booked slot)
                                     else slot) (slots d))))) w2 in
              cancelEditingSlot (toast_success "toast.timeSlotUpdated" w3)
          | HttpError =>
              setPauseAutoReload false (toast_error "Failed to update slot" w1)
          | NetworkError =>
              setPauseAutoReload false (toast_error "Failed to update time slot" w1)
          end
  end.

(** [handleTimePickerConfirm()]. *)
Definition handleTimePickerConfirm (w : World) : World :=
  match selectedStartTime (comp w), timePickerDayIndex (comp w) with
  | EmptyString, _ | _, None => toast_error "Please select a time" w
  | time, Some dayIndex =>
      if isDuplicateTime w dayIndex time None
      then toast_error "This time slot already exists" w
      else
        let w1 := setShowTimePickerModal false w in
        let w2 := instantAddTimeSlot dayIndex time w1 in
        setSelectedStartTime "" (setTimePickerDayIndex None w2)
  end.

(** [handleTimePickerCancel()]. *)
Definition handleTimePickerCancel (w : World) : World :=
  setSelectedStartTime "" (setTimePickerDayIndex None (setShowTimePickerModal false w)).

(** The controls rendered for one slot of a working day: the edit form
    ([isEditing && !isBooked]), else the edit and delete buttons
    ([!isBooked]), else nothing but the time and the badge. *)
Inductive Control := SaveButton | CancelButton | EditButton | DeleteButton.

Definition slotControls (w : World) (dayIndex : Z) (slot : TimeSlot) : list Control :=
  let isEditing :=
    match editingSlot (comp w) with
    | Some (d, s) => (d =? dayIndex) && bool_decide (s = slot_id slot)
    | None => false
    end in
  let isBooked := booked slot || false in
  if isEditing && negb isBooked then [SaveButton; CancelButton]
  else if negb isBooked then [EditButton; DeleteButton]
  else [].

(** The slots the card of a day renders: those the schedule holds for it
    when the day is a working day ([!daySchedule.isOff && ...]), none for a
    day off, which shows the "day off" text instead.  The "add slot" button
    is part of the same block and is rendered for working days only.  (The
    skeleton shown in place of the cards while a page loads is not
    modelled.) *)
Definition renderedSlots (d : DaySchedule) : list TimeSlot :=
  if isOff d then [] else slots d.

(** ** Quick setup *)

(** [validateQuickSetup()]: the verdict and the error text it sets.  A NaN
    bound makes [fromMinutes >= toMinutes] false. *)
Definition validateQuickSetup (w : World) : bool * World :=
  let w0 := setQuickSetupError "" w in
  let c := comp w in
  let from_not_before_to :=
    match toMinutes (quickSetupFromTime c), toMinutes (quickSetupToTime c) with
    | Some fromMinutes, Some toMin => toMin <=? fromMinutes
    | _, _ => false
    end in
  if from_not_before_to
  then (false, setQuickSetupError "Start time must be earlier than end time" w0)
  else if quickSetupDuration c <=? 0
  then (false, setQuickSetupError "Duration must be greater than 0" w0)
  else (true, w0).

(** [hasExistingSlots()]. *)
Definition hasExistingSlots (w : World) : bool :=
  existsb (fun d => (0 <? length (slots d))%nat) (weekSchedule (comp w)).

(** The inner loop of step 3 of [executeQuickSetup] for one day: the
    generated times as insertable slots, skipping on day offset 0 those with
    [slotMinutes <= currentMinutes]. *)
Definition day_batch (w : World) (dayOffset : Z) (slotTimes : list string) : list NewSlot :=
  let dateStr := today w + dayOffset in
  omap (fun slotTime =>
          if (dayOffset =? 0) && time_passed w slotTime then None
          else
            let endMinutes :=
              (fun t => t + quickSetupDuration (comp w)) <$> toMinutes slotTime in
            let endTime :=
              hhmm_of ((fun t => Z.rem (t / 60) 24) <$> endMinutes)
                      ((fun t => Z.rem t 60) <$> endMinutes) in
            Some (mkNewSlot dateStr (normalizeTime slotTime) (normalizeTime endTime) true))
       slotTimes.

(** [allSlotsToInsert]: the seven days [dayOffset = 0 .. 6] in order. *)
Definition allSlotsToInsert (w : World) (slotTimes : list string) : list NewSlot :=
  concat (map (fun dayOffset => day_batch w dayOffset slotTimes) (seqZ 0 7)).

(** [workingDayUpdates]. *)
Definition workingDayUpdates (w : World) : list Z :=
  map (fun dayOffset => today w + dayOffset) (seqZ 0 7).

(** [executeQuickSetup()]; [None] when slot generation does not terminate.
    The batch request is only sent for a non-empty batch; both the success
    path and the [catch] block end with [loadSlots()]. *)
Definition executeQuickSetup (w : World) : option World :=
  let w0 := setIsQuickSetupProcessing true (setShowQuickSetupConfirmModal false w) in
  if negb (sessionToken w0)
  then Some (setIsQuickSetupProcessing false (toast_error "Please login to setup slots" w0))
  else
    slotTimes ← generateTimeSlots (quickSetupFromTime (comp w))
                  (quickSetupToTime (comp w)) (quickSetupDuration (comp w));
    let batch := allSlotsToInsert w0 slotTimes in
    let todayStr := today w0 in
    let lastDateStr := today w0 + 6 in
    let '(committed, w1) :=
      match batch with
      | [] => (true, w0)
      | _ :: _ =>
          let '(a, w1) := request (ReqBatch batch todayStr lastDateStr) w0 in
          match a with
          | Ok => (true, with_store (Storage.batch batch todayStr lastDateStr) w1)
          | _ => (false, w1)
          end
      end in
    let w2 :=
      if committed : bool then
        let w' :=
          fold_left (fun acc dateStr => updateWorkingDayState dateStr true acc)
            (workingDayUpdates w0) w1 in
        loadSlots (toast_success "schedule.generatedSuccess" w')
      else loadSlots (toast_error "Failed to generate slots. Please try again." w1) in
    Some (setIsQuickSetupProcessing false w2).

(** [handleQuickSetup()]: the "Set up" button. *)
Definition handleQuickSetup (w : World) : option World :=
  let '(valid, w1) := validateQuickSetup w in
  if negb valid then Some w1
  else if hasExistingSlots w then Some (setShowQuickSetupConfirmModal true w1)
  else executeQuickSetup w1.

(** The deleting loop of [handleQuickSetupClear] over the day indexes of the
    page; [false] when a delete failed, which ends the loop. *)
Fixpoint clear_days (dayIdxs : list Z) (w : World) : bool * World :=
  match dayIdxs with
  | [] => (true, w)
  | dayIdx :: rest =>
      let dateStr := getActualDate w dayIdx (pageIndex (comp w)) in
      if dateStr <? today w then clear_days rest w
      else
        let '(a, w1) := request (ReqDeleteDay dateStr) w in
        match a with
        | Ok =>
            clear_days rest
              (updateWorkingDayState dateStr false
                 (with_store (Storage.deleteRange dateStr dateStr) w1))
        | _ => (false, w1)
        end
  end.

(** [handleQuickSetupClear()]: the "Clear" button; [confirmed] is the answer
    to [window.confirm]. *)
Definition handleQuickSetupClear (confirmed : bool) (w : World) : World :=
  match barberId (comp w) with
  | None => w
  | Some _ =>
      if negb confirmed then w
      else
        let w0 := setIsQuickSetupProcessing true w in
        let clearedSchedule :=
          imap (fun dayIdx d =>
                  if getActualDate w (Z.of_nat dayIdx) (pageIndex (comp w)) <? today w
                  then d
                  else mkDaySchedule (day d) (date d) (isOff d) [])
               (weekSchedule (comp w)) in
        let w1 := setWeekSchedule (fun _ => clearedSchedule) w0 in
        let '(cleared, w2) := clear_days (seqZ 0 DAYS_PER_PAGE) w1 in
        let w3 :=
          if cleared : bool
          then loadSlots (toast_success "toast.slotsClearedWeek" w2)
          else loadSlots (toast_error "toast.networkError" w2) in
        setIsQuickSetupProcessing false w3
  end.

(** ** Vocabulary of the properties *)

(** The list a terminating run of [generate_loop] builds: the texts of
    [fromMinutes + i * d] for [i] below [(toMin - fromMinutes) / d]. *)
Definition generated (fromMinutes toMin d : Z) : list string :=
  (fun i => timeStr (fromMinutes + i * d)) <$> seqZ 0 ((toMin - fromMinutes) / d).

(** A stored or typed time of day whose first five characters are the
    [HH:MM] text of hour [h] and minute [m]: that text alone, or followed by
    a colon and anything (a seconds part). *)
Definition time_text (h m : Z) (s : string) : Prop :=
  0 ≤ h < 24 ∧ 0 ≤ m < 60
  ∧ ∃ rest, s = hhmm h m +:+ rest ∧ (rest = "" ∨ ∃ r, rest = String ":" r).

Definition has_time_text (s : string) : Prop := ∃ h m, time_text h m s.

(** [s] is two digit characters whose value is [x]. *)
Definition two_digits_of (x : Z) (s : string) : bool :=
  match s with
  | String a (String b EmptyString) =>
      match Js.digit_value a, Js.digit_value b with
      | Some va, Some vb => 10 * va + vb =? x
      | _, _ => false
      end
  | _ => false
  end.

(** The days of the displayed page start 24 hours apart on the local clock:
    no clock change falls between the first and the last local midnight of
    the page. *)
Definition steady_page (w : World) : Prop :=
  ∀ k, 0 ≤ k < DAYS_PER_PAGE ->
    localMidnight w (getPageStartDate w (pageIndex (comp w)) + k)
    = localMidnight w (getPageStartDate w (pageIndex (comp w))) + k * MS_PER_DAY.


(** A value an [<input type="time">] holds: the empty string, or the
    [HH:MM] text of a time of day. *)
Definition time_control_value (s : string) : Prop :=
  s = "" ∨ ∃ h m, 0 ≤ h < 24 ∧ 0 ≤ m < 60 ∧ s = hhmm h m.

(** The world in which every request still to come is accepted, all else
    being as in [w]. *)
Definition answered_ok (w : World) : World :=
  mkWorld (comp w) (store w) (today w) (currentMinutes w) (localMidnight w)
    (sessionToken w) [] (trace w).

(** A day turned off, its slots kept. *)
Definition turned_off (d : DaySchedule) : DaySchedule :=
  mkDaySchedule (day d) (date d) true (slots d).

(** Every answer still to come is [Ok]. *)
Definition all_ok (w : World) : Prop := Forall (eq Ok) (oracle w).

(** 1 when the next answer is [Ok], else 0. *)
Definition one_if_ok (w : World) : nat :=
  match hd Ok (oracle w) with
  | Ok => 1%nat
  | _ => 0%nat
  end.

(** The number of authoritative refetches issued so far: the requests for
    the slot list of a page. *)
Definition is_refetch (e : Event) : bool :=
  match e with
  | ReqListSlots _ _ => true
  | _ => false
  end.

Definition refetches (w : World) : nat := length (List.filter is_refetch (trace w)).

(** Events that are no request on the slot table: reads and writes of the
    working-day object, and toasts. *)
Definition passive (e : Event) : bool :=
  match e with
  | ReqKvGet | ReqKvPut _ | Toast _ _ => true
  | _ => false
  end.

(** [w'] comes after [w] in a run: same clock, session, provider and page,
    and a trace that extends the one of [w] by [evs]. *)
Definition continues (w w' : World) (evs : list Event) : Prop :=
  today w' = today w ∧ currentMinutes w' = currentMinutes w
  ∧ sessionToken w' = sessionToken w
  ∧ barberId (comp w') = barberId (comp w)
  ∧ pageIndex (comp w') = pageIndex (comp w)
  ∧ trace w' = trace w ++ evs.

(** [w'] is [w] after a local refusal: one error toast, no request issued,
    no answer consumed, storage and displayed schedule as before. *)
Definition refused_locally (w w' : World) : Prop :=
  store w' = store w
  ∧ oracle w' = oracle w
  ∧ weekSchedule (comp w') = weekSchedule (comp w)
  ∧ ∃ message, trace w' = trace w ++ [Toast false message].

(** The two past-time tests of [instantAddTimeSlot] let the request
    through. *)
Definition not_in_past (w : World) (dayIndex : Z) (slotTime : string) : bool :=
  let slotDate := getActualDate w dayIndex (pageIndex (comp w)) in
  negb (slotDate <? today w)
  && negb ((slotDate =? today w) && time_passed w slotTime).

(** The request [executeQuickSetup] sends for a batch: none when the batch
    is empty. *)
Definition batch_request (w : World) (batch : list NewSlot) : list Event :=
  match batch with
  | [] => []
  | _ :: _ => [ReqBatch batch (today w) (today w + 6)]
  end.

(** The batches of slots a trace asked the storage to insert. *)
Definition batches_sent (tr : list Event) : list (list NewSlot) :=
  omap (fun e => match e with
                 | ReqBatch newSlots _ _ => Some newSlots
                 | _ => None
                 end) tr.

(** The start times kept for day offset [k]: on the current day those not
    yet passed, on the other days all of them. *)
Definition kept_times (w : World) (k : Z) (slotTimes : list string) : list string :=
  if decide (k = 0)
  then List.filter (fun t => negb (time_passed w t)) slotTimes
  else slotTimes.

(** Some displayed day holds a slot; some displayed day of the seven-day
    window [today .. today + 6] holds a slot; some stored slot lies in that
    window. *)
Definition displays_a_slot (w : World) : Prop :=
  ∃ d, d ∈ weekSchedule (comp w) ∧ slots d ≠ [].

Definition displays_a_slot_in_window (w : World) : Prop :=
  ∃ d, d ∈ weekSchedule (comp w) ∧ today w ≤ date d ≤ today w + 6 ∧ slots d ≠ [].

Definition stores_a_slot_in_window (w : World) : Prop :=
  ∃ r, r ∈ barber_slots (store w) ∧ today w ≤ slot_date r ≤ today w + 6.

(** The outcome of the "Set up" button that asks for confirmation: the
    modal is shown and nothing else has happened. *)
Definition awaits_confirmation (w w' : World) : Prop :=
  showQuickSetupConfirmModal (comp w') = true
  ∧ store w' = store w ∧ trace w' = trace w ∧ oracle w' = oracle w
  ∧ weekSchedule (comp w') = weekSchedule (comp w).

(** The dates the deleting loop of the batch clear acts on: those of the
    given day indexes of the page that are not before today. *)
Definition cleared_date (w : World) (dayIdxs : list Z) (dt : Z) : bool :=
  existsb (fun dayIdx =>
             let dateStr := getActualDate w dayIdx (pageIndex (comp w)) in
             negb (dateStr <? today w) && (dt =? dateStr))
    dayIdxs.

(** A date the batch clear acts on: a date of the displayed page that is
    today or later. *)
Definition on_cleared_page (w : World) (dt : Z) : Prop :=
  today w ≤ dt
  ∧ getPageStartDate w (pageIndex (comp w)) ≤ dt
    < getPageStartDate w (pageIndex (comp w)) + DAYS_PER_PAGE.

(** ** Sample worlds

    All of them are at 09:15 of day 100, signed in, with the quick-setup
    inputs 09:00, 10:00 and 30 minutes. *)

Definition comp0 : Comp :=
  mkComp (Some "barber-1") [] 0 None "09:00" false false None ""
    "09:00" "10:00" 30 "" false false.

Definition store0 : Store := mkStore [] ∅ 1.

(** Nothing stored, nothing displayed, every request answered ok. *)
Definition world0 : World := mkWorld comp0 store0 100 555 steady_clock true [] [].

(** A provider with three stored slots on day 100 (the first one booked),
    one on day 107 and one on day 110; days 100 and 110 are working days. *)
Definition store1 : Store :=
  mkStore
    [ mkSlotRow "1" 100 "09:00:00" "10:00:00" true;
      mkSlotRow "2" 100 "10:00:00" "11:00:00" false;
      mkSlotRow "3" 100 "11:30" "12:30" false;
      mkSlotRow "4" 107 "09:00:00" "10:00:00" false;
      mkSlotRow "5" 110 "09:00:00" "10:00:00" false ]
    (<[ 110 := true ]> {[ 100 := true ]}) 6.

(** That provider before and after the load of the first page. *)
Definition world1 : World := mkWorld comp0 store1 100 555 steady_clock true [] [].

Definition world1_loaded : World := loadSlots world1.

(** The first day of [world1_loaded]: working, three slots. *)
Definition day100 : DaySchedule :=
  mkDaySchedule "" 100 false
    [ mkTimeSlot "1" "09:00" false true;
      mkTimeSlot "2" "10:00" true false;
      mkTimeSlot "3" "11:30" true false ].

(** The loaded provider whose next request will be refused. *)
Definition world1_refused : World :=
  mkWorld (comp world1_loaded) (store world1_loaded) 100 555 steady_clock true [HttpError] [].

(** The loaded provider editing slot "2" (10:00) into 10:30, and editing
    the booked slot "1" (09:00) into 09:30. *)
Definition world1_editing : World :=
  setEditingTime "10:30" (startEditingSlot 0 "2" "10:00" world1_loaded).

Definition world1_editing_booked : World :=
  setEditingTime "09:30" (startEditingSlot 0 "1" "09:00" world1_loaded).

(** The time picker of the loaded provider holding 09:00 (taken), and
    holding 09:10 (free but already passed at 09:15) for the current day. *)
Definition world1_picking_taken : World :=
  setSelectedStartTime "09:00" (setTimePickerDayIndex (Some 0) world1_loaded).

Definition world1_picking_passed : World :=
  setSelectedStartTime "09:10" (setTimePickerDayIndex (Some 0) world1_loaded).

(** A provider whose only stored slot is on day 107, the eighth day of the
    first page, with the first page loaded. *)
Definition store3 : Store :=
  mkStore [mkSlotRow "4" 107 "09:00:00" "10:00:00" false] ∅ 5.

Definition world3 : World := loadSlots (mkWorld comp0 store3 100 555 steady_clock true [] []).

(** A provider whose stored slots are all on day 100, looking at the second
    page (days 108 to 115). *)
Definition store4 : Store :=
  mkStore
    [ mkSlotRow "1" 100 "14:00:00" "15:00:00" true;
      mkSlotRow "2" 100 "15:00:00" "16:00:00" false ]
    {[ 100 := true ]} 3.

Definition comp_page1 : Comp :=
  mkComp (Some "barber-1") [] 1 None "09:00" false false None ""
    "09:00" "10:00" 30 "" false false.

Definition world4 : World := loadSlots (mkWorld comp_page1 store4 100 555 steady_clock true [] []).

(** The loaded provider at 12:00 of day 100, and the same with 12:00 picked
    for the current day. *)
Definition world1_noon : World :=
  mkWorld (comp world1_loaded) (store world1_loaded) 100 720 steady_clock true [] [].

Definition world1_noon_picking : World :=
  setSelectedStartTime "12:00" (setTimePickerDayIndex (Some 0) world1_noon).

(** The provider with a zero duration chosen, and with the two times
    swapped. *)
Definition comp_zero_duration : Comp :=
  mkComp (Some "barber-1") [] 0 None "09:00" false false None ""
    "09:00" "10:00" 0 "" false false.

Definition world_zero_duration : World :=
  mkWorld comp_zero_duration store1 100 555 steady_clock true [] [].

Definition comp_swapped : Comp :=
  mkComp (Some "barber-1") [] 0 None "09:00" false false None ""
    "10:00" "09:00" 30 "" false false.

Definition world_swapped : World := mkWorld comp_swapped store1 100 555 steady_clock true [] [].

(** The quick-setup inputs of [w] are the [HH:MM] texts of [fh:fm] and
    [th:tm], the first before the second, with the positive duration [d]. *)
Definition setup_inputs (w : World) (fh fm th tm d : Z) : Prop :=
  quickSetupFromTime (comp w) = hhmm fh fm
  ∧ quickSetupToTime (comp w) = hhmm th tm
  ∧ quickSetupDuration (comp w) = d
  ∧ 0 ≤ fh < 24 ∧ 0 ≤ fm < 60 ∧ 0 ≤ th < 24 ∧ 0 ≤ tm < 60
  ∧ fh * 60 + fm < th * 60 + tm ∧ 0 < d.

(** The key under which a day holds a slot: its date and start time. *)
Definition slot_key (p : NewSlot) : Z * string := (new_date p, new_start p).

(** Requests that only read the storage, and toasts. *)
Definition reads_only (e : Event) : bool :=
  match e with
  | ReqListSlots _ _ | ReqKvGet | ReqSelectLatest _ | Toast _ _ => true
  | _ => false
  end.

(** The edit session and the time picker of the component. *)
Definition edit_session (w : World) : option (Z * string) * string * bool :=
  (editingSlot (comp w), editingTime (comp w), pauseAutoReload (comp w)).

(** [a] starts no later than [b], both start times being readable. *)
Definition starts_before (a b : TimeSlot) : Prop :=
  ∃ x y, toMinutes (slot_time a) = Some x ∧ toMinutes (slot_time b) = Some y ∧ x ≤ y.

(** The provider of [world1] in a zone whose clock is put forward by an
    hour in the course of day 100. *)
Definition world1_spring : World :=
  mkWorld comp0 store1 100 555 (spring_forward_clock 100) true [] [].

(** The loaded provider whose read of the working-day object will fail. *)
Definition world1_kv_down : World :=
  mkWorld comp0 store1 100 555 steady_clock true [Ok; HttpError] [].

(** The provider whose read of the working-day object will be refused
    while the write that follows is accepted. *)
Definition world1_kv_read_refused : World :=
  mkWorld comp0 store1 100 555 steady_clock true [HttpError; Ok] [].

(** The loaded provider at 23:00 of day 100: every generated time has
    passed for the current day. *)
Definition world1_late : World :=
  mkWorld (comp world1_loaded) (store world1_loaded) 100 1380 steady_clock true [] [].

(** A date of the seven-day window of the batch setup. *)
Definition in_setup_window (w : World) (dt : Z) : Prop := today w ≤ dt ≤ today w + 6.

(** The provider with a window shorter than the duration (09:00 to 09:20,
    30 minutes), first page loaded. *)
Definition comp_short_window : Comp :=
  mkComp (Some "barber-1") (weekSchedule (comp world1_loaded)) 0 None "09:00" false
    false None "" "09:00" "09:20" 30 "" false false.

Definition world1_short_window : World :=
  mkWorld comp_short_window store1 100 555 steady_clock true [] [].

(** The rows the storage holds for a batch it has accepted, the first of
    them under the key [firstId]. *)
Definition created_rows (firstId : Z) (ps : list NewSlot) : list SlotRow :=
  imap (fun i p => mkSlotRow (Js.String_ (firstId + Z.of_nat i)) (new_date p)
                     (new_start p) (new_end p) false) ps.

(** The loaded provider, signed out. *)
Definition world1_signed_out : World :=
  mkWorld (comp world1_loaded) (store world1_loaded) 100 555 steady_clock false [] [].

(** No request at all was added between [w] and [w']: only toasts. *)
Definition only_toasts (w w' : World) : Prop :=
  ∃ evs, trace w' = trace w ++ evs
    ∧ forallb (fun e => match e with Toast _ _ => true | _ => false end) evs = true.

(** The loaded provider for whom the storage accepts the delete of a day
    and the read of the working-day object, and refuses the write of the
    object. *)
Definition world1_kv_write_refused : World :=
  mkWorld (comp world1_loaded) (store world1_loaded) 100 555 steady_clock true
    [Ok; Ok; HttpError] [].

(** What an accepted edit does to a stored row and to a displayed slot. *)
Definition edited_row (slotId time endTime : string) (r : SlotRow) : SlotRow :=
  if decide (row_id r = slotId)
  then mkSlotRow (row_id r) (slot_date r) time endTime (is_booked r)
  else r.

Definition edited_slot (slotId time : string) (slot : TimeSlot) : TimeSlot :=
  if decide (slot_id slot = slotId)
  then mkTimeSlot (slot_id slot) time (available slot) (booked slot)
  else slot.

(** The loaded provider editing slot "2" (10:00) into 11:30, the time of
    slot "3". *)
Definition world1_editing_taken : World :=
  setEditingTime "11:30" (startEditingSlot 0 "2" "10:00" world1_loaded).

(** The time picker of the component. *)
Definition time_picker (w : World) : bool * option Z * string :=
  (showTimePickerModal (comp w), timePickerDayIndex (comp w), selectedStartTime (comp w)).

(** A signed-in provider with the first page loaded and nothing stored. *)
Definition world0_loaded : World := loadSlots world0.

(** The loaded provider with 12:00 picked for the current day. *)
Definition world1_picking_noon : World :=
  setShowTimePickerModal true
    (setSelectedStartTime "12:00" (setTimePickerDayIndex (Some 0) world1_loaded)).

(** ** Page navigation *)

Definition setPageIndex (f : Z -> Z) : World -> World :=
  with_comp (fun c =>
    mkComp (barberId c) (weekSchedule c) (f (pageIndex c)) (editingSlot c)
      (editingTime c) (pauseAutoReload c) (showTimePickerModal c)
      (timePickerDayIndex c) (selectedStartTime c) (quickSetupFromTime c)
      (quickSetupToTime c) (quickSetupDuration c) (quickSetupError c)
      (showQuickSetupConfirmModal c) (isQuickSetupProcessing c)).

(** The "back" button, disabled on the first page:
    [setPageIndex(prev => Math.max(0, prev - 1))], then the effect on
    [[barberId, pageIndex]], which loads the page when a provider is bound
    ([loadSlots] does nothing without one). *)
Definition clickBack (w : World) : World :=
  if pageIndex (comp w) =? 0 then w
  else loadSlots (setPageIndex (fun prev => Z.max 0 (prev - 1)) w).

(** The "next" button, disabled when [pageIndex >= MAX_PAGES - 1]:
    [setPageIndex(prev => prev + 1)], then the same effect. *)
Definition clickNext (w : World) : World :=
  if MAX_PAGES - 1 <=? pageIndex (comp w) then w
  else loadSlots (setPageIndex (fun prev => prev + 1) w).

Inductive Click := Back | Next.

Definition click (k : Click) : World -> World :=
  match k with
  | Back => clickBack
  | Next => clickNext
  end.

(** A sequence of clicks on the two buttons, first click first. *)
Definition navigate (ks : list Click) (w : World) : World :=
  fold_left (fun w k => click k w) ks w.

(** Day [dt] is shown at position [idx] of the displayed page. *)
Definition shows_date (w : World) (idx dt : Z) : Prop :=
  ∃ d, at_index (weekSchedule (comp w)) idx = Some d ∧ date d = dt.

(** The loaded provider for whom the storage refuses the first delete of
    a day. *)
Definition world1_delete_refused : World :=
  mkWorld (comp world1_loaded) (store world1_loaded) 100 555 steady_clock true [HttpError] [].

(** The loaded provider for whom the storage clears the first day of the
    page and refuses the delete of the second. *)
Definition world1_second_delete_refused : World :=
  mkWorld (comp world1_loaded) (store world1_loaded) 100 555 steady_clock true
    [Ok; Ok; Ok; HttpError] [].

(** ** Provider visibility

    The switch "unavailable" of the component and the column
    [is_available] of the provider's row, which it mirrors negated. *)

Module Availability.

Record State := mkState {
  barber : option string;         (* [barberId] *)
  is_available : option bool;     (* the stored column, [None] for null *)
  unavailable : bool;             (* the state behind the switch *)
  toasts : list (bool * string)   (* toasts shown, success flag first *)
}.

Definition toast (ok : bool) (msg : string) (s : State) : State :=
  mkState (barber s) (is_available s) (unavailable s) (toasts s ++ [(ok, msg)]).

(** [loadAvailability()], the effect on [[barberId]]; [a] answers the
    select.  [data?.is_available === false] holds for the stored [false]
    only. *)
Definition loadAvailability (a : Answer) (s : State) : State :=
  match barber s with
  | None => s
  | Some _ =>
      match a with
      | Ok =>
          mkState (barber s) (is_available s)
            (bool_decide (is_available s = Some false)) (toasts s)
      | _ => s
      end
  end.

(** [handleAvailabilityToggle(checked)]; [a] answers the update.
    Modelled from the spec: an accepted update sets the stored flag. *)
Definition handleAvailabilityToggle (checked : bool) (a : Answer) (s : State) : State :=
  match barber s with
  | None => toast false "Unable to update availability" s
  | Some _ =>
      let newAvailability := negb checked in
      match a with
      | Ok =>
          toast true (if checked then "schedule.nowUnavailable" else "schedule.nowAvailable")
            (mkState (barber s) (Some newAvailability) checked (toasts s))
      | _ => toast false "toast.availabilityUpdateFailed" s
      end
  end.

(** A provider whose row has no flag yet, the switch off. *)
Definition state0 : State := mkState (Some "barber-1") None false [].

End Availability.

(** * Properties *)

(** ** Time texts *)

Lemma forallb_seqZ (P : Z -> bool) (lo n x : Z) :
  forallb P (seqZ lo n) = true -> lo ≤ x < lo + n -> P x = true.
Proof.
  intros Hall Hx. rewrite forallb_forall in Hall. apply Hall.
  apply list_elem_of_In, elem_of_seqZ. lia.
Qed.

(** Reading back the text of a minute of the day. *)
Lemma toMinutes_timeStr (x : Z) : 0 ≤ x < 1440 -> toMinutes (timeStr x) = Some x.
Proof.
  intros Hx.
  pose (P := fun x => bool_decide (toMinutes (timeStr x) = Some x)).
  assert (Hall : forallb P (seqZ 0 1440) = true) by (vm_compute; reflexivity).
  apply (forallb_seqZ P 0 1440 x) in Hall; [| lia].
  unfold P in Hall. by apply bool_decide_eq_true in Hall.
Qed.

Lemma timeStr_hhmm (h m : Z) : 0 ≤ h -> 0 ≤ m < 60 -> timeStr (h * 60 + m) = hhmm h m.
Proof.
  intros Hh Hm. unfold timeStr.
  assert (Hq : (h * 60 + m) / 60 = h) by (rewrite Z.div_add_l by lia; rewrite Z.div_small; lia).
  assert (Hr : Z.rem (h * 60 + m) 60 = m).
  { rewrite Z.rem_mod_nonneg by lia.
    rewrite Z.add_comm, Z.mod_add by lia. apply Z.mod_small; lia. }
  by rewrite Hq, Hr.
Qed.

Lemma toMinutes_hhmm (h m : Z) :
  0 ≤ h < 24 -> 0 ≤ m < 60 -> toMinutes (hhmm h m) = Some (h * 60 + m).
Proof.
  intros Hh Hm. rewrite <- timeStr_hhmm by lia. apply toMinutes_timeStr. lia.
Qed.

(** ** Slot generation *)

(** A positive duration: the loop stops on its own after
    [(toMin - cur) / d] rounds, whatever larger bound it is given. *)
Lemma generate_loop_fuel_enough (fuel : nat) (cur d toMin : Z) :
  0 < d ->
  (Z.to_nat ((toMin - cur) / d) ≤ fuel)%nat ->
  generate_loop fuel cur d toMin
  = Some ((fun i => timeStr (cur + i * d)) <$> seqZ 0 ((toMin - cur) / d)).
Proof.
  intros Hd. revert cur. induction fuel as [| fuel IH]; intros cur Hfuel.
  - assert (Hq : (toMin - cur) / d ≤ 0) by lia.
    assert (Hlt : toMin - cur < d).
    { destruct (decide (toMin - cur < d)) as [|Hge]; [done|].
      assert (1 ≤ (toMin - cur) / d) by (apply Z.div_le_lower_bound; lia). lia. }
    simpl. destruct (Z.leb_spec (cur + d) toMin) as [Hle|_]; [lia|].
    rewrite seqZ_nil by lia. done.
  - simpl. destruct (Z.leb_spec (cur + d) toMin) as [Hle|Hgt].
    + assert (Hstep : (toMin - (cur + d)) / d = (toMin - cur) / d - 1).
      { replace (toMin - (cur + d)) with ((toMin - cur) + (-1) * d) by lia.
        rewrite Z.div_add by lia. lia. }
      assert (Hpos : 1 ≤ (toMin - cur) / d) by (apply Z.div_le_lower_bound; lia).
      rewrite IH by (rewrite Hstep; lia).
      rewrite Hstep. simpl. f_equal.
      rewrite (seqZ_cons 0 ((toMin - cur) / d)) by lia.
      rewrite fmap_cons. f_equal; [f_equal; lia|].
      replace (Z.pred ((toMin - cur) / d)) with ((toMin - cur) / d - 1) by lia.
      rewrite <- (fmap_add_seqZ 1 0). rewrite <- list_fmap_compose.
      apply list_fmap_ext. intros _ i _. simpl. f_equal. lia.
    + assert (Hq : (toMin - cur) / d ≤ 0).
      { destruct (decide (toMin - cur < 0)).
        - assert ((toMin - cur) / d < 0) by (apply Z.div_lt_upper_bound; lia). lia.
        - rewrite Z.div_small by lia. lia. }
      rewrite seqZ_nil by lia. done.
Qed.

(** A duration that is not positive, with the first test true: the loop
    exhausts every bound. *)
Lemma generate_loop_diverges (fuel : nat) (cur d toMin : Z) :
  d ≤ 0 -> cur + d ≤ toMin -> generate_loop fuel cur d toMin = None.
Proof.
  intros Hd. revert cur. induction fuel as [| fuel IH]; intros cur Hle; simpl;
    destruct (Z.leb_spec (cur + d) toMin); try lia; [done|].
  rewrite IH by lia. done.
Qed.

Section Generated.

Variables fromMinutes toMin d : Z.
Hypothesis from_nonneg : 0 ≤ fromMinutes.
Hypothesis to_in_day : toMin < 1440.
Hypothesis d_pos : 0 < d.

Lemma generated_lookup (i : nat) (a : string) :
  generated fromMinutes toMin d !! i = Some a ->
  a = timeStr (fromMinutes + Z.of_nat i * d)
  ∧ Z.of_nat i < (toMin - fromMinutes) / d.
Proof.
  unfold generated. rewrite list_lookup_fmap.
  destruct (seqZ 0 ((toMin - fromMinutes) / d) !! i) as [j|] eqn:Hj; [|done].
  apply lookup_seqZ in Hj as [-> Hi]. simpl. intros [= <-].
  split; [f_equal; lia | lia].
Qed.

(** Every generated start reads back as its minute count, and the slot it
    starts ends within the window. *)
Lemma generated_minutes (i : nat) (a : string) :
  generated fromMinutes toMin d !! i = Some a ->
  toMinutes a = Some (fromMinutes + Z.of_nat i * d)
  ∧ fromMinutes + Z.of_nat i * d + d ≤ toMin.
Proof.
  intros Hi. apply generated_lookup in Hi as [-> Hi].
  assert (Hq : d * ((toMin - fromMinutes) / d) ≤ toMin - fromMinutes).
  { apply Z.mul_div_le. lia. }
  assert (Hend : fromMinutes + Z.of_nat i * d + d ≤ toMin) by nia.
  split; [|done]. apply toMinutes_timeStr. nia.
Qed.

Lemma generated_length :
  fromMinutes ≤ toMin ->
  Z.of_nat (length (generated fromMinutes toMin d)) = (toMin - fromMinutes) / d.
Proof.
  intros Hle. unfold generated. rewrite length_fmap, length_seqZ.
  assert (0 ≤ (toMin - fromMinutes) / d) by (apply Z.div_pos; lia). lia.
Qed.

End Generated.

(** C1. For every HH:MM pair of inputs with [fromMinutes < toMinutes] and
    every positive duration, [generateTimeSlots] returns a list of exactly
    [floor((toMinutes - fromMinutes) / duration)] start times; if it is not
    empty its first element is [fromTime]; consecutive starts differ by
    exactly [duration] minutes; the last start plus [duration] does not
    exceed [toMinutes]; and a window shorter than one duration yields the
    empty list (a normal result, not a failure). *)
Theorem generateTimeSlots_count_and_spacing (fh fm th tm d : Z) :
  0 ≤ fh < 24 -> 0 ≤ fm < 60 -> 0 ≤ th < 24 -> 0 ≤ tm < 60 ->
  fh * 60 + fm < th * 60 + tm -> 0 < d ->
  ∃ l : list string,
    generateTimeSlots (hhmm fh fm) (hhmm th tm) d = Some l
    ∧ Z.of_nat (length l) = (th * 60 + tm - (fh * 60 + fm)) / d
    ∧ (l ≠ [] -> head l = Some (hhmm fh fm))
    ∧ (∀ (i : nat) (a b : string), l !! i = Some a -> l !! S i = Some b ->
         ∃ x, toMinutes a = Some x ∧ toMinutes b = Some (x + d))
    ∧ (∀ a : string, last l = Some a ->
         ∃ x, toMinutes a = Some x ∧ x + d ≤ th * 60 + tm)
    ∧ (th * 60 + tm - (fh * 60 + fm) < d -> l = []).
Proof.
  intros Hfh Hfm Hth Htm Hlt Hd.
  set (fromMinutes := fh * 60 + fm) in *. set (toMin := th * 60 + tm) in *.
  assert (Hfrom : 0 ≤ fromMinutes) by (unfold fromMinutes; lia).
  assert (Hto : toMin < 1440) by (unfold toMin; lia).
  exists (generated fromMinutes toMin d).
  split.
  { unfold generateTimeSlots. rewrite !toMinutes_hhmm by done.
    fold fromMinutes toMin. apply generate_loop_fuel_enough; [done|].
    assert ((toMin - fromMinutes) / d ≤ toMin - fromMinutes).
    { apply Z.div_le_upper_bound; nia. }
    lia. }
  split; [apply generated_length; lia|].
  split.
  { intros Hne. destruct (generated fromMinutes toMin d) as [|a l] eqn:Hl; [done|].
    simpl. f_equal.
    assert (Ha : generated fromMinutes toMin d !! 0%nat = Some a) by (by rewrite Hl).
    apply generated_lookup in Ha as [-> _].
    replace (fromMinutes + Z.of_nat 0 * d) with fromMinutes by lia.
    unfold fromMinutes. apply timeStr_hhmm; lia. }
  split.
  { intros i a b Ha Hb.
    apply generated_minutes in Ha as [Ha _]; [|done..].
    apply generated_minutes in Hb as [Hb _]; [|done..].
    eexists. split; [exact Ha|]. rewrite Hb. f_equal. lia. }
  split.
  { intros a Ha. rewrite last_lookup in Ha.
    apply generated_minutes in Ha as [Ha Hend]; [|done..]. eauto. }
  intros Hshort. unfold generated.
  rewrite Z.div_small by lia. done.
Qed.

(** The two runs the specification lists, and the theorem at 09:00-10:00
    with a 30 minute duration. *)
Example generate_0900_1000_30 :
  generateTimeSlots "09:00" "10:00" 30 = Some ["09:00"; "09:30"].
Proof. reflexivity. Qed.

Example generate_0900_0920_30 : generateTimeSlots "09:00" "09:20" 30 = Some [].
Proof. reflexivity. Qed.

(** A zero duration, which [validateQuickSetup] refuses, would loop for
    ever. *)
Example generate_zero_duration : generateTimeSlots "09:00" "10:00" 0 = None.
Proof. reflexivity. Qed.

Lemma generateTimeSlots_count_and_spacing_witness :
  ∃ l : list string,
    generateTimeSlots (hhmm 9 0) (hhmm 10 0) 30 = Some l
    ∧ Z.of_nat (length l) = (10 * 60 + 0 - (9 * 60 + 0)) / 30
    ∧ (l ≠ [] -> head l = Some (hhmm 9 0))
    ∧ (∀ (i : nat) (a b : string), l !! i = Some a -> l !! S i = Some b ->
         ∃ x, toMinutes a = Some x ∧ toMinutes b = Some (x + 30))
    ∧ (∀ a : string, last l = Some a ->
         ∃ x, toMinutes a = Some x ∧ x + 30 ≤ 10 * 60 + 0)
    ∧ (10 * 60 + 0 - (9 * 60 + 0) < 30 -> l = []).
Proof.
  apply (generateTimeSlots_count_and_spacing 9 0 10 0 30); lia.
Defined.

(** ** Requests and answers *)

Lemma request_all_ok (e : Event) (w : World) :
  all_ok w ->
  ∃ w', request e w = (Ok, w')
    ∧ comp w' = comp w ∧ store w' = store w ∧ today w' = today w
    ∧ currentMinutes w' = currentMinutes w ∧ sessionToken w' = sessionToken w
    ∧ trace w' = trace w ++ [e] ∧ all_ok w'
    ∧ localMidnight w' = localMidnight w.
Proof.
  unfold all_ok, request. intros Hok. eexists. split.
  - f_equal. destruct (oracle w) as [|a o]; [done|]. by inversion Hok.
  - simpl. repeat split; try done.
    destruct (oracle w) as [|a o]; [done|]. by inversion Hok.
Qed.

(** Step over the first request of the goal when every answer is ok. *)
Ltac answer_ok Hok :=
  match goal with
  | |- context [request ?e ?w] =>
      let w' := fresh "w" in
      let Hreq := fresh "Hreq" in
      let Hc := fresh "Hcomp" in
      let Hs := fresh "Hstore" in
      let Ht := fresh "Htoday" in
      let Hm := fresh "Hmin" in
      let Hk := fresh "Htoken" in
      let Htr := fresh "Htrace" in
      let Hok' := fresh "Hok" in
      let Hclk := fresh "Hclock" in
      destruct (request_all_ok e w Hok)
        as (w' & Hreq & Hc & Hs & Ht & Hm & Hk & Htr & Hok' & Hclk);
      rewrite Hreq
  end.

(** ** Sorting keeps the slots *)

Lemma insert_sorted_perm {A} (le : A -> A -> bool) (x : A) (l : list A) :
  insert_sorted le x l ≡ₚ x :: l.
Proof.
  induction l as [|y l IH]; simpl; [done|].
  destruct (le x y); [done|]. rewrite IH. apply Permutation_swap.
Qed.

Lemma sort_by_perm {A} (le : A -> A -> bool) (l : list A) : sort_by le l ≡ₚ l.
Proof.
  induction l as [|x l IH]; simpl; [done|].
  rewrite insert_sorted_perm. by rewrite IH.
Qed.

(** ** The schedule [loadSlots] builds *)

Lemma newSchedule_at (midnight : Z -> Z) (windowStart : Z) (wd : gmap Z bool)
    (data : list SlotRow) (idx : Z) (d : DaySchedule) :
  at_index (newSchedule midnight windowStart wd data) idx = Some d ->
  0 ≤ idx < DAYS_PER_PAGE
  ∧ d = mkDaySchedule "" (windowStart + idx)
          (negb (bool_decide (wd !! (windowStart + idx) = Some true)))
          (sort_by time_le
             (map slot_of_row
                (filter (fun r => daysDiff midnight windowStart (slot_date r) = idx)
                   data))).
Proof.
  unfold at_index, newSchedule.
  destruct (Z.ltb_spec idx 0) as [|Hidx]; [done|].
  rewrite list_lookup_fmap.
  destruct (seqZ 0 DAYS_PER_PAGE !! Z.to_nat idx) as [j|] eqn:Hj; [|done].
  apply lookup_seqZ in Hj as [-> Hlt]. simpl. intros [= <-].
  replace (0 + Z.of_nat (Z.to_nat idx)) with idx by lia.
  split; [lia | done].
Qed.

Lemma newSchedule_slots (midnight : Z -> Z) (windowStart : Z) (wd : gmap Z bool)
    (data : list SlotRow) (idx : Z) (d : DaySchedule) (slot : TimeSlot) :
  at_index (newSchedule midnight windowStart wd data) idx = Some d ->
  slot ∈ slots d ↔
  ∃ r, r ∈ data ∧ daysDiff midnight windowStart (slot_date r) = idx
    ∧ slot = slot_of_row r.
Proof.
  intros Hd. apply newSchedule_at in Hd as [_ ->]. simpl.
  rewrite sort_by_perm. rewrite list_elem_of_fmap.
  split.
  - intros (r & -> & Hr). apply list_elem_of_filter in Hr as [Hdate Hr].
    exists r. done.
  - intros (r & Hr & Hdate & ->). exists r. split; [done|].
    by apply list_elem_of_filter.
Qed.

(** Every index of the page has its entry, whatever was fetched. *)
Lemma newSchedule_lookup (midnight : Z -> Z) (windowStart idx : Z) (wd : gmap Z bool)
    (data : list SlotRow) :
  0 ≤ idx < DAYS_PER_PAGE ->
  ∃ d, at_index (newSchedule midnight windowStart wd data) idx = Some d
    ∧ date d = windowStart + idx.
Proof.
  intros Hidx. unfold at_index, newSchedule. destruct (Z.ltb_spec idx 0); [lia|].
  rewrite list_lookup_fmap, (lookup_seqZ_lt 0 DAYS_PER_PAGE) by lia. simpl.
  eexists. split; [reflexivity|]. cbn [date]. by rewrite Z2Nat.id by lia.
Qed.

(** On a page without clock change the rows filed under an index are the
    rows of the date of that index. *)
Lemma steady_daysDiff (midnight : Z -> Z) (windowStart dt : Z) :
  (∀ k, 0 ≤ k < DAYS_PER_PAGE ->
        midnight (windowStart + k) = midnight windowStart + k * MS_PER_DAY) ->
  windowStart ≤ dt ≤ windowStart + (DAYS_PER_PAGE - 1) ->
  daysDiff midnight windowStart dt = dt - windowStart.
Proof.
  intros Hsteady Hdt. unfold daysDiff.
  replace dt with (windowStart + (dt - windowStart)) at 1 by lia.
  rewrite Hsteady by (unfold DAYS_PER_PAGE in *; lia).
  replace (midnight windowStart + (dt - windowStart) * MS_PER_DAY - midnight windowStart)
    with ((dt - windowStart) * MS_PER_DAY) by lia.
  apply Z.div_mul. done.
Qed.

Lemma page_rows_of_day (midnight : Z -> Z) (windowStart idx : Z) (s : Store) :
  (∀ k, 0 ≤ k < DAYS_PER_PAGE ->
        midnight (windowStart + k) = midnight windowStart + k * MS_PER_DAY) ->
  0 ≤ idx < DAYS_PER_PAGE ->
  filter (fun r => daysDiff midnight windowStart (slot_date r) = idx)
    (Storage.listByDateRange windowStart (windowStart + (DAYS_PER_PAGE - 1)) s)
  = filter (fun r => slot_date r = windowStart + idx) (barber_slots s).
Proof.
  intros Hsteady Hidx. unfold Storage.listByDateRange. rewrite list_filter_filter.
  apply list_filter_iff. intros r. split.
  - intros [Hd Hr]. rewrite (steady_daysDiff _ _ _ Hsteady Hr) in Hd. lia.
  - intros Hr. assert (Hin : windowStart ≤ slot_date r ≤ windowStart + (DAYS_PER_PAGE - 1))
      by (unfold DAYS_PER_PAGE in *; lia).
    rewrite (steady_daysDiff _ _ _ Hsteady Hin). split; [lia | done].
Qed.

(** A reload whose two requests succeed, for a signed-in provider. *)
Lemma loadSlots_ok (w : World) (b : string) :
  barberId (comp w) = Some b -> sessionToken w = true -> all_ok w ->
  let windowStart := getPageStartDate w (pageIndex (comp w)) in
  let windowEnd := windowStart + (DAYS_PER_PAGE - 1) in
  weekSchedule (comp (loadSlots w))
  = newSchedule (localMidnight w) windowStart (working_days (store w))
      (Storage.listByDateRange windowStart windowEnd (store w))
  ∧ store (loadSlots w) = store w
  ∧ trace (loadSlots w) = trace w ++ [ReqListSlots windowStart windowEnd; ReqKvGet]
  ∧ all_ok (loadSlots w).
Proof.
  intros Hb Htok Hok. unfold loadSlots. rewrite Hb, Htok. cbn [negb]. cbv zeta.
  answer_ok Hok. answer_ok Hok0. simpl.
  rewrite Hstore0, Hstore, Htrace0, Htrace, <- app_assoc. simpl.
  repeat split; done.
Qed.

(** ** Working-day state *)

(** An update whose two requests succeed. *)
Lemma updateWorkingDayState_ok (dt : Z) (isWorkingDay : bool) (w : World) :
  sessionToken w = true -> all_ok w ->
  let w' := updateWorkingDayState dt isWorkingDay w in
  working_days (store w')
  = (if isWorkingDay then <[dt := true]> (working_days (store w))
     else delete dt (working_days (store w)))
  ∧ barber_slots (store w') = barber_slots (store w)
  ∧ comp w' = comp w ∧ today w' = today w
  ∧ currentMinutes w' = currentMinutes w ∧ sessionToken w' = true
  ∧ all_ok w'.
Proof.
  intros Htok Hok. unfold updateWorkingDayState. rewrite Htok. cbn [negb]. cbv zeta.
  answer_ok Hok. answer_ok Hok0. simpl.
  rewrite Hstore0, Hstore, Hcomp0, Hcomp, Htoday0, Htoday, Hmin0, Hmin, Htoken0, Htoken.
  repeat split; try done.
Qed.

(** C10. A day is a working day only when the stored working-day object
    binds its date to [true].  A reload that succeeds builds an entry for
    each of the [DAYS_PER_PAGE] dates of the page, and the entry is off
    unless the object holds [true] for its date: a date the object does
    not mention is off and its card renders no slot, whatever slots the
    storage holds for it, and the off flags of the page are the same
    whatever rows are stored.  Turning a day off removes the date's key
    from the object instead of storing [false]. *)
Theorem working_day_only_when_bound_to_true (w : World) (b : string) :
  barberId (comp w) = Some b -> sessionToken w = true -> all_ok w ->
  length (weekSchedule (comp (loadSlots w))) = Z.to_nat DAYS_PER_PAGE
  ∧ (∀ idx : Z, 0 ≤ idx < DAYS_PER_PAGE ->
       ∃ d, at_index (weekSchedule (comp (loadSlots w))) idx = Some d
         ∧ date d = getActualDate w idx (pageIndex (comp w))
         ∧ (isOff d = false ↔ working_days (store w) !! date d = Some true)
         ∧ (working_days (store w) !! date d = None ->
            isOff d = true ∧ renderedSlots d = []))
  ∧ (∀ (rows : list SlotRow) (nextId : Z),
       isOff <$> weekSchedule
                   (comp (loadSlots
                            (with_store (fun s => mkStore rows (working_days s) nextId) w)))
       = isOff <$> weekSchedule (comp (loadSlots w)))
  ∧ (∀ dt : Z,
       working_days (store (updateWorkingDayState dt false w))
       = delete dt (working_days (store w))
       ∧ working_days (store (updateWorkingDayState dt false w)) !! dt = None).
Proof.
  intros Hb Htok Hok.
  destruct (loadSlots_ok w b Hb Htok Hok) as (Hws & _).
  split; [|split; [|split]].
  - rewrite Hws. unfold newSchedule. by rewrite length_map, length_seqZ.
  - intros idx Hidx. rewrite Hws.
    match goal with |- context [newSchedule ?c ?ws ?wd ?data] =>
      destruct (newSchedule_lookup c ws idx wd data Hidx) as (d & Hd & _) end.
    exists d. split; [exact Hd|].
    apply newSchedule_at in Hd as [_ ->]. unfold renderedSlots. simpl.
    split; [done|]. split.
    + rewrite negb_false_iff, bool_decide_eq_true. done.
    + intros Hnone. rewrite Hnone. done.
  - intros rows nextId.
    match goal with |- context [loadSlots ?x] =>
      destruct (loadSlots_ok x b Hb Htok Hok) as (-> & _) end.
    rewrite Hws. unfold newSchedule. rewrite <- !list_fmap_compose.
    by apply list_fmap_ext.
  - intros dt.
    destruct (updateWorkingDayState_ok dt false w Htok Hok) as (Hwd & _).
    rewrite Hwd. split; [done|]. apply lookup_delete_eq.
Qed.

Lemma working_day_only_when_bound_to_true_witness :
  length (weekSchedule (comp (loadSlots world1))) = Z.to_nat DAYS_PER_PAGE
  ∧ (∀ idx : Z, 0 ≤ idx < DAYS_PER_PAGE ->
       ∃ d, at_index (weekSchedule (comp (loadSlots world1))) idx = Some d
         ∧ date d = getActualDate world1 idx (pageIndex (comp world1))
         ∧ (isOff d = false ↔ working_days (store world1) !! date d = Some true)
         ∧ (working_days (store world1) !! date d = None ->
            isOff d = true ∧ renderedSlots d = []))
  ∧ (∀ (rows : list SlotRow) (nextId : Z),
       isOff <$> weekSchedule
                   (comp (loadSlots
                            (with_store (fun s => mkStore rows (working_days s) nextId)
                               world1)))
       = isOff <$> weekSchedule (comp (loadSlots world1)))
  ∧ (∀ dt : Z,
       working_days (store (updateWorkingDayState dt false world1))
       = delete dt (working_days (store world1))
       ∧ working_days (store (updateWorkingDayState dt false world1)) !! dt = None).
Proof.
  apply (working_day_only_when_bound_to_true world1 "barber-1").
  - reflexivity.
  - reflexivity.
  - constructor.
Defined.

(** On the provider of [world1], whose working-day object binds the days
    100 and 110: the first page has eight entries; day 100 is a working day
    and renders its three slots; day 107 has a stored slot and no key in
    the object, so it is off and renders nothing; turning day 100 off
    leaves the object without a key for it. *)
Example working_days_of_world1 :
  isOff <$> weekSchedule (comp (loadSlots world1))
  = [false; true; true; true; true; true; true; true]
  ∧ fmap slot_id <$> (renderedSlots <$> at_index (weekSchedule (comp (loadSlots world1))) 0)
    = Some ["1"; "2"; "3"]
  ∧ fmap slot_id <$> (slots <$> at_index (weekSchedule (comp (loadSlots world1))) 7)
    = Some ["4"]
  ∧ renderedSlots <$> at_index (weekSchedule (comp (loadSlots world1))) 7 = Some []
  ∧ working_days (store (toggleDayOff 0 world1_loaded)) !! 100 = None
  ∧ working_days (store (toggleDayOff 0 world1_loaded)) !! 110 = Some true.
Proof. repeat split; vm_compute; reflexivity. Qed.

(** ** Conflict check *)

Lemma digit_not_colon (c : ascii) (v : Z) :
  Js.digit_value c = Some v -> Ascii.eqb c ":" = false.
Proof.
  destruct c as [[] [] [] [] [] [] [] []]; vm_compute; congruence.
Qed.

Lemma padStart2_two_digits (x : Z) :
  0 ≤ x < 100 -> two_digits_of x (Js.padStart2 (Js.String_ x)) = true.
Proof.
  intros Hx.
  assert (Hall : forallb (fun x => two_digits_of x (Js.padStart2 (Js.String_ x)))
                   (seqZ 0 100) = true) by (vm_compute; reflexivity).
  apply (forallb_seqZ _ 0 100 x) in Hall; [done | lia].
Qed.

(** The five characters of an [HH:MM] text. *)
Lemma hhmm_chars (h m : Z) :
  0 ≤ h < 100 -> 0 ≤ m < 100 ->
  ∃ a b c d va vb vc vd,
    hhmm h m = String a (String b (String ":" (String c (String d EmptyString))))
    ∧ Js.digit_value a = Some va ∧ Js.digit_value b = Some vb
    ∧ Js.digit_value c = Some vc ∧ Js.digit_value d = Some vd
    ∧ h = 10 * va + vb ∧ m = 10 * vc + vd.
Proof.
  intros Hh Hm. unfold hhmm.
  pose proof (padStart2_two_digits h Hh) as H1.
  pose proof (padStart2_two_digits m Hm) as H2.
  destruct (Js.padStart2 (Js.String_ h)) as [|a [|b [|]]]; try done.
  destruct (Js.padStart2 (Js.String_ m)) as [|c [|d [|]]]; try done.
  simpl in H1, H2.
  destruct (Js.digit_value a) as [va|] eqn:Ha; [|done].
  destruct (Js.digit_value b) as [vb|] eqn:Hb; [|done].
  destruct (Js.digit_value c) as [vc|] eqn:Hc; [|done].
  destruct (Js.digit_value d) as [vd|] eqn:Hd; [|done].
  exists a, b, c, d, va, vb, vc, vd. simpl. repeat split; try done; lia.
Qed.

(** Cutting a time text to five characters drops the seconds part, and
    reading its minutes ignores it. *)
Lemma time_text_slice (h m : Z) (s : string) :
  time_text h m s -> Js.slice05 s = hhmm h m.
Proof.
  intros (Hh & Hm & rest & -> & _).
  destruct (hhmm_chars h m) as (a & b & c & d & va & vb & vc & vd & -> & _); [lia..|].
  simpl. by destruct rest.
Qed.

Lemma time_text_minutes (h m : Z) (s : string) :
  time_text h m s -> toMinutes s = Some (h * 60 + m).
Proof.
  intros (Hh & Hm & rest & -> & Hrest).
  pose proof (toMinutes_hhmm h m Hh Hm) as Hmin. revert Hmin.
  destruct (hhmm_chars h m)
    as (a & b & c & d & va & vb & vc & vd & -> & Ha & Hb & Hc & Hd & _); [lia..|].
  unfold toMinutes. simpl.
  rewrite (digit_not_colon a va Ha), (digit_not_colon b vb Hb),
    (digit_not_colon c vc Hc), (digit_not_colon d vd Hd).
  destruct Hrest as [-> | (r & ->)]; simpl; [done|].
  destruct (Js.split_colon r) as [|piece pieces] eqn:Hr; simpl; done.
Qed.


(** What the check computes, on the schedule the component holds. *)
Lemma isDuplicateTime_iff (w : World) (dayIndex : Z) (time : string)
    (excludeSlotId : option string) :
  isDuplicateTime w dayIndex time excludeSlotId = true ↔
  ∃ d slot, at_index (weekSchedule (comp w)) dayIndex = Some d
    ∧ slot ∈ slots d ∧ slot_time slot = time ∧ Some (slot_id slot) ≠ excludeSlotId.
Proof.
  unfold isDuplicateTime.
  destruct (at_index (weekSchedule (comp w)) dayIndex) as [d|];
    [| split; [done | by intros (d' & slot & Hd & _)]].
  rewrite existsb_exists. split.
  - intros (slot & Hin & Hslot). apply andb_true_iff in Hslot as [Ht Hid].
    apply bool_decide_eq_true in Ht. apply bool_decide_eq_true in Hid.
    exists d, slot. by rewrite list_elem_of_In.
  - intros (d' & slot & [= <-] & Hin & Ht & Hid). exists slot.
    rewrite <- list_elem_of_In. split; [done|].
    apply andb_true_iff. by rewrite !bool_decide_eq_true.
Qed.





(** The same check on the loaded provider: 09:00 is taken on day 100 by
    slot "1", stored with a seconds part; for an edit of slot "1" itself it
    is free; 12:00 is free. *)
Example isDuplicateTime_day100 :
  isDuplicateTime (loadSlots world1) 0 "09:00" None = true
  ∧ isDuplicateTime (loadSlots world1) 0 "09:00" (Some "1") = false
  ∧ isDuplicateTime (loadSlots world1) 0 "11:30" (Some "2") = true
  ∧ isDuplicateTime (loadSlots world1) 0 "12:00" None = false.
Proof. repeat split; vm_compute; reflexivity. Qed.

(** ** Traces of the building blocks *)

(** Close [continues] and the facts stated next to it once the operation
    has been computed on an explicit world. *)
Ltac trace_done :=
  eexists; unfold continues; cbn [today currentMinutes sessionToken comp trace store];
  repeat match goal with
         | |- _ ∧ _ => split
         | |- _ = _ ++ _ => rewrite <- ?app_assoc; cbn [app]; reflexivity
         | |- _ => first [ reflexivity | done ]
         end.



Lemma continues_refl (w : World) : continues w w [].
Proof. unfold continues. by rewrite app_nil_r. Qed.

Lemma continues_trans (w1 w2 w3 : World) (evs1 evs2 : list Event) :
  continues w1 w2 evs1 -> continues w2 w3 evs2 -> continues w1 w3 (evs1 ++ evs2).
Proof.
  unfold continues. intros (? & ? & ? & ? & ? & Ht1) (? & ? & ? & ? & ? & Ht2).
  rewrite Ht2, Ht1, app_assoc. repeat split; congruence.
Qed.

Lemma refetches_continues (w w' : World) (evs : list Event) :
  continues w w' evs ->
  refetches w' = (refetches w + length (List.filter is_refetch evs))%nat.
Proof.
  intros (_ & _ & _ & _ & _ & Ht). unfold refetches.
  by rewrite Ht, List.filter_app, length_app.
Qed.

Lemma passive_no_refetch (evs : list Event) :
  forallb passive evs = true -> List.filter is_refetch evs = [].
Proof.
  induction evs as [|e evs IH]; simpl; [done|].
  intros [He Hevs]%andb_true_iff. rewrite IH by done. by destruct e.
Qed.

(** [updateWorkingDayState] only talks to the working-day object, whatever
    the answers, and leaves the component and the slot table alone. *)
Lemma updateWorkingDayState_passive (dt : Z) (isWorkingDay : bool) (w : World) :
  ∃ evs, continues w (updateWorkingDayState dt isWorkingDay w) evs
    ∧ forallb passive evs = true
    ∧ comp (updateWorkingDayState dt isWorkingDay w) = comp w
    ∧ barber_slots (store (updateWorkingDayState dt isWorkingDay w))
      = barber_slots (store w).
Proof.
  destruct w as [c st td cm clk tok orc tr]. unfold updateWorkingDayState, continues.
  destruct tok; simpl.
  - destruct orc as [|[] [|[] orc]]; simpl; trace_done.
  - exists []. by rewrite app_nil_r.
Qed.

Lemma updateWorkingDayState_all_passive (dates : list Z) (w : World) :
  ∃ evs,
    continues w
      (fold_left (fun acc dateStr => updateWorkingDayState dateStr true acc) dates w) evs
    ∧ forallb passive evs = true.
Proof.
  revert w. induction dates as [|dt dates IH]; intros w; simpl.
  - exists []. split; [apply continues_refl | done].
  - destruct (updateWorkingDayState_passive dt true w) as (evs1 & Hc1 & Hp1 & _).
    destruct (IH (updateWorkingDayState dt true w)) as (evs2 & Hc2 & Hp2).
    exists (evs1 ++ evs2). split; [by eapply continues_trans|].
    rewrite forallb_app. by rewrite Hp1, Hp2.
Qed.

(** A reload by a signed-in provider asks for the slot list of the page
    exactly once, whatever the answers. *)
Lemma loadSlots_one_refetch (w : World) (b : string) :
  barberId (comp w) = Some b -> sessionToken w = true ->
  ∃ evs,
    continues w (loadSlots w)
      (ReqListSlots (getPageStartDate w (pageIndex (comp w)))
         (getPageStartDate w (pageIndex (comp w)) + (DAYS_PER_PAGE - 1)) :: evs)
    ∧ forallb passive evs = true.
Proof.
  destruct w as [c st td cm clk tok orc tr]. simpl. intros Hb ->.
  unfold loadSlots, continues. simpl. rewrite Hb. simpl.
  destruct orc as [|[] [|[] orc]]; simpl; trace_done.
Qed.

(** ** Quick setup: what is sent for each day *)

Lemma day_batch_dates (w : World) (k : Z) (slotTimes : list string) (p : NewSlot) :
  p ∈ day_batch w k slotTimes -> new_date p = today w + k.
Proof.
  unfold day_batch. intros (t & _ & Hp)%list_elem_of_omap.
  destruct ((k =? 0) && time_passed w t); [done|]. by injection Hp as <-.
Qed.

Lemma fmap_omap_filter {A B C} (f : A -> option B) (g : B -> C)
    (keep : A -> bool) (h : A -> C) (l : list A) :
  (∀ x, (f x = None ∧ keep x = false)
        ∨ (∃ y, f x = Some y ∧ keep x = true ∧ g y = h x)) ->
  g <$> omap f l = h <$> List.filter keep l.
Proof.
  intros Hf. induction l as [|x l IH]; [done|].
  cbn [omap list_omap List.filter].
  destruct (Hf x) as [[-> ->] | (y & -> & -> & Hy)]; [done|].
  rewrite !fmap_cons. by rewrite IH, Hy.
Qed.

Lemma filter_true {A} (l : list A) : List.filter (fun _ => true) l = l.
Proof. induction l as [|x l IH]; simpl; by rewrite ?IH. Qed.

Lemma day_batch_starts (w : World) (k : Z) (slotTimes : list string) :
  new_start <$> day_batch w k slotTimes = normalizeTime <$> kept_times w k slotTimes.
Proof.
  unfold day_batch, kept_times. destruct (decide (k = 0)) as [->|Hk].
  - apply fmap_omap_filter. intros t. change (0 =? 0) with true. cbn [andb].
    destruct (time_passed w t); [by left | right]. eexists. done.
  - rewrite <- (filter_true slotTimes) at 2.
    apply fmap_omap_filter. intros t.
    assert (Hk0 : (k =? 0) = false) by (by apply Z.eqb_neq).
    rewrite Hk0. right. eexists. done.
Qed.

Lemma filter_all {A} (P : A -> Prop) `{!∀ x, Decision (P x)} (l : list A) :
  (∀ x, x ∈ l -> P x) -> filter P l = l.
Proof.
  induction l as [|x l IH]; intros Hall; [done|].
  rewrite filter_cons_True by (apply Hall; left).
  f_equal. apply IH. intros y Hy. apply Hall. by right.
Qed.

Lemma filter_none {A} (P : A -> Prop) `{!∀ x, Decision (P x)} (l : list A) :
  (∀ x, x ∈ l -> ¬ P x) -> filter P l = [].
Proof.
  induction l as [|x l IH]; intros Hall; [done|].
  rewrite filter_cons_False by (apply Hall; left).
  apply IH. intros y Hy. apply Hall. by right.
Qed.

(** The part of the batch that goes to day [today + k]. *)
Lemma allSlotsToInsert_day (w : World) (k : Z) (slotTimes : list string) :
  0 ≤ k < 7 ->
  filter (fun p => new_date p = today w + k) (allSlotsToInsert w slotTimes)
  = day_batch w k slotTimes.
Proof.
  intros Hk. unfold allSlotsToInsert.
  change (seqZ 0 7) with [0; 1; 2; 3; 4; 5; 6]. simpl. rewrite app_nil_r.
  rewrite !filter_app.
  assert (Hsame : ∀ j, j = k ->
            filter (fun p => new_date p = today w + k) (day_batch w j slotTimes)
            = day_batch w k slotTimes).
  { intros j ->. apply filter_all. intros p Hp. by apply day_batch_dates in Hp. }
  assert (Hother : ∀ j, j ≠ k ->
            filter (fun p => new_date p = today w + k) (day_batch w j slotTimes) = []).
  { intros j Hj. apply filter_none. intros p Hp. apply day_batch_dates in Hp. lia. }
  assert (Hcases : k = 0 ∨ k = 1 ∨ k = 2 ∨ k = 3 ∨ k = 4 ∨ k = 5 ∨ k = 6) by lia.
  destruct Hcases as [-> | [-> | [-> | [-> | [-> | [-> | ->]]]]]];
    rewrite (Hsame _ eq_refl), ?Hother by lia; by rewrite ?app_nil_r.
Qed.

(** The run of [executeQuickSetup] for a signed-in provider: the batch
    request (if the batch is not empty), then traffic with the working-day
    object and toasts, then one request for the slot list, then again only
    passive events. *)
Lemma executeQuickSetup_trace (w : World) (b : string) (slotTimes : list string) :
  barberId (comp w) = Some b -> sessionToken w = true ->
  generateTimeSlots (quickSetupFromTime (comp w)) (quickSetupToTime (comp w))
    (quickSetupDuration (comp w)) = Some slotTimes ->
  ∃ w' evs1 evs2 ws we,
    executeQuickSetup w = Some w'
    ∧ continues w w'
        (batch_request w (allSlotsToInsert w slotTimes)
           ++ evs1 ++ ReqListSlots ws we :: evs2)
    ∧ forallb passive evs1 = true ∧ forallb passive evs2 = true.
Proof.
  intros Hb Htok Hgen. unfold executeQuickSetup. cbv zeta.
  set (w0 := setIsQuickSetupProcessing true (setShowQuickSetupConfirmModal false w)).
  assert (H0 : continues w w0 []) by (unfold continues; by rewrite app_nil_r).
  assert (Htok0 : sessionToken w0 = true) by done.
  assert (Hbatch : allSlotsToInsert w0 slotTimes = allSlotsToInsert w slotTimes) by done.
  rewrite Htok0, Hgen. cbn [negb mbind option_bind]. rewrite Hbatch.
  destruct (allSlotsToInsert w slotTimes) as [|p ps] eqn:Hall.
  - (* nothing to insert: no batch request *)
    destruct (updateWorkingDayState_all_passive (workingDayUpdates w0) w0)
      as (evs1 & Hc1 & Hp1).
    set (w1 := fold_left _ _ w0) in *.
    set (w2 := toast_success "schedule.generatedSuccess" w1).
    assert (Hc2 : continues w1 w2 [Toast true "schedule.generatedSuccess"]) by done.
    destruct (loadSlots_one_refetch w2 b) as (evs2 & Hc3 & Hp2).
    { destruct Hc1 as (_ & _ & _ & Hb1 & _). simpl. by rewrite Hb1. }
    { destruct Hc1 as (_ & _ & Hk1 & _). simpl. by rewrite Hk1. }
    eexists _, (evs1 ++ [Toast true "schedule.generatedSuccess"]), evs2, _, _.
    split; [reflexivity|]. split; [|split; [|done]].
    + pose proof (continues_trans _ _ _ _ _ H0
                    (continues_trans _ _ _ _ _ Hc1 (continues_trans _ _ _ _ _ Hc2 Hc3))) as Hc.
      destruct Hc as (? & ? & ? & ? & ? & Ht). unfold continues. simpl.
      repeat split; try done. rewrite Ht. simpl. by rewrite <- app_assoc.
    + rewrite forallb_app, Hp1. done.
  - (* a batch request, answered one way or the other *)
    assert (Hreq : ∃ a w1, request (ReqBatch (p :: ps) (today w0) (today w0 + 6)) w0 = (a, w1)
              ∧ continues w0 w1 [ReqBatch (p :: ps) (today w) (today w + 6)]
              ∧ comp w1 = comp w0).
    { eexists _, _. split; [reflexivity|]. by split. }
    destruct Hreq as (a & w1 & -> & Hc1 & Hcomp1).
    assert (Hsplit :
      ∃ w2 evs1, continues w1 w2 evs1 ∧ forallb passive evs1 = true
        ∧ (let '(committed, w1') :=
             match a with
             | Ok => (true, with_store (Storage.batch (p :: ps) (today w0) (today w0 + 6)) w1)
             | _ => (false, w1)
             end in
           if committed : bool
           then loadSlots (toast_success "schedule.generatedSuccess"
                  (fold_left (fun acc dateStr => updateWorkingDayState dateStr true acc)
                     (workingDayUpdates w0) w1'))
           else loadSlots (toast_error "Failed to generate slots. Please try again." w1'))
          = loadSlots w2).
    { destruct a.
      - destruct (updateWorkingDayState_all_passive (workingDayUpdates w0)
                    (with_store (Storage.batch (p :: ps) (today w0) (today w0 + 6)) w1))
          as (evs1 & Hcu & Hpu).
        eexists _, (evs1 ++ [Toast true "schedule.generatedSuccess"]).
        split; [|split; [|reflexivity]].
        + eapply continues_trans; [exact Hcu|]. done.
        + rewrite forallb_app, Hpu. done.
      - eexists _, [Toast false "Failed to generate slots. Please try again."].
        split; [|split; [done | reflexivity]]. done.
      - eexists _, [Toast false "Failed to generate slots. Please try again."].
        split; [|split; [done | reflexivity]]. done. }
    destruct Hsplit as (w2 & evs1 & Hc2 & Hp1 & Heq).
    destruct (loadSlots_one_refetch w2 b) as (evs2 & Hc3 & Hp2).
    { destruct Hc2 as (_ & _ & _ & Hb2 & _), Hc1 as (_ & _ & _ & Hb1 & _).
      by rewrite Hb2, Hb1. }
    { destruct Hc2 as (_ & _ & Hk2 & _), Hc1 as (_ & _ & Hk1 & _).
      by rewrite Hk2, Hk1. }
    eexists _, evs1, evs2, _, _.
    split.
    { destruct a; simpl in Heq |- *; rewrite Heq; reflexivity. }
    split; [|done].
    pose proof (continues_trans _ _ _ _ _ H0
                  (continues_trans _ _ _ _ _ Hc1 (continues_trans _ _ _ _ _ Hc2 Hc3))) as Hc.
    destruct Hc as (? & ? & ? & ? & ? & Ht). unfold continues. simpl.
    repeat split; try done. exact Ht.
Qed.

Lemma batches_sent_passive (evs : list Event) :
  forallb passive evs = true -> batches_sent evs = [].
Proof.
  induction evs as [|e evs IH]; [done|]. simpl.
  intros [He Hevs]%andb_true_iff. unfold batches_sent in *. simpl.
  rewrite IH by done. by destruct e.
Qed.

Lemma batches_sent_app (evs1 evs2 : list Event) :
  batches_sent (evs1 ++ evs2) = batches_sent evs1 ++ batches_sent evs2.
Proof. apply omap_app. Qed.

Lemma time_passed_iff (w : World) (t : string) :
  time_passed w t = true ↔ ∃ x, toMinutes t = Some x ∧ x ≤ currentMinutes w.
Proof.
  unfold time_passed. destruct (toMinutes t) as [x|].
  - rewrite Z.leb_le. split; [eauto | by intros (y & [= <-] & Hy)].
  - split; [done | by intros (y & Hy & _)].
Qed.

(** C5. In a batch setup the slots sent for the current day (day offset 0)
    are the generated start times that are not at or before the current
    time of day, and the slots sent for day offsets 1 to 6 are all the
    generated start times; nothing else is sent for insertion.  At 09:15
    with from 09:00, to 10:00 and 30 minutes, the current day (day 100)
    receives the 09:30 slot only. *)
Theorem quick_setup_drops_passed_times_on_day_0_only (w : World) (b : string)
    (slotTimes : list string) :
  barberId (comp w) = Some b -> sessionToken w = true ->
  generateTimeSlots (quickSetupFromTime (comp w)) (quickSetupToTime (comp w))
    (quickSetupDuration (comp w)) = Some slotTimes ->
  (∃ w', executeQuickSetup w = Some w'
     ∧ batches_sent (trace w')
       = batches_sent (trace w)
         ++ match allSlotsToInsert w slotTimes with
            | [] => []
            | inserted => [inserted]
            end)
  ∧ (∀ k, 0 ≤ k < 7 ->
       new_start <$> filter (fun p => new_date p = today w + k)
                       (allSlotsToInsert w slotTimes)
       = normalizeTime <$>
           (if decide (k = 0)
            then List.filter (fun t => negb (time_passed w t)) slotTimes
            else slotTimes))
  ∧ (∀ t, time_passed w t = true ↔ ∃ x, toMinutes t = Some x ∧ x ≤ currentMinutes w)
  ∧ (generateTimeSlots "09:00" "10:00" 30 = Some ["09:00"; "09:30"]
     ∧ currentMinutes world0 = 9 * 60 + 15
     ∧ new_start <$> filter (fun p => new_date p = today world0 + 0)
                        (allSlotsToInsert world0 ["09:00"; "09:30"])
       = ["09:30:00"]).
Proof.
  intros Hb Htok Hgen. split; [|split; [|split]].
  - destruct (executeQuickSetup_trace w b slotTimes Hb Htok Hgen)
      as (w' & evs1 & evs2 & ws & we & Hrun & Hc & Hp1 & Hp2).
    exists w'. split; [done|].
    destruct Hc as (_ & _ & _ & _ & _ & ->).
    rewrite !batches_sent_app, (batches_sent_passive evs1 Hp1).
    change (ReqListSlots ws we :: evs2) with ([ReqListSlots ws we] ++ evs2).
    rewrite batches_sent_app, (batches_sent_passive evs2 Hp2).
    cbn [app]. rewrite !app_nil_r. f_equal.
    by destruct (allSlotsToInsert w slotTimes).
  - intros k Hk. rewrite allSlotsToInsert_day by done. apply day_batch_starts.
  - apply time_passed_iff.
  - repeat split; reflexivity.
Qed.

Lemma quick_setup_drops_passed_times_on_day_0_only_witness :
  (∃ w', executeQuickSetup world0 = Some w'
     ∧ batches_sent (trace w')
       = batches_sent (trace world0)
         ++ match allSlotsToInsert world0 ["09:00"; "09:30"] with
            | [] => []
            | inserted => [inserted]
            end)
  ∧ (∀ k, 0 ≤ k < 7 ->
       new_start <$> filter (fun p => new_date p = today world0 + k)
                       (allSlotsToInsert world0 ["09:00"; "09:30"])
       = normalizeTime <$>
           (if decide (k = 0)
            then List.filter (fun t => negb (time_passed world0 t)) ["09:00"; "09:30"]
            else ["09:00"; "09:30"]))
  ∧ (∀ t, time_passed world0 t = true
          ↔ ∃ x, toMinutes t = Some x ∧ x ≤ currentMinutes world0)
  ∧ (generateTimeSlots "09:00" "10:00" 30 = Some ["09:00"; "09:30"]
     ∧ currentMinutes world0 = 9 * 60 + 15
     ∧ new_start <$> filter (fun p => new_date p = today world0 + 0)
                        (allSlotsToInsert world0 ["09:00"; "09:30"])
       = ["09:30:00"]).
Proof.
  apply (quick_setup_drops_passed_times_on_day_0_only world0 "barber-1" ["09:00"; "09:30"]).
  - reflexivity.
  - reflexivity.
  - reflexivity.
Defined.

(** ** Refetches after a mutation *)

Lemma request_spec (e : Event) (w : World) :
  ∃ w1, request e w = (hd Ok (oracle w), w1)
    ∧ continues w w1 [e] ∧ comp w1 = comp w ∧ store w1 = store w.
Proof. eexists. split; [reflexivity|]. by repeat split. Qed.

(** Count the refetches of a run from its shape. *)
Ltac count_refetches Hc :=
  rewrite (refetches_continues _ _ _ Hc);
  rewrite ?List.filter_app; cbn [List.filter is_refetch app length];
  rewrite ?passive_no_refetch by done;
  cbn [length]; lia.

Lemma loadSlots_refetches (w : World) (b : string) :
  barberId (comp w) = Some b -> sessionToken w = true ->
  refetches (loadSlots w) = S (refetches w).
Proof.
  intros Hb Htok. destruct (loadSlots_one_refetch w b Hb Htok) as (evs & Hc & Hp).
  count_refetches Hc.
Qed.

Lemma removeTimeSlot_refetches (w : World) (b : string) (dayIndex : Z) (slotId : string) :
  barberId (comp w) = Some b -> sessionToken w = true ->
  refetches (removeTimeSlot dayIndex slotId w) = (refetches w + one_if_ok w)%nat.
Proof.
  intros Hb Htok. unfold removeTimeSlot, one_if_ok. rewrite Htok. cbn [negb].
  destruct (request_spec (ReqDeleteSlot slotId) w) as (w1 & -> & Hc1 & Hcomp1 & _).
  assert (Hb1 : barberId (comp w1) = Some b) by (by rewrite Hcomp1).
  assert (Htok1 : sessionToken w1 = true) by (destruct Hc1 as (_ & _ & -> & _); done).
  destruct (hd Ok (oracle w)).
  - rewrite (loadSlots_refetches _ b) by done.
    change (refetches (toast_success _ (setWeekSchedule _ (with_store _ w1))))
      with (length (List.filter is_refetch (trace w1 ++ [Toast true "toast.timeSlotRemoved"]))).
    destruct Hc1 as (_ & _ & _ & _ & _ & ->). unfold refetches.
    rewrite !List.filter_app, !length_app. simpl. lia.
  - change (refetches (toast_error _ w1))
      with (length (List.filter is_refetch (trace w1 ++ [Toast false "Failed to delete slot"]))).
    destruct Hc1 as (_ & _ & _ & _ & _ & ->). unfold refetches.
    rewrite !List.filter_app, !length_app. simpl. lia.
  - change (refetches (toast_error _ w1))
      with (length (List.filter is_refetch (trace w1 ++ [Toast false "Failed to delete slot"]))).
    destruct Hc1 as (_ & _ & _ & _ & _ & ->). unfold refetches.
    rewrite !List.filter_app, !length_app. simpl. lia.
Qed.

Lemma refetches_same (w w' : World) (evs : list Event) :
  trace w' = trace w ++ evs -> List.filter is_refetch evs = [] ->
  refetches w' = refetches w.
Proof.
  intros Ht Hevs. unfold refetches. rewrite Ht, List.filter_app, length_app, Hevs.
  simpl. lia.
Qed.

(** Settle a refetch count on a run without reload, once computed. *)
Ltac no_refetch :=
  eapply refetches_same;
  [ cbn [trace]; rewrite <- ?app_assoc; cbn [app]; reflexivity | reflexivity ].

Lemma instantAddTimeSlot_refetches (w : World) (b : string) (dayIndex : Z)
    (slotTime : string) :
  barberId (comp w) = Some b -> sessionToken w = true ->
  refetches (instantAddTimeSlot dayIndex slotTime w)
  = (refetches w + if not_in_past w dayIndex slotTime then one_if_ok w else 0)%nat.
Proof.
  intros Hb Htok. unfold instantAddTimeSlot, not_in_past, one_if_ok. cbv zeta.
  destruct (getActualDate w dayIndex (pageIndex (comp w)) <? today w); cbn [negb andb].
  { rewrite Nat.add_0_r. unfold toast_error, emit. no_refetch. }
  destruct ((getActualDate w dayIndex (pageIndex (comp w)) =? today w)
            && time_passed w slotTime); cbn [negb andb].
  { rewrite Nat.add_0_r. unfold toast_error, emit. no_refetch. }
  rewrite Htok. cbn [negb].
  match goal with |- context [request ?e w] =>
    destruct (request_spec e w) as (w1 & -> & Hc1 & Hcomp1 & _) end.
  assert (Hb1 : barberId (comp w1) = Some b) by (by rewrite Hcomp1).
  assert (Htok1 : sessionToken w1 = true) by (destruct Hc1 as (_ & _ & -> & _); done).
  destruct Hc1 as (_ & _ & _ & _ & _ & Ht1).
  destruct (hd Ok (oracle w)).
  - rewrite (loadSlots_refetches _ b) by done.
    rewrite Nat.add_1_r. f_equal.
    eapply refetches_same; [cbn [toast_success emit with_store trace]; rewrite Ht1,
      <- ?app_assoc; reflexivity | reflexivity].
  - rewrite Nat.add_0_r.
    eapply refetches_same; [cbn [toast_error emit trace]; rewrite Ht1,
      <- ?app_assoc; reflexivity | reflexivity].
  - rewrite Nat.add_0_r.
    eapply refetches_same; [rewrite Ht1; reflexivity | reflexivity].
Qed.

(** An edit never reloads, whether it is refused locally, fails or
    succeeds. *)
Lemma saveTimeSlot_refetches (w : World) : refetches (saveTimeSlot w) = refetches w.
Proof.
  unfold saveTimeSlot. destruct (editingSlot (comp w)) as [[dayIndex slotId]|]; [|done].
  cbv zeta. destruct (isDuplicateTime w dayIndex (editingTime (comp w)) (Some slotId)).
  { unfold toast_error, emit. no_refetch. }
  destruct (sessionToken w); cbn [negb].
  - match goal with |- context [request ?e w] =>
      destruct (request_spec e w) as (w1 & -> & Hc1 & _) end.
    destruct Hc1 as (_ & _ & _ & _ & _ & Ht1).
    destruct (hd Ok (oracle w));
      (eapply refetches_same;
       [ cbn [cancelEditingSlot setPauseAutoReload setEditingTime setEditingSlot
              setWeekSchedule with_comp toast_success toast_error emit with_store trace];
         rewrite Ht1, <- ?app_assoc; reflexivity
       | reflexivity ]).
  - eapply refetches_same;
      [ cbn [setPauseAutoReload with_comp toast_error emit trace]; reflexivity
      | reflexivity ].
Qed.

(** The deleting loop of the batch clear issues no reload. *)
Lemma clear_days_continues (dayIdxs : list Z) (w : World) :
  ∃ evs, continues w (clear_days dayIdxs w).2 evs
    ∧ List.filter is_refetch evs = [].
Proof.
  revert w. induction dayIdxs as [|dayIdx rest IH]; intros w; cbn [clear_days]; cbv zeta.
  - exists []. split; [apply continues_refl | done].
  - destruct (getActualDate w dayIdx (pageIndex (comp w)) <? today w); [apply IH|].
    match goal with |- context [request ?e w] =>
      destruct (request_spec e w) as (w1 & -> & Hc1 & _) end.
    destruct (hd Ok (oracle w)); cbn [snd].
    + match goal with |- context [updateWorkingDayState ?d false ?w0] =>
        destruct (updateWorkingDayState_passive d false w0) as (evs2 & Hc2 & Hp2 & _);
        destruct (IH (updateWorkingDayState d false w0)) as (evs3 & Hc3 & Hp3)
      end.
      eexists. split.
      * eapply continues_trans; [exact Hc1|].
        eapply continues_trans; [|exact Hc3]. exact Hc2.
      * rewrite !List.filter_app, Hp3, (passive_no_refetch evs2 Hp2). done.
    + eexists. split; [exact Hc1 | done].
    + eexists. split; [exact Hc1 | done].
Qed.

Lemma handleQuickSetupClear_refetches (w : World) (b : string) :
  barberId (comp w) = Some b -> sessionToken w = true ->
  refetches (handleQuickSetupClear true w) = S (refetches w).
Proof.
  intros Hb Htok. unfold handleQuickSetupClear. rewrite Hb. cbn [negb]. cbv zeta.
  match goal with |- context [clear_days ?l ?w0] =>
    destruct (clear_days_continues l w0) as (evs & Hc & Hevs);
    destruct (clear_days l w0) as [cleared w2]
  end.
  cbn [snd] in Hc. destruct Hc as (_ & _ & Hk & Hbar & _ & Ht).
  cbn in Hk, Hbar, Ht.
  assert (Hrun : ∀ m ok, refetches (setIsQuickSetupProcessing false
                    (loadSlots (emit (Toast ok m) w2))) = S (refetches w)).
  { intros m ok.
    change (refetches (setIsQuickSetupProcessing false (loadSlots (emit (Toast ok m) w2))))
      with (refetches (loadSlots (emit (Toast ok m) w2))).
    rewrite (loadSlots_refetches _ b); [| by rewrite <- Hb, <- Hbar | by rewrite <- Htok, <- Hk].
    f_equal. eapply refetches_same; [cbn [emit trace]; rewrite Ht, <- app_assoc; reflexivity|].
    rewrite List.filter_app, Hevs. done. }
  destruct cleared; apply Hrun.
Qed.

Lemma executeQuickSetup_refetches (w : World) (b : string) (slotTimes : list string) :
  barberId (comp w) = Some b -> sessionToken w = true ->
  generateTimeSlots (quickSetupFromTime (comp w)) (quickSetupToTime (comp w))
    (quickSetupDuration (comp w)) = Some slotTimes ->
  ∃ w', executeQuickSetup w = Some w' ∧ refetches w' = S (refetches w).
Proof.
  intros Hb Htok Hgen.
  destruct (executeQuickSetup_trace w b slotTimes Hb Htok Hgen)
    as (w' & evs1 & evs2 & ws & we & Hrun & Hc & Hp1 & Hp2).
  exists w'. split; [done|].
  rewrite (refetches_continues _ _ _ Hc).
  rewrite !List.filter_app, (passive_no_refetch evs1 Hp1). cbn [List.filter is_refetch].
  rewrite (passive_no_refetch evs2 Hp2).
  assert (Hb0 : List.filter is_refetch (batch_request w (allSlotsToInsert w slotTimes)) = []).
  { unfold batch_request. by destruct (allSlotsToInsert w slotTimes). }
  rewrite Hb0. simpl. lia.
Qed.

(** C8, as the code has it. For a signed-in provider: batch setup and batch
    clear are followed by exactly one refetch of the slot list, whether
    their requests succeed or fail; a single-slot add that passes the
    past-time tests and a single-slot delete are followed by exactly one
    refetch when the storage accepts them and by none when it refuses or
    the request fails; an edit is followed by none. *)
Theorem refetch_after_mutation (w : World) (b : string) :
  barberId (comp w) = Some b -> sessionToken w = true ->
  (∀ slotTimes,
     generateTimeSlots (quickSetupFromTime (comp w)) (quickSetupToTime (comp w))
       (quickSetupDuration (comp w)) = Some slotTimes ->
     ∃ w', executeQuickSetup w = Some w' ∧ refetches w' = S (refetches w))
  ∧ refetches (handleQuickSetupClear true w) = S (refetches w)
  ∧ (∀ dayIndex slotTime,
       refetches (instantAddTimeSlot dayIndex slotTime w)
       = (refetches w
          + if not_in_past w dayIndex slotTime then one_if_ok w else 0)%nat)
  ∧ (∀ dayIndex slotId,
       refetches (removeTimeSlot dayIndex slotId w) = (refetches w + one_if_ok w)%nat)
  ∧ refetches (saveTimeSlot w) = refetches w.
Proof.
  intros Hb Htok. repeat split.
  - intros slotTimes. by apply (executeQuickSetup_refetches w b).
  - by apply (handleQuickSetupClear_refetches w b).
  - intros dayIndex slotTime. by apply (instantAddTimeSlot_refetches w b).
  - intros dayIndex slotId. by apply (removeTimeSlot_refetches w b).
  - apply saveTimeSlot_refetches.
Qed.

Lemma refetch_after_mutation_witness :
  (∀ slotTimes,
     generateTimeSlots (quickSetupFromTime (comp world1_refused))
       (quickSetupToTime (comp world1_refused))
       (quickSetupDuration (comp world1_refused)) = Some slotTimes ->
     ∃ w', executeQuickSetup world1_refused = Some w'
       ∧ refetches w' = S (refetches world1_refused))
  ∧ refetches (handleQuickSetupClear true world1_refused) = S (refetches world1_refused)
  ∧ (∀ dayIndex slotTime,
       refetches (instantAddTimeSlot dayIndex slotTime world1_refused)
       = (refetches world1_refused
          + if not_in_past world1_refused dayIndex slotTime
            then one_if_ok world1_refused else 0)%nat)
  ∧ (∀ dayIndex slotId,
       refetches (removeTimeSlot dayIndex slotId world1_refused)
       = (refetches world1_refused + one_if_ok world1_refused)%nat)
  ∧ refetches (saveTimeSlot world1_refused) = refetches world1_refused.
Proof.
  apply (refetch_after_mutation world1_refused "barber-1").
  - reflexivity.
  - reflexivity.
Defined.

(** C8 as the specification words it fails on the single-slot paths: a delete that the
    storage refuses is followed by a toast and no refetch, a refused add
    likewise, and an edit that succeeds patches the displayed schedule and
    does not refetch either. *)
Lemma failed_delete_and_saved_edit_do_not_refetch :
  trace (removeTimeSlot 0 "2" world1_refused)
  = [ReqDeleteSlot "2"; Toast false "Failed to delete slot"]
  ∧ refetches (removeTimeSlot 0 "2" world1_refused) = 0%nat
  ∧ trace (instantAddTimeSlot 0 "12:00" world1_refused)
    = [ReqCreateSlot (mkNewSlot 100 "12:00:00" "13:00:00" true);
       Toast false "Failed to add slot. Please try again."]
  ∧ drop (length (trace world1_editing)) (trace (saveTimeSlot world1_editing))
    = [ReqUpdateSlot "2" "10:30" "11:30"; Toast true "toast.timeSlotUpdated"]
  ∧ start_time <$> barber_slots (store (saveTimeSlot world1_editing))
    = ["09:00:00"; "10:30"; "11:30"; "09:00:00"; "09:00:00"]
  ∧ refetches (saveTimeSlot world1_editing) = refetches world1_editing.
Proof. repeat split; vm_compute; reflexivity. Qed.

(** ** Adding a slot *)




(** At the witness all three paths apply: the picker holds 12:00 for day
    100, the day shows three slots, the storage answers, and the latest
    stored start 11:30 gives 12:00. *)
Example addSlot_paths_at_noon :
  timePickerDayIndex (comp world1_noon_picking) = Some 0
  ∧ selectedStartTime (comp world1_noon_picking) = "12:00"
  ∧ length <$> (slots <$> at_index (weekSchedule (comp world1_noon_picking)) 0)
    = Some 3%nat
  ∧ hd Ok (oracle world1_noon_picking) = Ok
  ∧ latest_start (Storage.listByDateRange 100 100 (store world1_noon_picking))
    = Some "11:30"
  ∧ next_start "11:30" = "12:00".
Proof. repeat split; vm_compute; reflexivity. Qed.

(** The three refusals on the loaded provider at 09:15 of day 100: 09:00 is
    taken, 09:10 has passed, and yesterday (day index -1) is in the past. *)
Example addSlot_refusals :
  trace (handleTimePickerConfirm world1_picking_taken)
  = trace world1_picking_taken ++ [Toast false "This time slot already exists"]
  ∧ trace (handleTimePickerConfirm world1_picking_passed)
    = trace world1_picking_passed ++ [Toast false "toast.cannotAddPastSlots"]
  ∧ trace (instantAddTimeSlot (-1) "12:00" world1_loaded)
    = trace world1_loaded ++ [Toast false "Cannot add slots in the past"].
Proof. repeat split; vm_compute; reflexivity. Qed.


(** ** Toggling a day *)

Lemma at_index_map_at {A} (i j : Z) (f : A -> A) (l : list A) :
  at_index (map_at i f l) j
  = (fun x => if j =? i then f x else x) <$> at_index l j.
Proof.
  unfold at_index, map_at. destruct (Z.ltb_spec j 0) as [|Hj]; [done|].
  rewrite list_lookup_imap. destruct (l !! Z.to_nat j) as [x|]; [|done].
  simpl. by rewrite Z2Nat.id.
Qed.

Lemma deleteRange_day (dt : Z) (s : Store) (r : SlotRow) :
  r ∈ barber_slots (Storage.deleteRange dt dt s)
  ↔ r ∈ barber_slots s ∧ slot_date r ≠ dt.
Proof.
  unfold Storage.deleteRange. simpl. rewrite list_elem_of_filter.
  split; intros [H1 H2]; split; first [done | lia].
Qed.

(** Turning a working day off, every request succeeding. *)
Lemma toggleDayOff_off (w : World) (dayIndex : Z) (d : DaySchedule) :
  sessionToken w = true -> all_ok w ->
  at_index (weekSchedule (comp w)) dayIndex = Some d -> isOff d = false ->
  let slotDate := getActualDate w dayIndex (pageIndex (comp w)) in
  let w' := toggleDayOff dayIndex w in
  (∀ r, r ∈ barber_slots (store w') ↔ r ∈ barber_slots (store w) ∧ slot_date r ≠ slotDate)
  ∧ working_days (store w') = delete slotDate (working_days (store w))
  ∧ weekSchedule (comp w')
    = map_at dayIndex (fun d => mkDaySchedule (day d) (date d) true [])
        (weekSchedule (comp w))
  ∧ pageIndex (comp w') = pageIndex (comp w) ∧ today w' = today w
  ∧ sessionToken w' = true ∧ all_ok w'.
Proof.
  intros Htok Hok Hd Hoff. cbv zeta. unfold toggleDayOff. rewrite Hd, Hoff.
  cbn [negb]. cbv zeta. answer_ok Hok.
  set (slotDate := getActualDate w dayIndex (pageIndex (comp w))) in *.
  set (w2 := with_store (Storage.deleteRange slotDate slotDate) w0).
  destruct (updateWorkingDayState_ok slotDate false w2)
    as (Hwd & Hrows & Hcomp3 & Htoday3 & _ & Htok3 & Hok3);
    [by rewrite <- Htok, <- Htoken | done |].
  cbn [toast_success emit setWeekSchedule with_comp store comp weekSchedule pageIndex
       today sessionToken].
  rewrite Hwd, Hcomp3, Htoday3. cbn [w2 with_store comp store today working_days
    Storage.deleteRange]. rewrite Hcomp, Hstore, Htoday.
  split; [|repeat split; first [done | exact Hok3]].
  intros r. rewrite Hrows. unfold w2. cbn [with_store store].
  by rewrite deleteRange_day, Hstore.
Qed.

(** Turning a day on, every request succeeding. *)
Lemma toggleDayOff_on (w : World) (dayIndex : Z) (d : DaySchedule) :
  sessionToken w = true -> all_ok w ->
  at_index (weekSchedule (comp w)) dayIndex = Some d -> isOff d = true ->
  let slotDate := getActualDate w dayIndex (pageIndex (comp w)) in
  let w' := toggleDayOff dayIndex w in
  barber_slots (store w') = barber_slots (store w)
  ∧ working_days (store w') = <[slotDate := true]> (working_days (store w))
  ∧ weekSchedule (comp w')
    = map_at dayIndex (fun d => mkDaySchedule (day d) (date d) false (slots d))
        (weekSchedule (comp w))
  ∧ pageIndex (comp w') = pageIndex (comp w) ∧ today w' = today w.
Proof.
  intros Htok Hok Hd Hoff. cbv zeta. unfold toggleDayOff. rewrite Hd, Hoff.
  cbn [negb]. cbv zeta.
  set (slotDate := getActualDate w dayIndex (pageIndex (comp w))) in *.
  destruct (updateWorkingDayState_ok slotDate true w Htok Hok)
    as (Hwd & Hrows & Hcomp1 & Htoday1 & _).
  cbn [toast_success emit setWeekSchedule with_comp store comp weekSchedule pageIndex today].
  rewrite Hwd, Hrows, Hcomp1, Htoday1. done.
Qed.

(** C9. With every request succeeding: toggling a working day off deletes
    all stored slots of its date, removes its working flag and empties the
    displayed day; toggling an off day on sets the working flag and leaves
    the stored and displayed slots as they are (it creates none); toggling
    a working day off and on again shows it as working as before, with the
    flag set, and the slots it had stay deleted. *)
Theorem toggle_day_off_and_on (w : World) (dayIndex : Z) (d : DaySchedule) :
  sessionToken w = true -> all_ok w ->
  at_index (weekSchedule (comp w)) dayIndex = Some d ->
  let slotDate := getActualDate w dayIndex (pageIndex (comp w)) in
  (isOff d = false ->
     let w' := toggleDayOff dayIndex w in
     (∀ r, r ∈ barber_slots (store w')
           ↔ r ∈ barber_slots (store w) ∧ slot_date r ≠ slotDate)
     ∧ working_days (store w') !! slotDate = None
     ∧ at_index (weekSchedule (comp w')) dayIndex
       = Some (mkDaySchedule (day d) (date d) true []))
  ∧ (isOff d = true ->
     let w' := toggleDayOff dayIndex w in
     barber_slots (store w') = barber_slots (store w)
     ∧ working_days (store w') !! slotDate = Some true
     ∧ at_index (weekSchedule (comp w')) dayIndex
       = Some (mkDaySchedule (day d) (date d) false (slots d)))
  ∧ (isOff d = false ->
     let w'' := toggleDayOff dayIndex (toggleDayOff dayIndex w) in
     at_index (weekSchedule (comp w'')) dayIndex
     = Some (mkDaySchedule (day d) (date d) (isOff d) [])
     ∧ working_days (store w'') !! slotDate = Some true
     ∧ (∀ r, r ∈ barber_slots (store w'') -> slot_date r ≠ slotDate)).
Proof.
  intros Htok Hok Hd slotDate. split; [|split].
  - intros Hoff w'.
    destruct (toggleDayOff_off w dayIndex d Htok Hok Hd Hoff)
      as (Hrows & Hwd & Hws & _).
    split; [exact Hrows|]. split.
    + subst w'. rewrite Hwd. apply lookup_delete_eq.
    + subst w'. rewrite Hws, at_index_map_at, Hd. simpl. by rewrite Z.eqb_refl.
  - intros Hon w'.
    destruct (toggleDayOff_on w dayIndex d Htok Hok Hd Hon) as (Hrows & Hwd & Hws & _).
    split; [exact Hrows|]. split.
    + subst w'. rewrite Hwd. apply lookup_insert_eq.
    + subst w'. rewrite Hws, at_index_map_at, Hd. simpl. by rewrite Z.eqb_refl.
  - intros Hoff w''.
    destruct (toggleDayOff_off w dayIndex d Htok Hok Hd Hoff)
      as (Hrows & Hwd & Hws & Hpage & Htoday & Htok' & Hok').
    set (w' := toggleDayOff dayIndex w) in *.
    assert (Hd' : at_index (weekSchedule (comp w')) dayIndex
                  = Some (mkDaySchedule (day d) (date d) true [])).
    { rewrite Hws, at_index_map_at, Hd. simpl. by rewrite Z.eqb_refl. }
    destruct (toggleDayOff_on w' dayIndex _ Htok' Hok' Hd' eq_refl)
      as (Hrows2 & Hwd2 & Hws2 & _).
    assert (Hdate : getActualDate w' dayIndex (pageIndex (comp w')) = slotDate).
    { unfold getActualDate, getPageStartDate. by rewrite Hpage, Htoday. }
    rewrite Hdate in Hwd2. subst w''. split; [|split].
    + rewrite Hws2, at_index_map_at, Hd'. simpl. by rewrite Z.eqb_refl, Hoff.
    + rewrite Hwd2. apply lookup_insert_eq.
    + intros r Hr. rewrite Hrows2 in Hr. by apply Hrows in Hr as [_ Hne].
Qed.

Lemma toggle_day_off_and_on_witness :
  let slotDate := getActualDate world1_loaded 0 (pageIndex (comp world1_loaded)) in
  (isOff day100 = false ->
     let w' := toggleDayOff 0 world1_loaded in
     (∀ r, r ∈ barber_slots (store w')
           ↔ r ∈ barber_slots (store world1_loaded) ∧ slot_date r ≠ slotDate)
     ∧ working_days (store w') !! slotDate = None
     ∧ at_index (weekSchedule (comp w')) 0
       = Some (mkDaySchedule (day day100) (date day100) true []))
  ∧ (isOff day100 = true ->
     let w' := toggleDayOff 0 world1_loaded in
     barber_slots (store w') = barber_slots (store world1_loaded)
     ∧ working_days (store w') !! slotDate = Some true
     ∧ at_index (weekSchedule (comp w')) 0
       = Some (mkDaySchedule (day day100) (date day100) false (slots day100)))
  ∧ (isOff day100 = false ->
     let w'' := toggleDayOff 0 (toggleDayOff 0 world1_loaded) in
     at_index (weekSchedule (comp w'')) 0
     = Some (mkDaySchedule (day day100) (date day100) (isOff day100) [])
     ∧ working_days (store w'') !! slotDate = Some true
     ∧ (∀ r, r ∈ barber_slots (store w'') -> slot_date r ≠ slotDate)).
Proof.
  apply (toggle_day_off_and_on world1_loaded 0 day100).
  - reflexivity.
  - unfold all_ok. vm_compute. constructor.
  - vm_compute. reflexivity.
Defined.

(** Off and on again on the loaded provider: day 100 had three stored
    slots, afterwards it has none and is a working day. *)
Example toggle_off_on_day100 :
  slot_date <$> barber_slots (store world1_loaded) = [100; 100; 100; 107; 110]
  ∧ slot_date <$> barber_slots (store (toggleDayOff 0 (toggleDayOff 0 world1_loaded)))
    = [107; 110]
  ∧ at_index (weekSchedule (comp (toggleDayOff 0 (toggleDayOff 0 world1_loaded)))) 0
    = Some (mkDaySchedule "" 100 false []).
Proof. repeat split; vm_compute; reflexivity. Qed.

(** ** Batch clear *)

Lemma loadSlots_store (w : World) : store (loadSlots w) = store w.
Proof.
  destruct w as [c st td cm clk tok orc tr]. unfold loadSlots. simpl.
  destruct (barberId c); [|done]. destruct tok; [|done]. simpl.
  destruct orc as [|[] [|[] orc]]; done.
Qed.

(** The deleting loop, every request succeeding. *)
Lemma clear_days_ok (dayIdxs : list Z) (w : World) :
  sessionToken w = true -> all_ok w ->
  let w' := (clear_days dayIdxs w).2 in
  (clear_days dayIdxs w).1 = true
  ∧ (∀ r, r ∈ barber_slots (store w')
          ↔ r ∈ barber_slots (store w) ∧ cleared_date w dayIdxs (slot_date r) = false)
  ∧ (∀ dt, working_days (store w') !! dt
           = if cleared_date w dayIdxs dt then None else working_days (store w) !! dt)
  ∧ comp w' = comp w ∧ today w' = today w
  ∧ sessionToken w' = true ∧ all_ok w'.
Proof.
  revert w. induction dayIdxs as [|dayIdx rest IH]; intros w Htok Hok.
  { simpl. repeat split; try done. by intros [? _]. }
  cbn [clear_days cleared_date existsb]. cbv zeta.
  fold (cleared_date w rest).
  set (dateStr := getActualDate w dayIdx (pageIndex (comp w))).
  destruct (Z.ltb_spec dateStr (today w)) as [Hpast|Hfuture]; cbn [negb andb orb].
  { apply IH; done. }
  answer_ok Hok.
  set (w2 := with_store (Storage.deleteRange dateStr dateStr) w0).
  destruct (updateWorkingDayState_ok dateStr false w2)
    as (Hwd & Hrows & Hcomp3 & Htoday3 & _ & Htok3 & Hok3);
    [by rewrite <- Htok, <- Htoken | done |].
  set (w3 := updateWorkingDayState dateStr false w2) in *.
  destruct (IH w3 Htok3 Hok3) as (Hres & Hrows' & Hwd' & Hcomp' & Htoday' & Htok' & Hok').
  assert (Hcomp30 : comp w3 = comp w) by (rewrite Hcomp3; exact Hcomp).
  assert (Htoday30 : today w3 = today w) by (rewrite Htoday3; exact Htoday).
  assert (Hsame : ∀ dt, cleared_date w3 rest dt = cleared_date w rest dt).
  { intros dt. unfold cleared_date, getActualDate, getPageStartDate.
    by rewrite Hcomp30, Htoday30. }
  split; [exact Hres|]. split; [|split; [|repeat split; congruence]].
  - intros r. rewrite Hrows', Hsame, Hrows. unfold w2. cbn [with_store store].
    rewrite deleteRange_day, Hstore.
    destruct (Z.eqb_spec (slot_date r) dateStr) as [Heq|Hne]; cbn [orb].
    + split; [by intros [[_ Hne] _] | by intros [_ ?]].
    + tauto.
  - intros dt. rewrite Hwd', Hsame, Hwd. unfold w2. cbn [with_store store
      Storage.deleteRange working_days]. rewrite Hstore.
    destruct (Z.eqb_spec dt dateStr) as [->|Hne]; cbn [orb].
    + rewrite lookup_delete_eq. by destruct (cleared_date w rest dateStr).
    + by rewrite lookup_delete_ne.
Qed.

Lemma cleared_date_page (w : World) (dt : Z) :
  cleared_date w (seqZ 0 DAYS_PER_PAGE) dt = true
  ↔ today w ≤ dt
    ∧ getPageStartDate w (pageIndex (comp w)) ≤ dt
      < getPageStartDate w (pageIndex (comp w)) + DAYS_PER_PAGE.
Proof.
  unfold cleared_date, getActualDate. rewrite existsb_exists. split.
  - intros (i & Hi & Hc). apply list_elem_of_In, elem_of_seqZ in Hi.
    apply andb_true_iff in Hc as [Hge Heq].
    apply negb_true_iff, Z.ltb_ge in Hge. apply Z.eqb_eq in Heq. lia.
  - intros [Htoday Hpage].
    exists (dt - getPageStartDate w (pageIndex (comp w))). split.
    + apply list_elem_of_In, elem_of_seqZ. lia.
    + apply andb_true_iff. split; [apply negb_true_iff, Z.ltb_ge | apply Z.eqb_eq]; lia.
Qed.

Lemma handleQuickSetupClear_store (w : World) (b : string) :
  barberId (comp w) = Some b -> sessionToken w = true -> all_ok w ->
  let w' := handleQuickSetupClear true w in
  (∀ r, r ∈ barber_slots (store w')
        ↔ r ∈ barber_slots (store w)
          ∧ cleared_date w (seqZ 0 DAYS_PER_PAGE) (slot_date r) = false)
  ∧ (∀ dt, working_days (store w') !! dt
           = if cleared_date w (seqZ 0 DAYS_PER_PAGE) dt then None
             else working_days (store w) !! dt).
Proof.
  intros Hb Htok Hok. cbv zeta. unfold handleQuickSetupClear. rewrite Hb.
  cbn [negb]. cbv zeta.
  match goal with |- context [clear_days ?l ?w1] =>
    destruct (clear_days_ok l w1 Htok Hok) as (Hres & Hrows & Hwd & _);
    destruct (clear_days l w1) as [cleared w2]
  end.
  cbn [fst snd] in Hres, Hrows, Hwd. subst cleared.
  change (store (setIsQuickSetupProcessing false
                   (loadSlots (toast_success "toast.slotsClearedWeek" w2))))
    with (store (loadSlots (toast_success "toast.slotsClearedWeek" w2))).
  rewrite loadSlots_store.
  change (store (toast_success "toast.slotsClearedWeek" w2)) with (store w2).
  split; [exact Hrows | exact Hwd].
Qed.

(** C4, as the code has it. With every request succeeding, the batch clear
    deletes the stored slots of the dates of the displayed page that are
    today or later and removes the working flag of those dates; the slots
    and flags of every other date, in particular of every date before
    today, are left as they were. *)
Theorem quick_clear_clears_displayed_page (w : World) (b : string) :
  barberId (comp w) = Some b -> sessionToken w = true -> all_ok w ->
  let w' := handleQuickSetupClear true w in
  (∀ r, r ∈ barber_slots (store w')
        ↔ r ∈ barber_slots (store w) ∧ ¬ on_cleared_page w (slot_date r))
  ∧ (∀ dt, on_cleared_page w dt -> working_days (store w') !! dt = None)
  ∧ (∀ dt, ¬ on_cleared_page w dt ->
           working_days (store w') !! dt = working_days (store w) !! dt)
  ∧ (∀ r, slot_date r < today w ->
          r ∈ barber_slots (store w') ↔ r ∈ barber_slots (store w))
  ∧ (∀ dt, dt < today w ->
           working_days (store w') !! dt = working_days (store w) !! dt).
Proof.
  intros Hb Htok Hok w'.
  destruct (handleQuickSetupClear_store w b Hb Htok Hok) as (Hrows & Hwd).
  fold w' in Hrows, Hwd.
  assert (Hyes : ∀ dt, on_cleared_page w dt ->
            cleared_date w (seqZ 0 DAYS_PER_PAGE) dt = true).
  { intros dt Hdt. by apply cleared_date_page. }
  assert (Hno : ∀ dt, ¬ on_cleared_page w dt ->
            cleared_date w (seqZ 0 DAYS_PER_PAGE) dt = false).
  { intros dt Hdt. apply not_true_is_false. intros Hc. by apply Hdt, cleared_date_page. }
  assert (Hpast : ∀ dt, dt < today w -> ¬ on_cleared_page w dt).
  { intros dt Hdt [Hge _]. lia. }
  split; [|split; [|split; [|split]]].
  - intros r. rewrite Hrows. split.
    + intros [Hr Hc]. split; [done|]. intros Hon. apply Hyes in Hon. congruence.
    + intros [Hr Hc]. split; [done|]. by apply Hno.
  - intros dt Hdt. by rewrite Hwd, Hyes.
  - intros dt Hdt. by rewrite Hwd, Hno.
  - intros r Hr. rewrite Hrows, Hno by (by apply Hpast). tauto.
  - intros dt Hdt. by rewrite Hwd, Hno by (by apply Hpast).
Qed.

Lemma quick_clear_clears_displayed_page_witness :
  let w' := handleQuickSetupClear true world1_loaded in
  (∀ r, r ∈ barber_slots (store w')
        ↔ r ∈ barber_slots (store world1_loaded)
          ∧ ¬ on_cleared_page world1_loaded (slot_date r))
  ∧ (∀ dt, on_cleared_page world1_loaded dt -> working_days (store w') !! dt = None)
  ∧ (∀ dt, ¬ on_cleared_page world1_loaded dt ->
           working_days (store w') !! dt = working_days (store world1_loaded) !! dt)
  ∧ (∀ r, slot_date r < today world1_loaded ->
          r ∈ barber_slots (store w') ↔ r ∈ barber_slots (store world1_loaded))
  ∧ (∀ dt, dt < today world1_loaded ->
           working_days (store w') !! dt = working_days (store world1_loaded) !! dt).
Proof.
  apply (quick_clear_clears_displayed_page world1_loaded "barber-1").
  - reflexivity.
  - reflexivity.
  - unfold all_ok. vm_compute. constructor.
Defined.

(** C4 as the specification words it fails beyond the displayed page: on the first page
    at day 100, the slot stored for day 110 and the working flag of day 110
    are today or later and both survive the clear; the slots of days 100 to
    107 are gone. *)
Lemma quick_clear_keeps_later_pages :
  today world1_loaded = 100
  ∧ barber_slots (store (handleQuickSetupClear true world1_loaded))
    = [mkSlotRow "5" 110 "09:00:00" "10:00:00" false]
  ∧ working_days (store (handleQuickSetupClear true world1_loaded)) !! 110 = Some true
  ∧ working_days (store (handleQuickSetupClear true world1_loaded)) !! 100 = None.
Proof. repeat split; vm_compute; reflexivity. Qed.

(** ** Quick setup: confirmation *)

Lemma hasExistingSlots_iff (w : World) : hasExistingSlots w = true ↔ displays_a_slot w.
Proof.
  unfold hasExistingSlots, displays_a_slot. rewrite existsb_exists. split.
  - intros (d & Hd & Hlen). exists d. rewrite list_elem_of_In. split; [done|].
    apply Nat.ltb_lt in Hlen. destruct (slots d); [simpl in Hlen; lia | done].
  - intros (d & Hd & Hne). exists d. rewrite <- list_elem_of_In. split; [done|].
    apply Nat.ltb_lt. destruct (slots d); [done | simpl; lia].
Qed.

(** What the "Set up" button tests before it runs the batch setup: with
    valid inputs it asks for confirmation, nothing being sent, exactly when
    the schedule held for the displayed page has a slot. *)
Lemma handleQuickSetup_guard (w w1 : World) :
  validateQuickSetup w = (true, w1) ->
  (displays_a_slot w ->
     ∃ w', handleQuickSetup w = Some w' ∧ awaits_confirmation w w')
  ∧ (¬ displays_a_slot w -> handleQuickSetup w = executeQuickSetup w1).
Proof.
  intros Hvalid. unfold handleQuickSetup. rewrite Hvalid. cbn [negb]. split.
  - intros Hslot. apply hasExistingSlots_iff in Hslot. rewrite Hslot.
    eexists. split; [reflexivity|].
    unfold validateQuickSetup in Hvalid. cbv zeta in Hvalid.
    repeat match type of Hvalid with
           | (if ?c then _ else _) = _ => destruct c
           end; inversion Hvalid; by repeat split.
  - intros Hnone. destruct (hasExistingSlots w) eqn:Hslot; [|done].
    by apply hasExistingSlots_iff in Hslot.
Qed.

Lemma no_slot_in_window_3 :
  ¬ displays_a_slot_in_window world3 ∧ ¬ stores_a_slot_in_window world3.
Proof.
  split.
  - intros (d & Hd & Hdate & Hne).
    change (weekSchedule (comp world3))
      with (newSchedule steady_clock 100 ∅ [mkSlotRow "4" 107 "09:00:00" "10:00:00" false])
      in Hd.
    unfold newSchedule in Hd. apply list_elem_of_fmap in Hd as (idx & -> & Hidx).
    change (today world3) with 100 in Hdate.
    change (seqZ 0 DAYS_PER_PAGE) with [0; 1; 2; 3; 4; 5; 6; 7] in Hidx.
    repeat (apply elem_of_cons in Hidx as [-> | Hidx]);
      try (by apply elem_of_nil in Hidx);
      first [ by (exfalso; apply Hne; vm_compute; reflexivity)
            | (simpl in Hdate; lia) ].
  - intros (r & Hr & Hdate).
    change (barber_slots (store world3))
      with [mkSlotRow "4" 107 "09:00:00" "10:00:00" false] in Hr.
    apply list_elem_of_singleton in Hr as ->.
    change (today world3) with 100 in Hdate. simpl in Hdate. lia.
Qed.

(** On the first page with the only slot on day 107, the eighth day of the
    page ([world3]), no slot lies in [today .. today + 6], neither displayed
    nor stored, and the button still asks for confirmation. *)
Example quick_setup_asks_for_a_slot_outside_the_window :
  ¬ displays_a_slot_in_window world3 ∧ ¬ stores_a_slot_in_window world3
  ∧ validateQuickSetup world3 = (true, setQuickSetupError "" world3)
  ∧ ∃ w', handleQuickSetup world3 = Some w'
      ∧ showQuickSetupConfirmModal (comp w') = true
      ∧ trace w' = trace world3.
Proof.
  destruct no_slot_in_window_3 as [H1 H2].
  split; [exact H1|]. split; [exact H2|]. split; [vm_compute; reflexivity|].
  eexists. split; [vm_compute; reflexivity|]. split; reflexivity.
Qed.

(** C3. The specification asks for a confirmation whenever a slot exists
    in [today .. today + 6]; the code does not ask when a later page is
    displayed.  In [world4] the storage holds two slots for today (day
    100), the first of them booked, and the second page (days 108 to 115)
    is displayed, on which there is no slot.  The inputs are valid.  The
    "Set up" button does not open the confirmation modal: the batch for
    days 100 to 106 is sent at once and, accepted, replaces today's two
    slots by the one generated slot that has not passed. *)
Lemma quick_setup_skips_confirmation_on_later_page :
  stores_a_slot_in_window world4
  ∧ pageIndex (comp world4) = 1
  ∧ (row_id <$> barber_slots (store world4) = ["1"; "2"]
     ∧ slot_date <$> barber_slots (store world4) = [100; 100]
     ∧ is_booked <$> barber_slots (store world4) = [true; false])
  ∧ hasExistingSlots world4 = false
  ∧ validateQuickSetup world4 = (true, setQuickSetupError "" world4)
  ∧ ∃ w', handleQuickSetup world4 = Some w'
      ∧ showQuickSetupConfirmModal (comp w') = false
      ∧ (∃ newSlots evs,
           drop (length (trace world4)) (trace w') = ReqBatch newSlots 100 106 :: evs)
      ∧ length (batches_sent (trace w')) = 1%nat
      ∧ filter (fun r => slot_date r = 100) (barber_slots (store w'))
        = [mkSlotRow "3" 100 "09:30:00" "10:00:00" false].
Proof.
  split.
  { exists (mkSlotRow "1" 100 "14:00:00" "15:00:00" true).
    split; [apply list_elem_of_here|]. vm_compute. split; discriminate. }
  split; [reflexivity|]. split; [repeat split; reflexivity|].
  split; [vm_compute; reflexivity|]. split; [vm_compute; reflexivity|].
  eexists. split; [vm_compute; reflexivity|].
  split; [reflexivity|]. split; [do 2 eexists; vm_compute; reflexivity|].
  split; vm_compute; reflexivity.
Qed.

(** ** Booked slots *)

Lemma loadSlots_trace (w : World) : ∃ evs, trace (loadSlots w) = trace w ++ evs.
Proof.
  destruct w as [c st td cm clk tok orc tr]. unfold loadSlots. simpl.
  destruct (barberId c); [|exists []; by rewrite app_nil_r].
  destruct tok; simpl; [|by eexists].
  destruct orc as [|[] [|[] orc]]; simpl; eexists; rewrite <- ?app_assoc; reflexivity.
Qed.

(** C2, as the code has it. For a slot whose booked flag is set the
    component renders neither the edit form nor the edit and delete
    buttons.  [removeTimeSlot] and [saveTimeSlot] themselves do not look at
    the flag: for a signed-in provider a delete is sent for whatever slot
    id is given and an edit whose time is no duplicate is sent for whatever
    slot is being edited.  When the request is not accepted they show an
    error toast, send nothing else and leave the displayed schedule as it
    was. *)
Theorem booked_slots_have_no_controls (w : World) :
  (∀ dayIndex slot, booked slot = true -> slotControls w dayIndex slot = [])
  ∧ (∀ dayIndex slotId,
       sessionToken w = true ->
       (∃ evs, trace (removeTimeSlot dayIndex slotId w)
               = trace w ++ ReqDeleteSlot slotId :: evs)
       ∧ (hd Ok (oracle w) ≠ Ok ->
          (∃ message, trace (removeTimeSlot dayIndex slotId w)
                      = trace w ++ [ReqDeleteSlot slotId; Toast false message])
          ∧ weekSchedule (comp (removeTimeSlot dayIndex slotId w))
            = weekSchedule (comp w)))
  ∧ (∀ dayIndex slotId,
       sessionToken w = true ->
       editingSlot (comp w) = Some (dayIndex, slotId) ->
       isDuplicateTime w dayIndex (editingTime (comp w)) (Some slotId) = false ->
       let update :=
         ReqUpdateSlot slotId (editingTime (comp w))
           (calculateEndTime (editingTime (comp w))) in
       (∃ evs, trace (saveTimeSlot w) = trace w ++ update :: evs)
       ∧ (hd Ok (oracle w) ≠ Ok ->
          (∃ message, trace (saveTimeSlot w) = trace w ++ [update; Toast false message])
          ∧ weekSchedule (comp (saveTimeSlot w)) = weekSchedule (comp w))).
Proof.
  split; [|split].
  - intros dayIndex slot Hbooked. unfold slotControls. rewrite Hbooked. cbn [orb negb].
    by rewrite andb_false_r.
  - intros dayIndex slotId Htok.
    destruct (request_spec (ReqDeleteSlot slotId) w)
      as (w1 & Hreq & (_ & _ & _ & _ & _ & Htr) & Hcomp & Hstore).
    unfold removeTimeSlot. rewrite Htok, Hreq. cbn [negb]. split.
    + destruct (hd Ok (oracle w)).
      * match goal with |- context [loadSlots ?x] =>
          destruct (loadSlots_trace x) as (evs & ->) end.
        cbn [toast_success emit setWeekSchedule with_comp with_store trace].
        rewrite Htr, <- !app_assoc. by eexists.
      * cbn [toast_error emit trace]. rewrite Htr, <- !app_assoc. by eexists.
      * cbn [toast_error emit trace]. rewrite Htr, <- !app_assoc. by eexists.
    + intros Hrefused.
      destruct (hd Ok (oracle w)); [done | |];
        (split; [eexists; cbn [toast_error emit trace]; rewrite Htr, <- !app_assoc;
                 reflexivity
                | by rewrite <- Hcomp]).
  - intros dayIndex slotId Htok Hedit Hdup. cbv zeta.
    unfold saveTimeSlot. rewrite Hedit. cbv zeta. rewrite Hdup, Htok. cbn [negb].
    match goal with |- context [request ?e w] =>
      destruct (request_spec e w)
        as (w1 & -> & (_ & _ & _ & _ & _ & Htr) & Hcomp & Hstore) end.
    split.
    + destruct (hd Ok (oracle w));
        cbn [cancelEditingSlot setPauseAutoReload setEditingTime setEditingSlot
             toast_success toast_error emit setWeekSchedule with_comp with_store trace];
        rewrite Htr, <- !app_assoc; by eexists.
    + intros Hrefused.
      destruct (hd Ok (oracle w)); [done | |];
        cbn [setPauseAutoReload with_comp toast_error emit trace comp weekSchedule];
        (split; [eexists; rewrite Htr, <- !app_assoc; reflexivity | by rewrite Hcomp]).
Qed.

(** C2 as the specification words it fails: on the loaded provider the slot "1" of day
    100 is booked; a delete of it is sent and, the storage accepting it,
    the slot is gone from storage and display; an edit of it to 09:30 is
    sent and, accepted, changes the stored start time. *)
Lemma booked_slot_delete_and_edit_go_through :
  at_index (weekSchedule (comp world1_loaded)) 0 = Some day100
  ∧ mkTimeSlot "1" "09:00" false true ∈ slots day100
  ∧ drop (length (trace world1_loaded)) (trace (removeTimeSlot 0 "1" world1_loaded))
    = [ReqDeleteSlot "1"; Toast true "toast.timeSlotRemoved";
       ReqListSlots 100 107; ReqKvGet]
  ∧ row_id <$> barber_slots (store (removeTimeSlot 0 "1" world1_loaded))
    = ["2"; "3"; "4"; "5"]
  ∧ (slots <$> at_index (weekSchedule (comp (removeTimeSlot 0 "1" world1_loaded))) 0)
    = Some [mkTimeSlot "2" "10:00" true false; mkTimeSlot "3" "11:30" true false]
  ∧ drop (length (trace world1_editing_booked))
      (trace (saveTimeSlot world1_editing_booked))
    = [ReqUpdateSlot "1" "09:30" "10:30"; Toast true "toast.timeSlotUpdated"]
  ∧ head (barber_slots (store (saveTimeSlot world1_editing_booked)))
    = Some (mkSlotRow "1" 100 "09:30" "10:30" true).
Proof.
  split; [vm_compute; reflexivity|]. split; [apply list_elem_of_here|].
  repeat split; vm_compute; reflexivity.
Qed.

(** * Further properties of the component *)

(** ** Time texts: formatting, parsing, normalizing *)

(** X1. Formatting a minute of the day and parsing the text back is the
    identity, and two different minutes of the day never get the same
    text. *)
Theorem timeStr_round_trip (x y : Z) :
  0 ≤ x < 1440 -> 0 ≤ y < 1440 ->
  toMinutes (timeStr x) = Some x ∧ (timeStr x = timeStr y -> x = y).
Proof.
  intros Hx Hy. split; [by apply toMinutes_timeStr|].
  intros Heq. pose proof (toMinutes_timeStr x Hx) as H1.
  rewrite Heq, toMinutes_timeStr in H1 by done. by injection H1.
Qed.

Lemma timeStr_round_trip_witness :
  toMinutes (timeStr 570) = Some 570 ∧ (timeStr 570 = timeStr 600 -> 570 = 600).
Proof. apply (timeStr_round_trip 570 600); lia. Defined.

Lemma normalizeTime_hhmm (h m : Z) :
  0 ≤ h < 100 -> 0 ≤ m < 100 -> normalizeTime (hhmm h m) = hhmm h m +:+ ":00".
Proof.
  intros Hh Hm.
  destruct (hhmm_chars h m)
    as (a & b & c & d & va & vb & vc & vd & -> & Ha & Hb & Hc & Hd & _); [lia..|].
  unfold normalizeTime. simpl.
  rewrite (digit_not_colon a va Ha), (digit_not_colon b vb Hb),
    (digit_not_colon c vc Hc), (digit_not_colon d vd Hd). reflexivity.
Qed.

Lemma normalizeTime_hhmm_seconds (h m : Z) :
  0 ≤ h < 100 -> 0 ≤ m < 100 ->
  normalizeTime (hhmm h m +:+ ":00") = hhmm h m +:+ ":00".
Proof.
  intros Hh Hm.
  destruct (hhmm_chars h m)
    as (a & b & c & d & va & vb & vc & vd & -> & Ha & Hb & Hc & Hd & _); [lia..|].
  unfold normalizeTime. simpl.
  rewrite (digit_not_colon a va Ha), (digit_not_colon b vb Hb),
    (digit_not_colon c vc Hc), (digit_not_colon d vd Hd). reflexivity.
Qed.

Lemma toMinutes_normalizeTime_hhmm (h m : Z) :
  0 ≤ h < 24 -> 0 ≤ m < 60 ->
  toMinutes (normalizeTime (hhmm h m)) = Some (h * 60 + m).
Proof.
  intros Hh Hm. rewrite normalizeTime_hhmm by lia. apply time_text_minutes.
  split; [done|]. split; [done|]. exists ":00". split; [done|]. right. by exists "00".
Qed.

(** X2. For a minute-only time [HH:MM], [normalizeTime] appends [":00"]; it
    changes nothing when applied again; and cutting the normalized text to
    five characters, as the reload does, gives back the text that was
    typed. *)
Theorem normalizeTime_round_trip (h m : Z) :
  0 ≤ h < 24 -> 0 ≤ m < 60 ->
  normalizeTime (hhmm h m) = hhmm h m +:+ ":00"
  ∧ normalizeTime (normalizeTime (hhmm h m)) = normalizeTime (hhmm h m)
  ∧ Js.slice05 (normalizeTime (hhmm h m)) = hhmm h m
  ∧ toMinutes (normalizeTime (hhmm h m)) = Some (h * 60 + m).
Proof.
  intros Hh Hm. rewrite !normalizeTime_hhmm, normalizeTime_hhmm_seconds by lia.
  assert (Htext : time_text h m (hhmm h m +:+ ":00")).
  { split; [done|]. split; [done|]. exists ":00". split; [done|]. right. by exists "00". }
  repeat split; [by apply (time_text_slice h m) | by apply time_text_minutes].
Qed.

Lemma normalizeTime_round_trip_witness :
  normalizeTime (hhmm 9 5) = hhmm 9 5 +:+ ":00"
  ∧ normalizeTime (normalizeTime (hhmm 9 5)) = normalizeTime (hhmm 9 5)
  ∧ Js.slice05 (normalizeTime (hhmm 9 5)) = hhmm 9 5
  ∧ toMinutes (normalizeTime (hhmm 9 5)) = Some (9 * 60 + 5).
Proof. apply (normalizeTime_round_trip 9 5); lia. Defined.

(** Short hour and minute parts are padded, missing ones are zero. *)
Example normalizeTime_pads :
  normalizeTime "9:5" = "09:05:00" ∧ normalizeTime "7" = "07:00:00"
  ∧ normalizeTime "09:30:15" = "09:30:15".
Proof. repeat split. Qed.

Lemma calculateEndTime_hhmm (h m : Z) :
  0 ≤ h < 24 -> 0 ≤ m < 60 ->
  calculateEndTime (hhmm h m)
  = hhmm (Z.rem ((h * 60 + m + 60) / 60) 24) (Z.rem (h * 60 + m + 60) 60).
Proof.
  intros Hh Hm. unfold calculateEndTime. by rewrite toMinutes_hhmm.
Qed.

(** X3. The end time computed for a single slot starting at [HH:MM] is the
    start plus 60 minutes on the 24-hour clock: one hour later for a start
    before 23:00, and an hour that wraps past midnight, hence earlier than
    the start, for a start at 23:00 or later. *)
Theorem calculateEndTime_adds_an_hour (h m : Z) :
  0 ≤ h < 24 -> 0 ≤ m < 60 ->
  toMinutes (calculateEndTime (hhmm h m)) = Some ((h * 60 + m + 60) mod 1440)
  ∧ (h < 23 -> calculateEndTime (hhmm h m) = hhmm (h + 1) m)
  ∧ (h = 23 -> calculateEndTime (hhmm h m) = hhmm 0 m).
Proof.
  intros Hh Hm. rewrite calculateEndTime_hhmm by done.
  assert (Hq : (h * 60 + m + 60) / 60 = h + 1).
  { replace (h * 60 + m + 60) with ((h + 1) * 60 + m) by lia.
    rewrite Z.div_add_l by lia. rewrite Z.div_small; lia. }
  assert (Hr : Z.rem (h * 60 + m + 60) 60 = m).
  { rewrite Z.rem_mod_nonneg by lia.
    replace (h * 60 + m + 60) with (m + (h + 1) * 60) by lia.
    rewrite Z.mod_add by lia. apply Z.mod_small; lia. }
  rewrite Hq, Hr. rewrite (Z.rem_mod_nonneg (h + 1) 24) by lia.
  assert (Hh' : 0 ≤ (h + 1) mod 24 < 24) by (apply Z.mod_pos_bound; lia).
  split; [|split].
  - rewrite toMinutes_hhmm by lia. f_equal.
    destruct (decide (h = 23)) as [->|Hne].
    + change ((23 + 1) mod 24) with 0.
      replace (23 * 60 + m + 60) with (m + 1 * 1440) by lia.
      rewrite Z.mod_add by lia. rewrite Z.mod_small; lia.
    + rewrite (Z.mod_small (h + 1)) by lia. rewrite Z.mod_small; lia.
  - intros Hlt. by rewrite Z.mod_small by lia.
  - intros ->. done.
Qed.

Lemma calculateEndTime_adds_an_hour_witness :
  toMinutes (calculateEndTime (hhmm 23 30)) = Some ((23 * 60 + 30 + 60) mod 1440)
  ∧ (23 < 23 -> calculateEndTime (hhmm 23 30) = hhmm (23 + 1) 30)
  ∧ (23 = 23 -> calculateEndTime (hhmm 23 30) = hhmm 0 30).
Proof. apply (calculateEndTime_adds_an_hour 23 30); lia. Defined.

(** ** Quick setup: validation *)

Lemma validateQuickSetup_true (w w1 : World) :
  validateQuickSetup w = (true, w1) ->
  w1 = setQuickSetupError "" w
  ∧ 0 < quickSetupDuration (comp w)
  ∧ (∀ f t, toMinutes (quickSetupFromTime (comp w)) = Some f ->
            toMinutes (quickSetupToTime (comp w)) = Some t -> f < t).
Proof.
  unfold validateQuickSetup. cbv zeta. intros Hv.
  destruct (toMinutes (quickSetupFromTime (comp w))) as [f|] eqn:Hf;
    destruct (toMinutes (quickSetupToTime (comp w))) as [t|] eqn:Ht;
    try destruct (Z.leb_spec t f); try done;
    destruct (Z.leb_spec (quickSetupDuration (comp w)) 0); try done;
    injection Hv as <-; repeat split; try done; intros ? ? [= <-] [= <-]; lia.
Qed.

Lemma validated_generation_returns (w w1 : World) :
  validateQuickSetup w = (true, w1) ->
  ∃ l, generateTimeSlots (quickSetupFromTime (comp w)) (quickSetupToTime (comp w))
         (quickSetupDuration (comp w)) = Some l.
Proof.
  intros (_ & Hd & Hlt)%validateQuickSetup_true. unfold generateTimeSlots.
  destruct (toMinutes (quickSetupFromTime (comp w))) as [f|]; [|by eexists].
  destruct (toMinutes (quickSetupToTime (comp w))) as [t|]; [|by eexists].
  specialize (Hlt f t eq_refl eq_refl).
  eexists. apply generate_loop_fuel_enough; [done|].
  assert ((t - f) / quickSetupDuration (comp w) ≤ t - f).
  { apply Z.div_le_upper_bound; nia. }
  lia.
Qed.

(** X4. For every value the form can hold (each of the two time inputs
    empty or the [HH:MM] text of a time of day, the duration any integer)
    the "Set up" button returns: validation lets no such input through on
    which the generating loop would not stop.  The batch setup itself does
    not stop on them: called for a signed-in provider with a duration that
    is not positive and times for which the first test of the loop
    succeeds, it never returns. *)
Theorem handleQuickSetup_returns (w : World) :
  time_control_value (quickSetupFromTime (comp w)) ->
  time_control_value (quickSetupToTime (comp w)) ->
  (∃ w', handleQuickSetup w = Some w')
  ∧ (∀ f t,
       sessionToken w = true ->
       toMinutes (quickSetupFromTime (comp w)) = Some f ->
       toMinutes (quickSetupToTime (comp w)) = Some t ->
       quickSetupDuration (comp w) ≤ 0 -> f + quickSetupDuration (comp w) ≤ t ->
       executeQuickSetup w = None).
Proof.
  intros _ _. split.
  - unfold handleQuickSetup. destruct (validateQuickSetup w) as [valid w1] eqn:Hv.
    destruct valid; cbn [negb]; [|by eexists].
    destruct (hasExistingSlots w); [by eexists|].
    destruct (validated_generation_returns w w1 Hv) as (l & Hl).
    pose proof (validateQuickSetup_true w w1 Hv) as (-> & _).
    unfold executeQuickSetup. cbv zeta.
    destruct (negb _); [by eexists|].
    change (comp (setQuickSetupError "" w)) with
      (mkComp (barberId (comp w)) (weekSchedule (comp w)) (pageIndex (comp w))
         (editingSlot (comp w)) (editingTime (comp w)) (pauseAutoReload (comp w))
         (showTimePickerModal (comp w)) (timePickerDayIndex (comp w))
         (selectedStartTime (comp w)) (quickSetupFromTime (comp w))
         (quickSetupToTime (comp w)) (quickSetupDuration (comp w)) ""
         (showQuickSetupConfirmModal (comp w)) (isQuickSetupProcessing (comp w))).
    cbn [quickSetupFromTime quickSetupToTime quickSetupDuration]. rewrite Hl.
    cbn [mbind option_bind].
    repeat match goal with
           | |- context [let '(_, _) := ?x in _] => destruct x
           end.
    by eexists.
  - intros f t Htok Hf Ht Hd Hfirst. unfold executeQuickSetup. cbv zeta.
    change (sessionToken (setIsQuickSetupProcessing true
                            (setShowQuickSetupConfirmModal false w)))
      with (sessionToken w).
    rewrite Htok. cbn [negb]. unfold generateTimeSlots. rewrite Hf, Ht.
    by rewrite (generate_loop_diverges _ f _ t Hd Hfirst).
Qed.

Lemma handleQuickSetup_returns_witness :
  (∃ w', handleQuickSetup world_zero_duration = Some w')
  ∧ (∀ f t,
       sessionToken world_zero_duration = true ->
       toMinutes (quickSetupFromTime (comp world_zero_duration)) = Some f ->
       toMinutes (quickSetupToTime (comp world_zero_duration)) = Some t ->
       quickSetupDuration (comp world_zero_duration) ≤ 0 ->
       f + quickSetupDuration (comp world_zero_duration) ≤ t ->
       executeQuickSetup world_zero_duration = None).
Proof.
  apply (handleQuickSetup_returns world_zero_duration).
  - right. exists 9, 0. split; [lia|]. split; [lia | reflexivity].
  - right. exists 10, 0. split; [lia|]. split; [lia | reflexivity].
Defined.

(** With 09:00, 10:00 and a zero duration: the button refuses and returns,
    the batch setup called directly does not; with an empty "from" input
    the inputs pass validation and nothing is generated. *)
Example quick_setup_with_odd_inputs :
  quickSetupError ∘ comp <$> handleQuickSetup world_zero_duration
  = Some "Duration must be greater than 0"
  ∧ executeQuickSetup world_zero_duration = None
  ∧ generateTimeSlots "" "10:00" 30 = Some [].
Proof. repeat split; vm_compute; reflexivity. Qed.

(** X5. With inputs that validation refuses (the end time not after the
    start time, or a duration that is not positive) the "Set up" button
    sends no request and changes neither the storage nor the displayed
    schedule; it sets the error text and does not open the confirmation
    modal. *)
Theorem invalid_quick_setup_stays_local (w : World) :
  (∃ f t, toMinutes (quickSetupFromTime (comp w)) = Some f
     ∧ toMinutes (quickSetupToTime (comp w)) = Some t ∧ t ≤ f)
  ∨ quickSetupDuration (comp w) ≤ 0 ->
  ∃ w', handleQuickSetup w = Some w'
    ∧ store w' = store w ∧ trace w' = trace w ∧ oracle w' = oracle w
    ∧ weekSchedule (comp w') = weekSchedule (comp w)
    ∧ quickSetupError (comp w') ≠ ""
    ∧ showQuickSetupConfirmModal (comp w') = showQuickSetupConfirmModal (comp w).
Proof.
  intros Hbad. unfold handleQuickSetup, validateQuickSetup. cbv zeta.
  destruct (toMinutes (quickSetupFromTime (comp w))) as [f|] eqn:Hf;
    destruct (toMinutes (quickSetupToTime (comp w))) as [t|] eqn:Ht;
    try destruct (Z.leb_spec t f);
    destruct (Z.leb_spec (quickSetupDuration (comp w)) 0);
    cbn [negb];
    try (eexists; split; [reflexivity|]; by repeat split);
    exfalso; destruct Hbad as [(f' & t' & Hf' & Ht' & Hle) | Hd]; simplify_eq; lia.
Qed.

Lemma invalid_quick_setup_stays_local_witness :
  ∃ w', handleQuickSetup world_swapped = Some w'
    ∧ store w' = store world_swapped ∧ trace w' = trace world_swapped
    ∧ oracle w' = oracle world_swapped
    ∧ weekSchedule (comp w') = weekSchedule (comp world_swapped)
    ∧ quickSetupError (comp w') ≠ ""
    ∧ showQuickSetupConfirmModal (comp w')
      = showQuickSetupConfirmModal (comp world_swapped).
Proof.
  apply (invalid_quick_setup_stays_local world_swapped).
  left. exists 600, 540. repeat split; (reflexivity || lia).
Defined.

(** ** Quick setup: the generated batch *)

Lemma generateTimeSlots_generated (fh fm th tm d : Z) :
  0 ≤ fh < 24 -> 0 ≤ fm < 60 -> 0 ≤ th < 24 -> 0 ≤ tm < 60 ->
  fh * 60 + fm < th * 60 + tm -> 0 < d ->
  generateTimeSlots (hhmm fh fm) (hhmm th tm) d
  = Some (generated (fh * 60 + fm) (th * 60 + tm) d).
Proof.
  intros Hfh Hfm Hth Htm Hlt Hd. unfold generateTimeSlots.
  rewrite !toMinutes_hhmm by done. apply generate_loop_fuel_enough; [done|].
  assert ((th * 60 + tm - (fh * 60 + fm)) / d ≤ th * 60 + tm - (fh * 60 + fm)).
  { apply Z.div_le_upper_bound; nia. }
  lia.
Qed.

Lemma generated_elem (fromMinutes toMin d : Z) (t : string) :
  0 ≤ fromMinutes -> toMin < 1440 -> 0 < d ->
  t ∈ generated fromMinutes toMin d ->
  ∃ x, t = timeStr x ∧ toMinutes t = Some x ∧ fromMinutes ≤ x ∧ x + d ≤ toMin.
Proof.
  intros Hf Ht Hd (i & Hi)%list_elem_of_lookup.
  pose proof (generated_lookup _ _ _ i t Hi) as [-> _].
  apply generated_minutes in Hi as [Hmin Hend]; [|done..].
  eexists. split; [reflexivity|]. split; [done|]. nia.
Qed.

Lemma toMinutes_normalizeTime_timeStr (x : Z) :
  0 ≤ x < 1440 -> toMinutes (normalizeTime (timeStr x)) = Some x.
Proof.
  intros Hx. unfold timeStr.
  assert (Hq : 0 ≤ x / 60 < 24).
  { split; [apply Z.div_pos; lia | apply Z.div_lt_upper_bound; lia]. }
  assert (Hr : 0 ≤ Z.rem x 60 < 60).
  { rewrite Z.rem_mod_nonneg by lia. apply Z.mod_pos_bound. lia. }
  rewrite (toMinutes_normalizeTime_hhmm (x / 60) (Z.rem x 60) Hq Hr).
  f_equal. rewrite Z.rem_mod_nonneg by lia.
  pose proof (Z.div_mod x 60). lia.
Qed.

Lemma generated_NoDup (fromMinutes toMin d : Z) :
  0 ≤ fromMinutes -> toMin < 1440 -> 0 < d ->
  NoDup (generated fromMinutes toMin d).
Proof.
  intros Hf Ht Hd. apply NoDup_alt. intros i j t Hi Hj.
  apply generated_minutes in Hi as [Hi _]; [|done..].
  apply generated_minutes in Hj as [Hj _]; [|done..].
  rewrite Hi in Hj. injection Hj as Hj. nia.
Qed.

Lemma allSlotsToInsert_elem (w : World) (slotTimes : list string) (p : NewSlot) :
  p ∈ allSlotsToInsert w slotTimes ->
  ∃ k, 0 ≤ k < 7 ∧ p ∈ day_batch w k slotTimes.
Proof.
  unfold allSlotsToInsert. rewrite list_elem_of_In, in_concat.
  intros (b & Hb & Hp). apply list_elem_of_In, list_elem_of_fmap in Hb as (k & -> & Hk).
  apply elem_of_seqZ in Hk. exists k. split; [lia | by apply list_elem_of_In].
Qed.

(** X7. Every slot of the batch built from valid [HH:MM] inputs lies on one
    of the seven days from today, starts inside the window, ends exactly
    the chosen duration after its start and not after the end of the
    window, is marked available, and, if it lies on the current day, starts
    after the current time of day. *)
Theorem batch_slots_span_the_duration (w : World) (fh fm th tm d : Z)
    (slotTimes : list string) (p : NewSlot) :
  setup_inputs w fh fm th tm d ->
  generateTimeSlots (quickSetupFromTime (comp w)) (quickSetupToTime (comp w))
    (quickSetupDuration (comp w)) = Some slotTimes ->
  p ∈ allSlotsToInsert w slotTimes ->
  ∃ x, toMinutes (new_start p) = Some x
    ∧ toMinutes (new_end p) = Some (x + d)
    ∧ fh * 60 + fm ≤ x ∧ x + d ≤ th * 60 + tm
    ∧ today w ≤ new_date p ≤ today w + 6
    ∧ is_available p = true
    ∧ (new_date p = today w -> currentMinutes w < x).
Proof.
  intros (Hfrom & Hto & Hdur & Hfh & Hfm & Hth & Htm & Hlt & Hd) Hgen Hp.
  rewrite Hfrom, Hto, Hdur, generateTimeSlots_generated in Hgen by done.
  injection Hgen as <-.
  apply allSlotsToInsert_elem in Hp as (k & Hk & Hp).
  unfold day_batch in Hp. apply list_elem_of_omap in Hp as (t & Ht & Hp).
  apply generated_elem in Ht as (x & -> & Hx & Hlo & Hhi); [|lia..].
  assert (Hpassed : (k =? 0) && time_passed w (timeStr x) = false).
  { by destruct ((k =? 0) && time_passed w (timeStr x)). }
  rewrite Hpassed, Hx, Hdur in Hp. injection Hp as <-. cbn [fmap option_fmap option_map hhmm_of
    new_start new_end new_date is_available].
  exists x. rewrite toMinutes_normalizeTime_timeStr by lia.
  assert (Hend : hhmm (Z.rem ((x + d) / 60) 24) (Z.rem (x + d) 60) = timeStr (x + d)).
  { unfold timeStr. f_equal. rewrite Z.rem_mod_nonneg; [|apply Z.div_pos; lia|lia].
    apply Z.mod_small. split; [apply Z.div_pos; lia | apply Z.div_lt_upper_bound; lia]. }
  rewrite Hend, toMinutes_normalizeTime_timeStr by lia.
  repeat split; try done; try lia.
  intros Hdate. assert (k = 0) as -> by lia.
  change (0 =? 0) with true in Hpassed. cbn [andb] in Hpassed.
  unfold time_passed in Hpassed. rewrite Hx in Hpassed. by apply Z.leb_gt.
Qed.

Lemma setup_inputs_world0 : setup_inputs world0 9 0 10 0 30.
Proof. repeat split; (reflexivity || lia). Qed.

Lemma batch_slots_span_the_duration_witness :
  ∃ x, toMinutes (new_start (mkNewSlot 100 "09:30:00" "10:00:00" true)) = Some x
    ∧ toMinutes (new_end (mkNewSlot 100 "09:30:00" "10:00:00" true)) = Some (x + 30)
    ∧ 9 * 60 + 0 ≤ x ∧ x + 30 ≤ 10 * 60 + 0
    ∧ today world0 ≤ new_date (mkNewSlot 100 "09:30:00" "10:00:00" true)
      ≤ today world0 + 6
    ∧ is_available (mkNewSlot 100 "09:30:00" "10:00:00" true) = true
    ∧ (new_date (mkNewSlot 100 "09:30:00" "10:00:00" true) = today world0 ->
       currentMinutes world0 < x).
Proof.
  apply (batch_slots_span_the_duration world0 9 0 10 0 30 ["09:00"; "09:30"]).
  - exact setup_inputs_world0.
  - reflexivity.
  - vm_compute. apply list_elem_of_here.
Defined.

Lemma NoDup_List_filter {A} (f : A -> bool) (l : list A) :
  NoDup l -> NoDup (List.filter f l).
Proof.
  induction 1 as [|x l Hx Hl IH]; simpl; [constructor|].
  destruct (f x); [|done]. constructor; [|done].
  rewrite list_elem_of_In, filter_In, <- list_elem_of_In. tauto.
Qed.

Lemma NoDup_concat_keys {K B X} (key : B -> X) (g : K -> list B) (ks : list K) :
  NoDup ks ->
  (∀ k, k ∈ ks -> NoDup (key <$> g k)) ->
  (∀ k k' b b', k ∈ ks -> k' ∈ ks -> k ≠ k' -> b ∈ g k -> b' ∈ g k' -> key b ≠ key b') ->
  NoDup (key <$> concat (map g ks)).
Proof.
  induction 1 as [|k ks Hk Hks IH]; intros Heach Hcross; simpl; [constructor|].
  rewrite fmap_app. apply NoDup_app. split; [|split].
  - apply Heach. left.
  - intros x (b & -> & Hb)%list_elem_of_fmap (b' & Heq & Hb')%list_elem_of_fmap.
    apply list_elem_of_In, in_concat in Hb' as (l' & Hl' & Hb').
    apply list_elem_of_In, list_elem_of_fmap in Hl' as (k' & -> & Hk').
    apply list_elem_of_In in Hb'.
    apply (Hcross k k' b b'); [left | by right | | done..].
    intros ->. done.
  - apply IH.
    + intros k' Hk'. apply Heach. by right.
    + intros k1 k2 b b' H1 H2. apply Hcross; by right.
Qed.

(** X6. The start times generated from valid [HH:MM] inputs are pairwise
    different, and so the batch sent by a batch setup never holds two slots
    with the same date and start time. *)
Theorem batch_has_no_duplicate_start (w : World) (fh fm th tm d : Z)
    (slotTimes : list string) :
  setup_inputs w fh fm th tm d ->
  generateTimeSlots (quickSetupFromTime (comp w)) (quickSetupToTime (comp w))
    (quickSetupDuration (comp w)) = Some slotTimes ->
  NoDup slotTimes ∧ NoDup (slot_key <$> allSlotsToInsert w slotTimes).
Proof.
  intros (Hfrom & Hto & Hdur & Hfh & Hfm & Hth & Htm & Hlt & Hd) Hgen.
  rewrite Hfrom, Hto, Hdur, generateTimeSlots_generated in Hgen by done.
  injection Hgen as <-.
  set (l := generated (fh * 60 + fm) (th * 60 + tm) d).
  assert (Hl : NoDup l) by (apply generated_NoDup; lia).
  split; [done|].
  unfold allSlotsToInsert. apply NoDup_concat_keys.
  - apply NoDup_seqZ.
  - intros k _.
    apply (NoDup_fmap_1 snd). rewrite <- list_fmap_compose.
    change (snd ∘ slot_key) with new_start. rewrite day_batch_starts.
    assert (Hkept : NoDup (kept_times w k l) ∧ ∀ t, t ∈ kept_times w k l -> t ∈ l).
    { unfold kept_times. destruct (decide (k = 0)); [|done]. split.
      - by apply NoDup_List_filter.
      - intros t. rewrite !list_elem_of_In, filter_In. tauto. }
    destruct Hkept as [Hnd Hsub].
    apply NoDup_fmap_2_strong; [|done].
    intros t1 t2 H1%Hsub H2%Hsub Heq.
    apply generated_elem in H1 as (x1 & -> & _ & ? & ?); [|lia..].
    apply generated_elem in H2 as (x2 & -> & _ & ? & ?); [|lia..].
    assert (Hx : Some x1 = Some x2); [|by injection Hx as ->].
    rewrite <- (toMinutes_normalizeTime_timeStr x1), <- (toMinutes_normalizeTime_timeStr x2) by lia.
    by rewrite Heq.
  - intros k k' b b' _ _ Hne Hb Hb' Heq.
    apply day_batch_dates in Hb, Hb'. unfold slot_key in Heq. injection Heq as Heq _. lia.
Qed.

Lemma batch_has_no_duplicate_start_witness :
  NoDup ["09:00"; "09:30"]
  ∧ NoDup (slot_key <$> allSlotsToInsert world0 ["09:00"; "09:30"]).
Proof.
  apply (batch_has_no_duplicate_start world0 9 0 10 0 30 ["09:00"; "09:30"]).
  - exact setup_inputs_world0.
  - reflexivity.
Defined.

(** ** Reloading the page *)

(** X8. A reload never writes: whatever the answers, the storage is as
    before, every event it adds is a read request or a toast, and the edit
    session is untouched.  When there is no provider id, no session token,
    or the request for the slot list does not succeed, the displayed
    schedule stays as it was. *)
Theorem loadSlots_only_reads (w : World) :
  store (loadSlots w) = store w
  ∧ (∃ evs, trace (loadSlots w) = trace w ++ evs ∧ forallb reads_only evs = true)
  ∧ edit_session (loadSlots w) = edit_session w
  ∧ pageIndex (comp (loadSlots w)) = pageIndex (comp w)
  ∧ (barberId (comp w) = None ∨ sessionToken w = false ∨ hd Ok (oracle w) ≠ Ok ->
     weekSchedule (comp (loadSlots w)) = weekSchedule (comp w)).
Proof.
  destruct w as [c st td cm clk tok orc tr]. unfold loadSlots, edit_session. simpl.
  destruct (barberId c) as [b|] eqn:Hb.
  2:{ repeat split; try done. exists []. by rewrite app_nil_r. }
  destruct tok; simpl.
  2:{ repeat split; try done. by eexists. }
  destruct orc as [|[] [|[] orc]]; simpl;
    (split; [done|];
     split; [eexists; split; [rewrite <- ?app_assoc; reflexivity | reflexivity]|];
     split; [done|]; split; [done|];
     intros [? | [? | ?]]; done).
Qed.

(** X11. When the slot list arrives but the read of the working-day object
    fails, the reload builds the schedule that a fully successful reload
    builds, except that every day of the page is off, whatever flags the
    storage holds: the component holds the fetched slots and renders none
    of them. *)
Theorem loadSlots_without_working_days (w : World) (b : string) (a : Answer)
    (rest : list Answer) :
  barberId (comp w) = Some b -> sessionToken w = true ->
  oracle w = Ok :: a :: rest -> a ≠ Ok ->
  weekSchedule (comp (loadSlots w))
  = turned_off <$> weekSchedule (comp (loadSlots (answered_ok w)))
  ∧ (∀ idx, 0 ≤ idx < DAYS_PER_PAGE ->
       ∃ d, at_index (weekSchedule (comp (loadSlots w))) idx = Some d
         ∧ isOff d = true ∧ renderedSlots d = []).
Proof.
  intros Hb Htok Horc Ha.
  set (ws := getPageStartDate w (pageIndex (comp w))).
  assert (Hws : weekSchedule (comp (loadSlots w))
                = newSchedule (localMidnight w) ws ∅
                    (Storage.listByDateRange ws (ws + (DAYS_PER_PAGE - 1)) (store w))).
  { unfold loadSlots, request. rewrite Hb, Htok, Horc. cbn [negb hd tl oracle store].
    by destruct a. }
  assert (Hall : weekSchedule (comp (loadSlots (answered_ok w)))
                 = newSchedule (localMidnight w) ws (working_days (store w))
                     (Storage.listByDateRange ws (ws + (DAYS_PER_PAGE - 1)) (store w))).
  { by destruct (loadSlots_ok (answered_ok w) b Hb Htok ltac:(constructor)) as (-> & _). }
  split.
  - rewrite Hws, Hall. unfold newSchedule. rewrite <- list_fmap_compose.
    apply list_fmap_ext. intros i idx _. unfold turned_off. simpl.
    by rewrite lookup_empty.
  - intros idx Hidx. rewrite Hws.
    destruct (newSchedule_lookup (localMidnight w) ws idx ∅
                (Storage.listByDateRange ws (ws + (DAYS_PER_PAGE - 1)) (store w)) Hidx)
      as (d & Hd & _).
    exists d. split; [exact Hd|].
    apply newSchedule_at in Hd as [_ ->]. unfold renderedSlots. simpl.
    by rewrite lookup_empty.
Qed.

Lemma loadSlots_without_working_days_witness :
  weekSchedule (comp (loadSlots world1_kv_down))
  = turned_off <$> weekSchedule (comp (loadSlots (answered_ok world1_kv_down)))
  ∧ (∀ idx, 0 ≤ idx < DAYS_PER_PAGE ->
       ∃ d, at_index (weekSchedule (comp (loadSlots world1_kv_down))) idx = Some d
         ∧ isOff d = true ∧ renderedSlots d = []).
Proof.
  apply (loadSlots_without_working_days world1_kv_down "barber-1" HttpError []).
  - reflexivity.
  - reflexivity.
  - reflexivity.
  - discriminate.
Defined.

(** On the provider of [world1]: day 100 is a working day with three
    stored slots; with the working-day object unreadable the reload holds
    the three slots under day 100 and renders none. *)
Example loadSlots_kv_down_day100 :
  fmap slot_id <$> (slots <$> at_index (weekSchedule (comp (loadSlots world1_kv_down))) 0)
  = Some ["1"; "2"; "3"]
  ∧ renderedSlots <$> at_index (weekSchedule (comp (loadSlots world1_kv_down))) 0
    = Some []
  ∧ fmap slot_id <$> (renderedSlots <$> at_index (weekSchedule (comp (loadSlots world1))) 0)
    = Some ["1"; "2"; "3"].
Proof. repeat split; vm_compute; reflexivity. Qed.

(** X9. After a reload that succeeds, on a page without clock change, the
    schedule has [DAYS_PER_PAGE] consecutive days starting at the page start
    and the slots it holds for a day are exactly the stored rows of that
    date, each once and none from another date, with [available] the
    negation of the stored booked flag and the start time cut to five
    characters.  The card of a working day renders these slots; the card of
    a day off renders none. *)
Theorem loadSlots_shows_the_stored_rows (w : World) (b : string) :
  barberId (comp w) = Some b -> sessionToken w = true -> all_ok w ->
  steady_page w ->
  let windowStart := getPageStartDate w (pageIndex (comp w)) in
  length (weekSchedule (comp (loadSlots w))) = Z.to_nat DAYS_PER_PAGE
  ∧ (∀ idx d, at_index (weekSchedule (comp (loadSlots w))) idx = Some d ->
       0 ≤ idx < DAYS_PER_PAGE)
  ∧ ∀ idx, 0 ≤ idx < DAYS_PER_PAGE ->
      ∃ d, at_index (weekSchedule (comp (loadSlots w))) idx = Some d
        ∧ date d = windowStart + idx
        ∧ slots d ≡ₚ
            (fun r => mkTimeSlot (row_id r) (Js.slice05 (start_time r))
                        (negb (is_booked r)) (is_booked r))
            <$> filter (fun r => slot_date r = windowStart + idx) (barber_slots (store w))
        ∧ renderedSlots d
          = (if bool_decide (working_days (store w) !! (windowStart + idx) = Some true)
             then slots d else []).
Proof.
  intros Hb Htok Hok Hsteady windowStart.
  destruct (loadSlots_ok w b Hb Htok Hok) as (-> & _). fold windowStart.
  split; [|split].
  - unfold newSchedule. by rewrite length_map, length_seqZ.
  - intros idx d Hd. by apply newSchedule_at in Hd as [Hidx _].
  - intros idx Hidx.
    destruct (newSchedule_lookup (localMidnight w) windowStart idx (working_days (store w))
                (Storage.listByDateRange windowStart (windowStart + (DAYS_PER_PAGE - 1))
                   (store w)) Hidx) as (d & Hd & Hdate).
    exists d. split; [exact Hd|]. split; [exact Hdate|].
    apply newSchedule_at in Hd as [_ ->]. unfold renderedSlots. cbn [date slots isOff].
    split.
    + rewrite sort_by_perm, (page_rows_of_day _ _ _ _ Hsteady) by done. done.
    + by destruct (bool_decide _).
Qed.

Lemma loadSlots_shows_the_stored_rows_witness :
  let windowStart := getPageStartDate world1 (pageIndex (comp world1)) in
  length (weekSchedule (comp (loadSlots world1))) = Z.to_nat DAYS_PER_PAGE
  ∧ (∀ idx d, at_index (weekSchedule (comp (loadSlots world1))) idx = Some d ->
       0 ≤ idx < DAYS_PER_PAGE)
  ∧ ∀ idx, 0 ≤ idx < DAYS_PER_PAGE ->
      ∃ d, at_index (weekSchedule (comp (loadSlots world1))) idx = Some d
        ∧ date d = windowStart + idx
        ∧ slots d ≡ₚ
            (fun r => mkTimeSlot (row_id r) (Js.slice05 (start_time r))
                        (negb (is_booked r)) (is_booked r))
            <$> filter (fun r => slot_date r = windowStart + idx)
                  (barber_slots (store world1))
        ∧ renderedSlots d
          = (if bool_decide (working_days (store world1) !! (windowStart + idx)
                             = Some true)
             then slots d else []).
Proof.
  apply (loadSlots_shows_the_stored_rows world1 "barber-1").
  - reflexivity.
  - reflexivity.
  - constructor.
  - intros k Hk. unfold getPageStartDate, DAYS_PER_PAGE, MS_PER_DAY. simpl.
    unfold steady_clock, MS_PER_DAY. lia.
Defined.

(** Across a clock change the rows are filed a day early: with the clock
    put forward in the course of day 100, the local midnight of day 107 is
    6 days and 23 hours after the one of day 100, so the slot stored for
    day 107 is held by the entry of day 106 and the entry of day 107 holds
    none. *)
Example loadSlots_across_clock_change :
  daysDiff (localMidnight world1_spring) 100 107 = 6
  ∧ date <$> at_index (weekSchedule (comp (loadSlots world1_spring))) 6 = Some 106
  ∧ fmap slot_id <$> (slots <$> at_index (weekSchedule (comp (loadSlots world1_spring))) 6)
    = Some ["4"]
  ∧ slots <$> at_index (weekSchedule (comp (loadSlots world1_spring))) 7 = Some [].
Proof. repeat split; vm_compute; reflexivity. Qed.

Lemma insert_sorted_sorted {A} (le : A -> A -> bool) (R : A -> A -> Prop)
    (x : A) (l : list A) :
  (∀ a b c, R a b -> R b c -> R a c) ->
  (∀ y, y ∈ l -> (le x y = true -> R x y) ∧ (le x y = false -> R y x)) ->
  StronglySorted R l -> StronglySorted R (insert_sorted le x l).
Proof.
  intros Htrans Hx Hl. induction Hl as [|y l Hl IH Hy]; simpl.
  - repeat constructor.
  - destruct (le x y) eqn:Hle.
    + constructor; [by constructor|].
      assert (Hxy : R x y) by (by apply (Hx y); [left|]).
      constructor; [done|]. eapply Forall_impl; [exact Hy|]. intros z Hz. by eapply Htrans.
    + constructor.
      * apply IH. intros z Hz. apply Hx. by right.
      * rewrite insert_sorted_perm. constructor; [|done]. by apply (Hx y); [left|].
Qed.

Lemma sort_by_sorted {A} (le : A -> A -> bool) (R : A -> A -> Prop) (l : list A) :
  (∀ a b c, R a b -> R b c -> R a c) ->
  (∀ x y, x ∈ l -> y ∈ l -> (le x y = true -> R x y) ∧ (le x y = false -> R y x)) ->
  StronglySorted R (sort_by le l).
Proof.
  intros Htrans. induction l as [|x l IH]; intros Hle; simpl; [constructor|].
  apply insert_sorted_sorted; [done| |].
  - intros y Hy. rewrite sort_by_perm in Hy. apply Hle; [left | by right].
  - apply IH. intros a c Ha Hc. apply Hle; by right.
Qed.

(** X10. After a reload that succeeds, with stored start times that begin
    with an [HH:MM] text, the slots of every displayed day are in order of
    their start time. *)
Theorem loadSlots_sorts_each_day (w : World) (b : string) :
  barberId (comp w) = Some b -> sessionToken w = true -> all_ok w ->
  (∀ r, r ∈ barber_slots (store w) -> has_time_text (start_time r)) ->
  ∀ d, d ∈ weekSchedule (comp (loadSlots w)) -> StronglySorted starts_before (slots d).
Proof.
  intros Hb Htok Hok Hwf d Hd.
  destruct (loadSlots_ok w b Hb Htok Hok) as (Hws & _). rewrite Hws in Hd.
  unfold newSchedule in Hd. apply list_elem_of_fmap in Hd as (idx & -> & _).
  cbn [slots]. apply sort_by_sorted.
  - intros a1 a2 a3 (x & y & Hx & Hy & Hxy) (y' & z & Hy' & Hz & Hyz).
    exists x, z. rewrite Hy in Hy'. injection Hy' as <-. repeat split; [done..|lia].
  - intros s1 s2 H1 H2.
    assert (Hmin : ∀ s, s ∈ slot_of_row <$>
                     filter (fun r => daysDiff (localMidnight w)
                                        (getPageStartDate w (pageIndex (comp w)))
                                        (slot_date r) = idx)
                       (Storage.listByDateRange (getPageStartDate w (pageIndex (comp w)))
                          (getPageStartDate w (pageIndex (comp w)) + (DAYS_PER_PAGE - 1))
                          (store w)) ->
                   ∃ x, toMinutes (slot_time s) = Some x).
    { intros s (r & -> & Hr)%list_elem_of_fmap.
      apply list_elem_of_filter in Hr as [_ Hr]. apply list_elem_of_filter in Hr as [_ Hr].
      destruct (Hwf r Hr) as (h & m & Htext). exists (h * 60 + m). simpl.
      rewrite (time_text_slice h m _ Htext). apply toMinutes_hhmm; by destruct Htext as (? & ? & _). }
    destruct (Hmin s1 H1) as (x & Hx), (Hmin s2 H2) as (y & Hy).
    unfold time_le, starts_before. rewrite Hx, Hy. split.
    + intros Hle%Z.leb_le. by exists x, y.
    + intros Hgt%Z.leb_gt. exists y, x. repeat split; [done..|lia].
Qed.

Lemma loadSlots_sorts_each_day_witness :
  Forall (fun d => StronglySorted starts_before (slots d))
    (weekSchedule (comp (loadSlots world1))).
Proof.
  apply Forall_forall. apply (loadSlots_sorts_each_day world1 "barber-1").
  - reflexivity.
  - reflexivity.
  - constructor.
  - intros r Hr. simpl in Hr.
    repeat (apply elem_of_cons in Hr as [-> | Hr]);
      [ exists 9, 0 | exists 10, 0 | exists 11, 30 | exists 9, 0 | exists 9, 0 | by apply elem_of_nil in Hr ];
      (split; [lia | split; [lia |]]); simpl.
    + exists ":00". split; [done | right; by exists "00"].
    + exists ":00". split; [done | right; by exists "00"].
    + exists "". split; [done | by left].
    + exists ":00". split; [done | right; by exists "00"].
    + exists ":00". split; [done | right; by exists "00"].
Defined.

(** ** The working-day object *)

(** X12. When the read of the working-day object is refused and the write
    that follows is accepted, [updateWorkingDayState] writes an object that
    holds at most the one date it was called for: the flag of every other
    date is lost. *)
Theorem updateWorkingDayState_overwrites_after_refused_read (w : World) (dt : Z)
    (isWorkingDay : bool) (rest : list Answer) :
  sessionToken w = true -> oracle w = HttpError :: Ok :: rest ->
  working_days (store (updateWorkingDayState dt isWorkingDay w))
  = (if isWorkingDay then {[ dt := true ]} else ∅)
  ∧ (∀ other, other ≠ dt ->
       working_days (store (updateWorkingDayState dt isWorkingDay w)) !! other = None).
Proof.
  destruct w as [c st td cm clk tok orc tr]. simpl. intros -> ->.
  assert (Hwd : working_days (store (updateWorkingDayState dt isWorkingDay
                   (mkWorld c st td cm clk true (HttpError :: Ok :: rest) tr)))
                = (if isWorkingDay then {[ dt := true ]} else ∅)).
  { unfold updateWorkingDayState. simpl. destruct isWorkingDay; simpl.
    - by rewrite insert_empty.
    - by rewrite delete_empty. }
  split; [exact Hwd|]. intros other Hne. rewrite Hwd.
  destruct isWorkingDay; [by rewrite lookup_singleton_ne | by rewrite lookup_empty].
Qed.

Lemma updateWorkingDayState_overwrites_after_refused_read_witness :
  working_days (store (updateWorkingDayState 105 true world1_kv_read_refused))
  = (if true then {[ 105 := true ]} else ∅)
  ∧ (∀ other, other ≠ 105 ->
       working_days (store (updateWorkingDayState 105 true world1_kv_read_refused))
         !! other = None).
Proof.
  apply (updateWorkingDayState_overwrites_after_refused_read
           world1_kv_read_refused 105 true []); reflexivity.
Defined.

(** X13. Whatever the answers, [updateWorkingDayState] changes neither the
    slot rows nor the component and only talks to the working-day object;
    it does nothing at all without a session token, and it writes nothing
    when its read throws or its write is not accepted. *)
Theorem updateWorkingDayState_is_contained (w : World) (dt : Z) (isWorkingDay : bool) :
  comp (updateWorkingDayState dt isWorkingDay w) = comp w
  ∧ barber_slots (store (updateWorkingDayState dt isWorkingDay w)) = barber_slots (store w)
  ∧ next_id (store (updateWorkingDayState dt isWorkingDay w)) = next_id (store w)
  ∧ (∃ evs, trace (updateWorkingDayState dt isWorkingDay w) = trace w ++ evs
       ∧ forallb passive evs = true)
  ∧ (sessionToken w = false -> updateWorkingDayState dt isWorkingDay w = w)
  ∧ (hd Ok (oracle w) = NetworkError ∨ hd Ok (tl (oracle w)) ≠ Ok ->
     store (updateWorkingDayState dt isWorkingDay w) = store w).
Proof.
  destruct w as [c st td cm clk tok orc tr]. unfold updateWorkingDayState.
  destruct tok; simpl.
  - destruct orc as [|[] [|[] orc]]; simpl;
      (split; [done|]; split; [done|]; split; [done|];
       split; [eexists; split; [rewrite <- ?app_assoc; reflexivity | reflexivity]|];
       split; [done|]; intros [? | ?]; done).
  - repeat split; try done. exists []. by rewrite app_nil_r.
Qed.

(** ** Quick setup: what a run leaves behind *)

Lemma loadSlots_comp (w : World) :
  ∃ f, comp (loadSlots w) = comp (setWeekSchedule f w).
Proof.
  destruct w as [c st td cm clk tok orc tr].
  destruct c as [bid ws pg es et pa stm tpd sst qf qt qd qe scm qp].
  unfold loadSlots. simpl.
  destruct bid; [|by exists (fun x => x)].
  destruct tok; simpl; [|by exists (fun x => x)].
  destruct orc as [|[] [|[] orc]]; simpl;
    first [ by eexists (fun _ => _) | by exists (fun x => x) ].
Qed.

Lemma mark_working_ok (dates : list Z) (w : World) :
  sessionToken w = true -> all_ok w ->
  let w' := fold_left (fun acc dateStr => updateWorkingDayState dateStr true acc) dates w in
  (∀ dt, working_days (store w') !! dt
         = if bool_decide (dt ∈ dates) then Some true else working_days (store w) !! dt)
  ∧ barber_slots (store w') = barber_slots (store w)
  ∧ comp w' = comp w ∧ today w' = today w ∧ sessionToken w' = true ∧ all_ok w'.
Proof.
  revert w. induction dates as [|d dates IH]; intros w Htok Hok; simpl.
  { repeat split; try done. }
  destruct (updateWorkingDayState_ok d true w Htok Hok)
    as (Hwd & Hrows & Hcomp & Htoday & _ & Htok1 & Hok1).
  destruct (IH _ Htok1 Hok1) as (Hwd' & Hrows' & Hcomp' & Htoday' & Htok' & Hok').
  split; [|repeat split; congruence].
  intros dt. rewrite Hwd', Hwd.
  destruct (decide (dt = d)) as [->|Hne].
  - rewrite lookup_insert_eq, (bool_decide_eq_true_2 (d ∈ d :: dates)) by left.
    by destruct (bool_decide (d ∈ dates)).
  - rewrite lookup_insert_ne by done.
    destruct (bool_decide (dt ∈ dates)) eqn:Hin.
    + apply bool_decide_eq_true in Hin. by rewrite bool_decide_eq_true_2 by (by right).
    + apply bool_decide_eq_false in Hin. rewrite bool_decide_eq_false_2; [done|].
      intros [?|?]%elem_of_cons; done.
Qed.

Lemma workingDayUpdates_elem (w : World) (dt : Z) :
  dt ∈ workingDayUpdates w ↔ in_setup_window w dt.
Proof.
  unfold workingDayUpdates, in_setup_window. rewrite list_elem_of_fmap. split.
  - intros (k & -> & Hk%elem_of_seqZ). lia.
  - intros Hdt. exists (dt - today w). split; [lia|]. apply elem_of_seqZ. lia.
Qed.

Lemma create_all_rows (ps : list NewSlot) (s : Store) :
  barber_slots (fold_left (fun acc p => Storage.create p acc) ps s)
  = barber_slots s ++ created_rows (next_id s) ps.
Proof.
  revert s. induction ps as [|p ps IH]; intros s; simpl.
  { by rewrite app_nil_r. }
  rewrite IH. unfold created_rows. simpl. rewrite <- app_assoc. simpl.
  rewrite Z.add_0_r. do 2 f_equal.
  apply imap_ext. intros i q _. simpl. do 2 f_equal. lia.
Qed.

(** X14. A batch setup whose requests all succeed marks each of the seven
    days from today as a working day and leaves the flag of every other
    date alone.  If the batch is not empty the stored rows of those seven
    days are replaced by the batch and all other rows are kept; if the
    batch is empty (no start time was generated) no row is deleted, and the
    seven days are marked as working all the same.  The run ends with the
    processing flag and the confirmation modal off. *)
Theorem executeQuickSetup_marks_the_week (w : World) (b : string)
    (slotTimes : list string) :
  barberId (comp w) = Some b -> sessionToken w = true -> all_ok w ->
  generateTimeSlots (quickSetupFromTime (comp w)) (quickSetupToTime (comp w))
    (quickSetupDuration (comp w)) = Some slotTimes ->
  ∃ w', executeQuickSetup w = Some w'
    ∧ (∀ dt, working_days (store w') !! dt
             = if bool_decide (in_setup_window w dt) then Some true
               else working_days (store w) !! dt)
    ∧ barber_slots (store w')
      = match allSlotsToInsert w slotTimes with
        | [] => barber_slots (store w)
        | batch =>
            filter (fun r => ¬ in_setup_window w (slot_date r)) (barber_slots (store w))
            ++ created_rows (next_id (store w)) batch
        end
    ∧ isQuickSetupProcessing (comp w') = false
    ∧ showQuickSetupConfirmModal (comp w') = false.
Proof.
  intros Hb Htok Hok Hgen. unfold executeQuickSetup. cbv zeta.
  set (w0 := setIsQuickSetupProcessing true (setShowQuickSetupConfirmModal false w)).
  assert (Htok0 : sessionToken w0 = true) by done.
  assert (Hok0 : all_ok w0) by done.
  assert (Hbatch : allSlotsToInsert w0 slotTimes = allSlotsToInsert w slotTimes) by done.
  rewrite Htok0, Hgen. cbn [negb mbind option_bind]. rewrite Hbatch.
  assert (Hfinish : ∀ w1, sessionToken w1 = true -> all_ok w1 ->
            today w1 = today w ->
            showQuickSetupConfirmModal (comp w1) = false ->
            ∃ w', Some (setIsQuickSetupProcessing false
                     (loadSlots (toast_success "schedule.generatedSuccess"
                        (fold_left (fun acc dateStr => updateWorkingDayState dateStr true acc)
                           (workingDayUpdates w0) w1)))) = Some w'
              ∧ (∀ dt, working_days (store w') !! dt
                       = if bool_decide (in_setup_window w dt) then Some true
                         else working_days (store w1) !! dt)
              ∧ barber_slots (store w') = barber_slots (store w1)
              ∧ isQuickSetupProcessing (comp w') = false
              ∧ showQuickSetupConfirmModal (comp w') = false).
  { intros w1 Htok1 Hok1 Htoday1 Hmodal1.
    destruct (mark_working_ok (workingDayUpdates w0) w1 Htok1 Hok1)
      as (Hwd & Hrows & Hcomp & _).
    set (w2 := fold_left _ (workingDayUpdates w0) w1) in *.
    eexists. split; [reflexivity|].
    change (store (setIsQuickSetupProcessing false
                     (loadSlots (toast_success "schedule.generatedSuccess" w2))))
      with (store (loadSlots (toast_success "schedule.generatedSuccess" w2))).
    rewrite loadSlots_store.
    change (store (toast_success "schedule.generatedSuccess" w2)) with (store w2).
    split; [|split; [done|split; [done|]]].
    - intros dt. rewrite Hwd. apply (f_equal (fun c : bool => if c then _ else _)).
      apply bool_decide_ext. apply (workingDayUpdates_elem w dt).
    - destruct (loadSlots_comp (toast_success "schedule.generatedSuccess" w2)) as (f & Hf).
      change (showQuickSetupConfirmModal
                (comp (setIsQuickSetupProcessing false
                   (loadSlots (toast_success "schedule.generatedSuccess" w2)))))
        with (showQuickSetupConfirmModal
                (comp (loadSlots (toast_success "schedule.generatedSuccess" w2)))).
      rewrite Hf. cbn [setWeekSchedule with_comp comp showQuickSetupConfirmModal
        toast_success emit]. by rewrite Hcomp. }
  destruct (allSlotsToInsert w slotTimes) as [|p ps] eqn:Hall.
  - apply (Hfinish w0); done.
  - answer_ok Hok0.
    match goal with |- context [with_store ?g ?x] => set (wb := with_store g x) end.
    destruct (Hfinish wb) as (w' & Hrun & Hwd & Hrows & Hflags).
    { by rewrite <- Htok0, <- Htoken. }
    { exact Hok1. }
    { exact Htoday. }
    { unfold wb. cbn [with_store comp]. by rewrite Hcomp. }
    exists w'. split; [exact Hrun|]. split; [|split; [|exact Hflags]].
    + intros dt. rewrite Hwd. unfold wb. cbn [with_store store].
      assert (Hkeep : ∀ ps' s, working_days (fold_left (fun acc q => Storage.create q acc) ps' s)
                      = working_days s).
      { induction ps' as [|q ps' IH]; intros s; [done|]. simpl. by rewrite IH. }
      unfold Storage.batch. by rewrite Hkeep, Hstore.
    + rewrite Hrows. unfold wb. cbn [with_store store]. unfold Storage.batch.
      rewrite create_all_rows. rewrite Hstore. done.
Qed.

Lemma executeQuickSetup_marks_the_week_witness :
  ∃ w', executeQuickSetup world1_loaded = Some w'
    ∧ (∀ dt, working_days (store w') !! dt
             = if bool_decide (in_setup_window world1_loaded dt) then Some true
               else working_days (store world1_loaded) !! dt)
    ∧ barber_slots (store w')
      = match allSlotsToInsert world1_loaded ["09:00"; "09:30"] with
        | [] => barber_slots (store world1_loaded)
        | batch =>
            filter (fun r => ¬ in_setup_window world1_loaded (slot_date r))
              (barber_slots (store world1_loaded))
            ++ created_rows (next_id (store world1_loaded)) batch
        end
    ∧ isQuickSetupProcessing (comp w') = false
    ∧ showQuickSetupConfirmModal (comp w') = false.
Proof.
  apply (executeQuickSetup_marks_the_week world1_loaded "barber-1" ["09:00"; "09:30"]).
  - reflexivity.
  - reflexivity.
  - unfold all_ok. vm_compute. constructor.
  - reflexivity.
Defined.

(** A window shorter than the duration passes validation and generates
    nothing: the run deletes no row and marks days 100 to 106 as working. *)
Example quick_setup_with_nothing_generated :
  validateQuickSetup world1_short_window
  = (true, setQuickSetupError "" world1_short_window)
  ∧ ∃ w', executeQuickSetup world1_short_window = Some w'
      ∧ barber_slots (store w') = barber_slots (store world1_short_window)
      ∧ batches_sent (trace w') = []
      ∧ (fun dt => working_days (store w') !! dt) <$> [100; 101; 102; 103; 104; 105; 106; 107]
        = [Some true; Some true; Some true; Some true; Some true; Some true; Some true; None].
Proof.
  split; [vm_compute; reflexivity|]. eexists. split; [vm_compute; reflexivity|].
  repeat split; vm_compute; reflexivity.
Qed.

(** X15. When the batch request is not accepted, a batch setup writes
    nothing after it: no working flag is set.  It shows the error toast and
    reloads, so that what it has sent is the batch request, the toast and
    the two reads of the reload; the schedule it then holds is the one the
    reload builds from the storage, and the processing flag and the
    confirmation modal are off. *)
Theorem executeQuickSetup_refused_only_reloads (w : World) (b : string)
    (slotTimes : list string) (a : Answer) (rest : list Answer) :
  barberId (comp w) = Some b -> sessionToken w = true ->
  generateTimeSlots (quickSetupFromTime (comp w)) (quickSetupToTime (comp w))
    (quickSetupDuration (comp w)) = Some slotTimes ->
  allSlotsToInsert w slotTimes ≠ [] ->
  oracle w = a :: rest -> a ≠ Ok -> Forall (eq Ok) rest ->
  let windowStart := getPageStartDate w (pageIndex (comp w)) in
  let windowEnd := windowStart + (DAYS_PER_PAGE - 1) in
  ∃ w', executeQuickSetup w = Some w'
    ∧ trace w'
      = trace w ++ [ReqBatch (allSlotsToInsert w slotTimes) (today w) (today w + 6);
                    Toast false "Failed to generate slots. Please try again.";
                    ReqListSlots windowStart windowEnd; ReqKvGet]
    ∧ weekSchedule (comp w')
      = newSchedule (localMidnight w) windowStart (working_days (store w'))
          (Storage.listByDateRange windowStart windowEnd (store w'))
    ∧ isQuickSetupProcessing (comp w') = false
    ∧ showQuickSetupConfirmModal (comp w') = false.
Proof.
  intros Hb Htok Hgen Hbatch Horc Ha Hrest. cbv zeta. unfold executeQuickSetup. cbv zeta.
  set (w0 := setIsQuickSetupProcessing true (setShowQuickSetupConfirmModal false w)).
  assert (Htok0 : sessionToken w0 = true) by done.
  assert (Hsame : allSlotsToInsert w0 slotTimes = allSlotsToInsert w slotTimes) by done.
  rewrite Htok0, Hgen. cbn [negb mbind option_bind]. rewrite Hsame.
  destruct (allSlotsToInsert w slotTimes) as [|p ps] eqn:Hps; [done|].
  unfold request. change (oracle w0) with (oracle w). rewrite Horc. cbn [hd tl].
  set (w1 := mkWorld _ _ _ _ _ _ rest _).
  assert (Hend : ∃ w', Some (setIsQuickSetupProcessing false
                   (loadSlots (toast_error "Failed to generate slots. Please try again." w1)))
                 = Some w'
            ∧ trace w'
              = trace w ++ [ReqBatch (p :: ps) (today w) (today w + 6);
                            Toast false "Failed to generate slots. Please try again.";
                            ReqListSlots (getPageStartDate w (pageIndex (comp w)))
                              (getPageStartDate w (pageIndex (comp w)) + (DAYS_PER_PAGE - 1));
                            ReqKvGet]
            ∧ weekSchedule (comp w')
              = newSchedule (localMidnight w) (getPageStartDate w (pageIndex (comp w)))
                  (working_days (store w'))
                  (Storage.listByDateRange (getPageStartDate w (pageIndex (comp w)))
                     (getPageStartDate w (pageIndex (comp w)) + (DAYS_PER_PAGE - 1))
                     (store w'))
            ∧ isQuickSetupProcessing (comp w') = false
            ∧ showQuickSetupConfirmModal (comp w') = false).
  { eexists. split; [reflexivity|].
    set (x := toast_error "Failed to generate slots. Please try again." w1).
    destruct (loadSlots_ok x b Hb Htok Hrest) as (Hws & Hst & Htr & _).
    destruct (loadSlots_comp x) as (g & Hcomp).
    change (trace (setIsQuickSetupProcessing false (loadSlots x))) with (trace (loadSlots x)).
    change (store (setIsQuickSetupProcessing false (loadSlots x))) with (store (loadSlots x)).
    change (weekSchedule (comp (setIsQuickSetupProcessing false (loadSlots x))))
      with (weekSchedule (comp (loadSlots x))).
    split; [|split; [|split]].
    - rewrite Htr. cbn [x w1 toast_error emit trace]. by rewrite <- !app_assoc.
    - rewrite Hws, Hst. reflexivity.
    - reflexivity.
    - change (showQuickSetupConfirmModal
                (comp (setIsQuickSetupProcessing false (loadSlots x))))
        with (showQuickSetupConfirmModal (comp (loadSlots x))).
      by rewrite Hcomp. }
  destruct a; [done | exact Hend | exact Hend].
Qed.

Lemma executeQuickSetup_refused_only_reloads_witness :
  let windowStart := getPageStartDate world1_refused (pageIndex (comp world1_refused)) in
  let windowEnd := windowStart + (DAYS_PER_PAGE - 1) in
  ∃ w', executeQuickSetup world1_refused = Some w'
    ∧ trace w'
      = trace world1_refused
        ++ [ReqBatch (allSlotsToInsert world1_refused ["09:00"; "09:30"])
              (today world1_refused) (today world1_refused + 6);
            Toast false "Failed to generate slots. Please try again.";
            ReqListSlots windowStart windowEnd; ReqKvGet]
    ∧ weekSchedule (comp w')
      = newSchedule (localMidnight world1_refused) windowStart (working_days (store w'))
          (Storage.listByDateRange windowStart windowEnd (store w'))
    ∧ isQuickSetupProcessing (comp w') = false
    ∧ showQuickSetupConfirmModal (comp w') = false.
Proof.
  apply (executeQuickSetup_refused_only_reloads world1_refused "barber-1"
           ["09:00"; "09:30"] HttpError []).
  - reflexivity.
  - reflexivity.
  - reflexivity.
  - vm_compute. discriminate.
  - reflexivity.
  - discriminate.
  - constructor.
Defined.

(** ** Without a session token *)

(** X16. Without a session token the operations that go through the
    backend send nothing: adding, deleting and editing a slot, the batch
    setup and the reload leave the storage as it is and add only toasts to
    the trace. *)
Theorem signed_out_sends_nothing (w : World) :
  sessionToken w = false ->
  (∀ dayIndex slotTime,
     ∃ message, instantAddTimeSlot dayIndex slotTime w = toast_error message w)
  ∧ (∀ dayIndex slotId,
       removeTimeSlot dayIndex slotId w = toast_error "Please login to delete slots" w)
  ∧ (store (saveTimeSlot w) = store w ∧ only_toasts w (saveTimeSlot w))
  ∧ (∃ w', executeQuickSetup w = Some w' ∧ store w' = store w ∧ only_toasts w w')
  ∧ (store (loadSlots w) = store w ∧ only_toasts w (loadSlots w)).
Proof.
  intros Htok. split; [|split; [|split; [|split]]].
  - intros dayIndex slotTime. unfold instantAddTimeSlot. cbv zeta.
    destruct (_ <? _); [by eexists|]. destruct (_ && _); [by eexists|].
    rewrite Htok. by eexists.
  - intros dayIndex slotId. unfold removeTimeSlot. by rewrite Htok.
  - unfold saveTimeSlot, only_toasts.
    destruct (editingSlot (comp w)) as [[dayIndex slotId]|].
    2:{ split; [done|]. exists []. by rewrite app_nil_r. }
    cbv zeta. destruct (isDuplicateTime _ _ _ _); [split; [done | by eexists]|].
    rewrite Htok. split; [done | by eexists].
  - unfold executeQuickSetup. cbv zeta.
    change (sessionToken (setIsQuickSetupProcessing true
                            (setShowQuickSetupConfirmModal false w)))
      with (sessionToken w).
    rewrite Htok. eexists. split; [reflexivity|]. split; [done | by eexists].
  - unfold loadSlots, only_toasts. destruct (barberId (comp w)).
    + rewrite Htok. split; [done | by eexists].
    + split; [done|]. exists []. by rewrite app_nil_r.
Qed.

Lemma signed_out_sends_nothing_witness :
  (∀ dayIndex slotTime,
     ∃ message, instantAddTimeSlot dayIndex slotTime world1_signed_out
                = toast_error message world1_signed_out)
  ∧ (∀ dayIndex slotId,
       removeTimeSlot dayIndex slotId world1_signed_out
       = toast_error "Please login to delete slots" world1_signed_out)
  ∧ (store (saveTimeSlot world1_signed_out) = store world1_signed_out
     ∧ only_toasts world1_signed_out (saveTimeSlot world1_signed_out))
  ∧ (∃ w', executeQuickSetup world1_signed_out = Some w'
       ∧ store w' = store world1_signed_out ∧ only_toasts world1_signed_out w')
  ∧ (store (loadSlots world1_signed_out) = store world1_signed_out
     ∧ only_toasts world1_signed_out (loadSlots world1_signed_out)).
Proof. apply (signed_out_sends_nothing world1_signed_out). reflexivity. Defined.

(** ** Toggling a day: failures *)

(** X17. Toggling a day whose index is not displayed does nothing, and
    turning a working day off does nothing but show an error toast when the
    storage does not accept the delete of the day's rows: storage,
    displayed schedule and working flags are as before. *)
Theorem toggleDayOff_refused_changes_nothing (w : World) (dayIndex : Z) :
  (at_index (weekSchedule (comp w)) dayIndex = None -> toggleDayOff dayIndex w = w)
  ∧ (∀ d, at_index (weekSchedule (comp w)) dayIndex = Some d -> isOff d = false ->
          hd Ok (oracle w) ≠ Ok ->
          store (toggleDayOff dayIndex w) = store w
          ∧ comp (toggleDayOff dayIndex w) = comp w
          ∧ trace (toggleDayOff dayIndex w)
            = trace w ++ [ReqDeleteDay (getActualDate w dayIndex (pageIndex (comp w)));
                          Toast false "Failed to update schedule"]).
Proof.
  split.
  - intros Hnone. unfold toggleDayOff. by rewrite Hnone.
  - intros d Hd Hoff Hrefused. unfold toggleDayOff. rewrite Hd, Hoff. cbn [negb]. cbv zeta.
    match goal with |- context [request ?e w] =>
      destruct (request_spec e w) as (w1 & -> & (_ & _ & _ & _ & _ & Htr) & Hcomp & Hstore) end.
    destruct (hd Ok (oracle w)); [done | |];
      cbn [toast_error emit store comp trace]; rewrite Htr, <- app_assoc; done.
Qed.

(** X18. When the rows of a working day are deleted and the write of the
    working-day object is then refused, turning the day off leaves the
    storage without the day's slots but with its working flag still set,
    while the display shows the day as off. *)
Theorem toggleDayOff_flag_write_refused (w : World) (dayIndex : Z) (d : DaySchedule)
    (a : Answer) (rest : list Answer) :
  sessionToken w = true -> oracle w = Ok :: Ok :: a :: rest -> a ≠ Ok ->
  at_index (weekSchedule (comp w)) dayIndex = Some d -> isOff d = false ->
  let slotDate := getActualDate w dayIndex (pageIndex (comp w)) in
  let w' := toggleDayOff dayIndex w in
  (∀ r, r ∈ barber_slots (store w') ↔ r ∈ barber_slots (store w) ∧ slot_date r ≠ slotDate)
  ∧ working_days (store w') = working_days (store w)
  ∧ at_index (weekSchedule (comp w')) dayIndex
    = Some (mkDaySchedule (day d) (date d) true []).
Proof.
  destruct w as [c st td cm clk tok orc tr]. simpl. intros -> -> Ha Hd Hoff.
  unfold toggleDayOff. simpl. rewrite Hd, Hoff. simpl.
  unfold updateWorkingDayState. simpl.
  split; [|split].
  - intros r. destruct a; [done | |]; simpl; apply deleteRange_day.
  - by destruct a.
  - destruct a; [done | |]; simpl; rewrite at_index_map_at, Hd; simpl;
      by rewrite Z.eqb_refl.
Qed.

Lemma toggleDayOff_flag_write_refused_witness :
  let slotDate :=
    getActualDate world1_kv_write_refused 0 (pageIndex (comp world1_kv_write_refused)) in
  let w' := toggleDayOff 0 world1_kv_write_refused in
  (∀ r, r ∈ barber_slots (store w')
        ↔ r ∈ barber_slots (store world1_kv_write_refused) ∧ slot_date r ≠ slotDate)
  ∧ working_days (store w') = working_days (store world1_kv_write_refused)
  ∧ at_index (weekSchedule (comp w')) 0
    = Some (mkDaySchedule (day day100) (date day100) true []).
Proof.
  apply (toggleDayOff_flag_write_refused world1_kv_write_refused 0 day100 HttpError []).
  - reflexivity.
  - reflexivity.
  - discriminate.
  - vm_compute. reflexivity.
  - reflexivity.
Defined.

(** ** Single slots: accepted requests *)

Lemma loadSlots_ok_schedule (w : World) (b : string) :
  barberId (comp w) = Some b -> sessionToken w = true -> all_ok w ->
  weekSchedule (comp (loadSlots w))
  = newSchedule (localMidnight w) (getPageStartDate w (pageIndex (comp w)))
      (working_days (store w))
      (Storage.listByDateRange (getPageStartDate w (pageIndex (comp w)))
         (getPageStartDate w (pageIndex (comp w)) + (DAYS_PER_PAGE - 1)) (store w)).
Proof. intros Hb Htok Hok. by destruct (loadSlots_ok w b Hb Htok Hok) as (-> & _). Qed.

Lemma newSchedule_shows_row (midnight : Z -> Z) (windowStart idx : Z) (wd : gmap Z bool)
    (s : Store) (r : SlotRow) :
  (∀ k, 0 ≤ k < DAYS_PER_PAGE ->
        midnight (windowStart + k) = midnight windowStart + k * MS_PER_DAY) ->
  0 ≤ idx < DAYS_PER_PAGE -> r ∈ barber_slots s -> slot_date r = windowStart + idx ->
  ∃ d, at_index (newSchedule midnight windowStart wd
                   (Storage.listByDateRange windowStart
                      (windowStart + (DAYS_PER_PAGE - 1)) s)) idx = Some d
    ∧ isOff d = negb (bool_decide (wd !! (windowStart + idx) = Some true))
    ∧ slot_of_row r ∈ slots d.
Proof.
  intros Hsteady Hidx Hr Hdate. eexists. split; [|split].
  - unfold at_index, newSchedule. destruct (Z.ltb_spec idx 0); [lia|].
    rewrite list_lookup_fmap, (lookup_seqZ_lt 0 DAYS_PER_PAGE) by lia. simpl.
    rewrite Z2Nat.id by lia. reflexivity.
  - reflexivity.
  - cbn [slots]. rewrite sort_by_perm, (page_rows_of_day _ _ _ _ Hsteady) by done.
    apply list_elem_of_fmap. exists r. split; [done|]. by apply list_elem_of_filter.
Qed.

Lemma calculateEndTime_adds_an_hour_aux (h m : Z) :
  0 ≤ h < 24 -> 0 ≤ m < 60 ->
  ∃ h' m', calculateEndTime (hhmm h m) = hhmm h' m' ∧ 0 ≤ h' < 24 ∧ 0 ≤ m' < 60
    ∧ h' * 60 + m' = (h * 60 + m + 60) mod 1440.
Proof.
  intros Hh Hm. rewrite calculateEndTime_hhmm by done.
  assert (Hq : (h * 60 + m + 60) / 60 = h + 1).
  { replace (h * 60 + m + 60) with ((h + 1) * 60 + m) by lia.
    rewrite Z.div_add_l by lia. rewrite Z.div_small; lia. }
  assert (Hr : Z.rem (h * 60 + m + 60) 60 = m).
  { rewrite Z.rem_mod_nonneg by lia.
    replace (h * 60 + m + 60) with (m + (h + 1) * 60) by lia.
    rewrite Z.mod_add by lia. apply Z.mod_small; lia. }
  rewrite Hq, Hr, (Z.rem_mod_nonneg (h + 1) 24) by lia.
  exists ((h + 1) mod 24), m. split; [done|].
  split; [apply Z.mod_pos_bound; lia|]. split; [done|].
  destruct (decide (h = 23)) as [->|Hne].
  - change ((23 + 1) mod 24) with 0.
    replace (23 * 60 + m + 60) with (m + 1 * 1440) by lia.
    rewrite Z.mod_add by lia. rewrite Z.mod_small; lia.
  - rewrite (Z.mod_small (h + 1)) by lia. rewrite Z.mod_small; lia.
Qed.

(** X19. An add that passes the past-time tests and is accepted stores one
    new unbooked row for the day's date, starting at the normalized time and
    ending an hour later, and changes no other row and no working flag.
    The reload that follows, on a page without clock change, holds the new
    slot under the day it was added to, under the time that was typed, and
    the card of that day renders it when the day is a working day. *)
Theorem instantAddTimeSlot_accepted (w : World) (b : string) (dayIndex h m : Z) :
  barberId (comp w) = Some b -> sessionToken w = true -> all_ok w ->
  steady_page w ->
  0 ≤ h < 24 -> 0 ≤ m < 60 -> 0 ≤ dayIndex < DAYS_PER_PAGE ->
  not_in_past w dayIndex (hhmm h m) = true ->
  let w' := instantAddTimeSlot dayIndex (hhmm h m) w in
  let newRow :=
    mkSlotRow (Js.String_ (next_id (store w)))
      (getActualDate w dayIndex (pageIndex (comp w)))
      (hhmm h m +:+ ":00") (normalizeTime (calculateEndTime (hhmm h m))) false in
  let newSlot := mkTimeSlot (row_id newRow) (hhmm h m) true false in
  barber_slots (store w') = barber_slots (store w) ++ [newRow]
  ∧ working_days (store w') = working_days (store w)
  ∧ toMinutes (end_time newRow) = Some ((h * 60 + m + 60) mod 1440)
  ∧ ∃ d, at_index (weekSchedule (comp w')) dayIndex = Some d
      ∧ newSlot ∈ slots d
      ∧ (working_days (store w) !! slot_date newRow = Some true ->
         newSlot ∈ renderedSlots d).
Proof.
  intros Hb Htok Hok Hsteady Hh Hm Hidx Hpast. cbv zeta.
  unfold not_in_past in Hpast. cbv zeta in Hpast.
  apply andb_true_iff in Hpast as [Hp1%negb_true_iff Hp2%negb_true_iff].
  unfold instantAddTimeSlot. cbv zeta. rewrite Hp1, Hp2, Htok. cbn [negb].
  answer_ok Hok.
  rewrite (normalizeTime_hhmm h m) by lia.
  set (newRow := mkSlotRow _ _ (hhmm h m +:+ ":00") _ false).
  match goal with |- context [loadSlots ?x] => set (w2 := x) end.
  assert (Hrows2 : barber_slots (store w2) = barber_slots (store w) ++ [newRow]).
  { unfold w2. cbn [toast_success emit with_store store Storage.create barber_slots
      new_date new_start new_end]. by rewrite Hstore. }
  assert (Hwd2 : working_days (store w2) = working_days (store w)).
  { unfold w2. cbn [toast_success emit with_store store Storage.create working_days].
    by rewrite Hstore. }
  assert (Hws2 : getPageStartDate w2 (pageIndex (comp w2))
                 = getPageStartDate w (pageIndex (comp w))).
  { unfold w2, getPageStartDate. cbn [toast_success emit with_store comp today].
    by rewrite Hcomp, Htoday. }
  assert (Hclk2 : localMidnight w2 = localMidnight w) by exact Hclock.
  rewrite loadSlots_store. split; [exact Hrows2|]. split; [exact Hwd2|]. split.
  - cbn [newRow end_time].
    destruct (calculateEndTime_adds_an_hour_aux h m Hh Hm) as (h' & m' & -> & Hh' & Hm' & <-).
    by rewrite (toMinutes_normalizeTime_hhmm h' m' Hh' Hm').
  - rewrite (loadSlots_ok_schedule w2 b); [| by unfold w2; cbn; rewrite Hcomp
      | by unfold w2; cbn; rewrite Htoken | exact Hok0].
    rewrite Hws2, Hclk2, Hwd2.
    destruct (newSchedule_shows_row (localMidnight w)
                (getPageStartDate w (pageIndex (comp w))) dayIndex
                (working_days (store w)) (store w2) newRow Hsteady Hidx)
      as (d & Hd & Hoff & Hin).
    + rewrite Hrows2, elem_of_app, list_elem_of_singleton. by right.
    + reflexivity.
    + exists d. split; [exact Hd|].
      assert (Hslot : slot_of_row newRow
                      = mkTimeSlot (row_id newRow) (hhmm h m) true false).
      { unfold slot_of_row. cbn [newRow row_id start_time is_booked negb]. f_equal.
        apply (time_text_slice h m). split; [done|]. split; [done|].
        exists ":00". split; [done|]. right. by exists "00". }
      rewrite <- Hslot. split; [exact Hin|].
      intros Hworking. unfold renderedSlots. rewrite Hoff.
      change (slot_date newRow) with (getActualDate w dayIndex (pageIndex (comp w)))
        in Hworking.
      unfold getActualDate in Hworking. rewrite Hworking. exact Hin.
Qed.

Lemma instantAddTimeSlot_accepted_witness :
  let w' := instantAddTimeSlot 0 (hhmm 12 0) world1_loaded in
  let newRow :=
    mkSlotRow (Js.String_ (next_id (store world1_loaded)))
      (getActualDate world1_loaded 0 (pageIndex (comp world1_loaded)))
      (hhmm 12 0 +:+ ":00") (normalizeTime (calculateEndTime (hhmm 12 0))) false in
  let newSlot := mkTimeSlot (row_id newRow) (hhmm 12 0) true false in
  barber_slots (store w') = barber_slots (store world1_loaded) ++ [newRow]
  ∧ working_days (store w') = working_days (store world1_loaded)
  ∧ toMinutes (end_time newRow) = Some ((12 * 60 + 0 + 60) mod 1440)
  ∧ ∃ d, at_index (weekSchedule (comp w')) 0 = Some d
      ∧ newSlot ∈ slots d
      ∧ (working_days (store world1_loaded) !! slot_date newRow = Some true ->
         newSlot ∈ renderedSlots d).
Proof.
  apply (instantAddTimeSlot_accepted world1_loaded "barber-1" 0 12 0).
  - reflexivity.
  - reflexivity.
  - unfold all_ok. vm_compute. constructor.
  - intros k Hk. change (localMidnight world1_loaded) with steady_clock.
    change (getPageStartDate world1_loaded (pageIndex (comp world1_loaded))) with 100.
    unfold steady_clock. lia.
  - lia.
  - lia.
  - unfold DAYS_PER_PAGE. lia.
  - vm_compute. reflexivity.
Defined.

(** X20. A delete that the storage accepts removes the rows with the given
    id and no other row, keeps the working flags, and after the reload that
    follows no displayed day holds a slot with that id. *)
Theorem removeTimeSlot_accepted (w : World) (b : string) (dayIndex : Z) (slotId : string) :
  barberId (comp w) = Some b -> sessionToken w = true -> all_ok w ->
  let w' := removeTimeSlot dayIndex slotId w in
  barber_slots (store w') = filter (fun r => row_id r ≠ slotId) (barber_slots (store w))
  ∧ working_days (store w') = working_days (store w)
  ∧ (∀ d slot, d ∈ weekSchedule (comp w') -> slot ∈ slots d -> slot_id slot ≠ slotId).
Proof.
  intros Hb Htok Hok. cbv zeta. unfold removeTimeSlot. rewrite Htok. cbn [negb].
  answer_ok Hok.
  match goal with |- context [loadSlots ?x] => set (w2 := x) end.
  assert (Hrows2 : barber_slots (store w2)
                   = filter (fun r => row_id r ≠ slotId) (barber_slots (store w))).
  { unfold w2. cbn [toast_success emit setWeekSchedule with_comp with_store store
      Storage.delete barber_slots]. by rewrite Hstore. }
  assert (Hwd2 : working_days (store w2) = working_days (store w)).
  { unfold w2. cbn [toast_success emit setWeekSchedule with_comp with_store store
      Storage.delete working_days]. by rewrite Hstore. }
  rewrite loadSlots_store. split; [exact Hrows2|]. split; [exact Hwd2|].
  intros d slot Hd Hslot.
  rewrite (loadSlots_ok_schedule w2 b) in Hd;
    [| by unfold w2; cbn; rewrite Hcomp | by unfold w2; cbn; rewrite Htoken | exact Hok0].
  apply list_elem_of_lookup in Hd as (i & Hd).
  assert (Hat : at_index (newSchedule (localMidnight w2)
                   (getPageStartDate w2 (pageIndex (comp w2)))
                   (working_days (store w2))
                   (Storage.listByDateRange (getPageStartDate w2 (pageIndex (comp w2)))
                      (getPageStartDate w2 (pageIndex (comp w2)) + (DAYS_PER_PAGE - 1))
                      (store w2))) (Z.of_nat i) = Some d).
  { unfold at_index. destruct (Z.ltb_spec (Z.of_nat i) 0); [lia|]. by rewrite Nat2Z.id. }
  apply (newSchedule_slots _ _ _ _ _ _ slot) in Hat.
  apply Hat in Hslot as (r & Hr & _ & ->).
  apply list_elem_of_filter in Hr as [_ Hr]. rewrite Hrows2 in Hr.
  by apply list_elem_of_filter in Hr as [Hne _].
Qed.

Lemma removeTimeSlot_accepted_witness :
  let w' := removeTimeSlot 0 "2" world1_loaded in
  barber_slots (store w')
  = filter (fun r => row_id r ≠ "2") (barber_slots (store world1_loaded))
  ∧ working_days (store w') = working_days (store world1_loaded)
  ∧ (∀ d slot, d ∈ weekSchedule (comp w') -> slot ∈ slots d -> slot_id slot ≠ "2").
Proof.
  apply (removeTimeSlot_accepted world1_loaded "barber-1" 0 "2").
  - reflexivity.
  - reflexivity.
  - unfold all_ok. vm_compute. constructor.
Defined.

(** ** Editing a slot *)

(** X21. An edit that is not a duplicate and that the storage accepts
    sends the typed time as it is (not normalized) with an end one hour
    later, patches the stored row and the displayed slot of that id and no
    other, keeps every slot of the day on display, and closes the edit
    session: no slot is being edited, the input is back to 09:00 and
    automatic reloads are no longer paused. *)
Theorem saveTimeSlot_accepted (w : World) (dayIndex : Z) (slotId : string) (d : DaySchedule) :
  sessionToken w = true -> all_ok w ->
  editingSlot (comp w) = Some (dayIndex, slotId) ->
  isDuplicateTime w dayIndex (editingTime (comp w)) (Some slotId) = false ->
  at_index (weekSchedule (comp w)) dayIndex = Some d ->
  let time := editingTime (comp w) in
  let w' := saveTimeSlot w in
  trace w' = trace w ++ [ReqUpdateSlot slotId time (calculateEndTime time);
                         Toast true "toast.timeSlotUpdated"]
  ∧ barber_slots (store w')
    = edited_row slotId time (calculateEndTime time) <$> barber_slots (store w)
  ∧ (∃ d', at_index (weekSchedule (comp w')) dayIndex = Some d'
       ∧ slots d' ≡ₚ edited_slot slotId time <$> slots d
       ∧ isOff d' = isOff d ∧ date d' = date d)
  ∧ edit_session w' = (None, "09:00", false).
Proof.
  intros Htok Hok Hedit Hdup Hd. cbv zeta. unfold saveTimeSlot.
  rewrite Hedit. cbv zeta. rewrite Hdup, Htok. cbn [negb].
  answer_ok Hok.
  cbn [cancelEditingSlot setPauseAutoReload setEditingTime setEditingSlot setWeekSchedule
       with_comp toast_success emit with_store trace store comp weekSchedule
       Storage.update barber_slots edit_session].
  unfold edit_session.
  cbn [comp editingSlot editingTime pauseAutoReload weekSchedule].
  rewrite Htrace, Hstore, Hcomp, <- app_assoc.
  split; [done|]. split; [done|]. split; [|done].
  rewrite at_index_map_at, Hd. cbn [fmap option_fmap option_map]. rewrite Z.eqb_refl.
  eexists. split; [reflexivity|]. cbn [slots isOff date].
  split; [|done]. by rewrite sort_by_perm.
Qed.

Lemma saveTimeSlot_accepted_witness :
  let time := editingTime (comp world1_editing) in
  let w' := saveTimeSlot world1_editing in
  trace w' = trace world1_editing
             ++ [ReqUpdateSlot "2" time (calculateEndTime time);
                 Toast true "toast.timeSlotUpdated"]
  ∧ barber_slots (store w')
    = edited_row "2" time (calculateEndTime time) <$> barber_slots (store world1_editing)
  ∧ (∃ d', at_index (weekSchedule (comp w')) 0 = Some d'
       ∧ slots d' ≡ₚ edited_slot "2" time <$> slots day100
       ∧ isOff d' = isOff day100 ∧ date d' = date day100)
  ∧ edit_session w' = (None, "09:00", false).
Proof.
  apply (saveTimeSlot_accepted world1_editing 0 "2" day100).
  - reflexivity.
  - unfold all_ok. vm_compute. constructor.
  - reflexivity.
  - vm_compute. reflexivity.
  - vm_compute. reflexivity.
Defined.

(** X22. An edit to a time that another slot of the same day already has is
    refused locally: one error toast, no request, storage and display as
    before, and the edit session stays open.  The slot being edited does not
    count against itself: keeping its own time is no duplicate when no other
    slot of the day has that time. *)
Theorem saveTimeSlot_duplicate_refused (w : World) (dayIndex : Z) (slotId : string)
    (d : DaySchedule) :
  editingSlot (comp w) = Some (dayIndex, slotId) ->
  at_index (weekSchedule (comp w)) dayIndex = Some d ->
  ((∃ other, other ∈ slots d ∧ slot_id other ≠ slotId
      ∧ slot_time other = editingTime (comp w)) ->
   refused_locally w (saveTimeSlot w) ∧ edit_session (saveTimeSlot w) = edit_session w)
  ∧ ((∀ other, other ∈ slots d -> slot_id other ≠ slotId ->
        slot_time other ≠ editingTime (comp w)) ->
     isDuplicateTime w dayIndex (editingTime (comp w)) (Some slotId) = false).
Proof.
  intros Hedit Hd. split.
  - intros (other & Hin & Hid & Htime).
    assert (Hdup : isDuplicateTime w dayIndex (editingTime (comp w)) (Some slotId) = true).
    { apply isDuplicateTime_iff. exists d, other. repeat split; try done. congruence. }
    unfold saveTimeSlot. rewrite Hedit. cbv zeta. rewrite Hdup.
    split; [|done]. unfold refused_locally. simpl. eauto 10.
  - intros Hfree. apply not_true_is_false. intros Hdup.
    apply isDuplicateTime_iff in Hdup as (d' & other & Hd' & Hin & Htime & Hid).
    rewrite Hd in Hd'. injection Hd' as <-.
    apply (Hfree other Hin); [congruence | done].
Qed.

Lemma saveTimeSlot_duplicate_refused_witness :
  ((∃ other, other ∈ slots day100 ∧ slot_id other ≠ "2"
      ∧ slot_time other = editingTime (comp world1_editing_taken)) ->
   refused_locally world1_editing_taken (saveTimeSlot world1_editing_taken)
   ∧ edit_session (saveTimeSlot world1_editing_taken) = edit_session world1_editing_taken)
  ∧ ((∀ other, other ∈ slots day100 -> slot_id other ≠ "2" ->
        slot_time other ≠ editingTime (comp world1_editing_taken)) ->
     isDuplicateTime world1_editing_taken 0 (editingTime (comp world1_editing_taken))
       (Some "2") = false).
Proof.
  apply (saveTimeSlot_duplicate_refused world1_editing_taken 0 "2" day100).
  - reflexivity.
  - vm_compute. reflexivity.
Defined.

(** X23. How [saveTimeSlot] leaves the edit session.  With no slot being
    edited it does nothing.  Otherwise, unless the time is refused as a
    duplicate, automatic reloads are no longer paused afterwards, whatever
    the session token and the storage's answer; and when the request is not
    accepted or there is no session token the slot stays in editing with
    the typed time. *)
Theorem saveTimeSlot_releases_the_pause (w : World) :
  (editingSlot (comp w) = None -> saveTimeSlot w = w)
  ∧ (∀ dayIndex slotId,
       editingSlot (comp w) = Some (dayIndex, slotId) ->
       isDuplicateTime w dayIndex (editingTime (comp w)) (Some slotId) = false ->
       pauseAutoReload (comp (saveTimeSlot w)) = false
       ∧ (sessionToken w = false ∨ hd Ok (oracle w) ≠ Ok ->
          editingSlot (comp (saveTimeSlot w)) = Some (dayIndex, slotId)
          ∧ editingTime (comp (saveTimeSlot w)) = editingTime (comp w)
          ∧ store (saveTimeSlot w) = store w)).
Proof.
  split.
  - intros Hnone. unfold saveTimeSlot. by rewrite Hnone.
  - intros dayIndex slotId Hedit Hdup. unfold saveTimeSlot. rewrite Hedit. cbv zeta.
    rewrite Hdup. destruct (sessionToken w) eqn:Htok; cbn [negb].
    + match goal with |- context [request ?e w] =>
        destruct (request_spec e w) as (w1 & -> & _ & Hcomp & Hstore) end.
      destruct (hd Ok (oracle w));
        cbn [cancelEditingSlot setPauseAutoReload setEditingTime setEditingSlot
             setWeekSchedule with_comp toast_success toast_error emit with_store
             comp store pauseAutoReload editingSlot editingTime];
        (split; [done|]); rewrite ?Hcomp, ?Hstore;
        intros [? | ?]; done.
    + cbn [setPauseAutoReload with_comp toast_error emit comp store pauseAutoReload
           editingSlot editingTime]. split; [done|]. done.
Qed.

(** ** The time picker *)

Lemma loadSlots_time_picker (w : World) : time_picker (loadSlots w) = time_picker w.
Proof. destruct (loadSlots_comp w) as (f & Hf). unfold time_picker. by rewrite Hf. Qed.

Lemma instantAddTimeSlot_time_picker (w : World) (dayIndex : Z) (slotTime : string) :
  time_picker (instantAddTimeSlot dayIndex slotTime w) = time_picker w.
Proof.
  unfold instantAddTimeSlot. cbv zeta.
  destruct (_ <? _); [done|]. destruct (_ && _); [done|].
  destruct (negb _); [done|].
  match goal with |- context [request ?e w] =>
    destruct (request_spec e w) as (w1 & -> & _ & Hcomp & _) end.
  destruct (hd Ok (oracle w)).
  - rewrite loadSlots_time_picker. unfold time_picker.
    cbn [toast_success emit with_store comp]. by rewrite Hcomp.
  - unfold time_picker. cbn [toast_error emit comp]. by rewrite Hcomp.
  - unfold time_picker. by rewrite Hcomp.
Qed.

(** X24. Confirming the time picker with a time that is a duplicate leaves
    the picker as it is (open, same day, same time).  Confirming it with any
    other time closes and resets the picker, whether the add then succeeds,
    is refused as past, or fails at the storage. *)
Theorem handleTimePickerConfirm_picker (w : World) (dayIndex : Z) :
  timePickerDayIndex (comp w) = Some dayIndex -> selectedStartTime (comp w) ≠ "" ->
  (isDuplicateTime w dayIndex (selectedStartTime (comp w)) None = true ->
   time_picker (handleTimePickerConfirm w) = time_picker w
   ∧ store (handleTimePickerConfirm w) = store w)
  ∧ (isDuplicateTime w dayIndex (selectedStartTime (comp w)) None = false ->
     time_picker (handleTimePickerConfirm w) = (false, None, "")).
Proof.
  intros Hday Htime. unfold handleTimePickerConfirm. rewrite Hday.
  destruct (selectedStartTime (comp w)) as [|c time'] eqn:Hsel; [done|].
  split; intros ->; [done|].
  match goal with |- context [instantAddTimeSlot ?i ?t ?x] =>
    pose proof (instantAddTimeSlot_time_picker x i t) as Hpick;
    set (w2 := instantAddTimeSlot i t x) in *
  end.
  unfold time_picker in *.
  cbn [setSelectedStartTime setTimePickerDayIndex with_comp comp showTimePickerModal
       timePickerDayIndex selectedStartTime].
  injection Hpick as -> _ _. done.
Qed.

Lemma handleTimePickerConfirm_picker_witness :
  (isDuplicateTime world1_picking_noon 0 (selectedStartTime (comp world1_picking_noon)) None
   = true ->
   time_picker (handleTimePickerConfirm world1_picking_noon) = time_picker world1_picking_noon
   ∧ store (handleTimePickerConfirm world1_picking_noon) = store world1_picking_noon)
  ∧ (isDuplicateTime world1_picking_noon 0 (selectedStartTime (comp world1_picking_noon))
       None = false ->
     time_picker (handleTimePickerConfirm world1_picking_noon) = (false, None, "")).
Proof.
  apply (handleTimePickerConfirm_picker world1_picking_noon 0).
  - reflexivity.
  - discriminate.
Defined.

Lemma timeStr_not_empty (x : Z) : 0 ≤ x < 1440 -> timeStr x ≠ "".
Proof.
  intros Hx Hempty. pose proof (toMinutes_timeStr x Hx) as Hmin.
  rewrite Hempty in Hmin. done.
Qed.

(** X25. On a day that shows no slot the "add" button sends nothing and
    opens the time picker for that day, preset to the current time of day.
    For the current day that preset is itself at the current time, so
    confirming it unchanged is refused as a time that has passed, with
    nothing sent and the storage as before. *)
Theorem openAddSlotDialog_preset_is_refused_today (w : World) (dayIndex : Z) :
  (∀ d, at_index (weekSchedule (comp w)) dayIndex = Some d -> slots d = []) ->
  0 ≤ currentMinutes w < 1440 ->
  getActualDate w dayIndex (pageIndex (comp w)) = today w ->
  let w1 := openAddSlotDialog dayIndex w in
  time_picker w1 = (true, Some dayIndex, timeStr (currentMinutes w))
  ∧ trace w1 = trace w ∧ store w1 = store w
  ∧ trace (handleTimePickerConfirm w1) = trace w ++ [Toast false "toast.cannotAddPastSlots"]
  ∧ store (handleTimePickerConfirm w1) = store w.
Proof.
  intros Hempty Hnow Hdate. cbv zeta.
  assert (Hopen : openAddSlotDialog dayIndex w
                  = setShowTimePickerModal true
                      (setTimePickerDayIndex (Some dayIndex)
                         (setSelectedStartTime (timeStr (currentMinutes w)) w))).
  { unfold openAddSlotDialog. cbv zeta.
    destruct (at_index (weekSchedule (comp w)) dayIndex) as [d|]; [|done].
    by rewrite (Hempty d eq_refl). }
  rewrite Hopen. split; [done|]. split; [done|]. split; [done|].
  set (w1 := setShowTimePickerModal true _).
  assert (Hdup : isDuplicateTime w1 dayIndex (timeStr (currentMinutes w)) None = false).
  { unfold isDuplicateTime.
    change (weekSchedule (comp w1)) with (weekSchedule (comp w)).
    destruct (at_index (weekSchedule (comp w)) dayIndex) as [d|] eqn:Hd; [|done].
    by rewrite (Hempty d eq_refl). }
  assert (Hrun : handleTimePickerConfirm w1
                 = setSelectedStartTime "" (setTimePickerDayIndex None
                     (toast_error "toast.cannotAddPastSlots"
                        (setShowTimePickerModal false w1)))).
  { unfold handleTimePickerConfirm.
    change (selectedStartTime (comp w1)) with (timeStr (currentMinutes w)).
    change (timePickerDayIndex (comp w1)) with (Some dayIndex).
    pose proof (timeStr_not_empty _ Hnow) as Hne.
    destruct (timeStr (currentMinutes w)) as [|c s] eqn:Hstr; [done|].
    rewrite Hdup. do 2 f_equal.
    unfold instantAddTimeSlot. cbv zeta.
    change (getActualDate (setShowTimePickerModal false w1) dayIndex
              (pageIndex (comp (setShowTimePickerModal false w1))))
      with (getActualDate w dayIndex (pageIndex (comp w))).
    change (today (setShowTimePickerModal false w1)) with (today w).
    rewrite Hdate, Z.ltb_irrefl, Z.eqb_refl.
    assert (Hpassed : time_passed (setShowTimePickerModal false w1) (String c s) = true).
    { apply time_passed_iff. exists (currentMinutes w). rewrite <- Hstr.
      split; [by apply toMinutes_timeStr | done]. }
    by rewrite Hpassed. }
  rewrite Hrun. done.
Qed.

Lemma openAddSlotDialog_preset_is_refused_today_witness :
  let w1 := openAddSlotDialog 0 world0_loaded in
  time_picker w1 = (true, Some 0, timeStr (currentMinutes world0_loaded))
  ∧ trace w1 = trace world0_loaded ∧ store w1 = store world0_loaded
  ∧ trace (handleTimePickerConfirm w1)
    = trace world0_loaded ++ [Toast false "toast.cannotAddPastSlots"]
  ∧ store (handleTimePickerConfirm w1) = store world0_loaded.
Proof.
  apply (openAddSlotDialog_preset_is_refused_today world0_loaded 0).
  - intros d Hd.
    change (weekSchedule (comp world0_loaded)) with (newSchedule steady_clock 100 ∅ [])
      in Hd.
    by apply newSchedule_at in Hd as [_ ->].
  - vm_compute. split; [discriminate | reflexivity].
  - reflexivity.
Defined.

(** ** Page navigation *)

Lemma loadSlots_reads (w : World) :
  ∃ evs, trace (loadSlots w) = trace w ++ evs ∧ forallb reads_only evs = true.
Proof.
  destruct w as [c st td cm clk tok orc tr]. unfold loadSlots. simpl.
  destruct (barberId c); [|exists []; by rewrite app_nil_r].
  destruct tok; simpl; [|by eexists].
  destruct orc as [|[] [|[] orc]]; simpl;
    (eexists; split; [rewrite <- ?app_assoc; reflexivity | reflexivity]).
Qed.

Lemma loadSlots_pageIndex (w : World) :
  pageIndex (comp (loadSlots w)) = pageIndex (comp w).
Proof. destruct (loadSlots_comp w) as (f & Hf). by rewrite Hf. Qed.

Lemma click_in_range (k : Click) (w : World) :
  0 ≤ pageIndex (comp w) < MAX_PAGES ->
  0 ≤ pageIndex (comp (click k w)) < MAX_PAGES
  ∧ store (click k w) = store w
  ∧ ∃ evs, trace (click k w) = trace w ++ evs ∧ forallb reads_only evs = true.
Proof.
  intros Hp. unfold MAX_PAGES in *.
  assert (Hstay : ∃ evs, trace w = trace w ++ evs ∧ forallb reads_only evs = true)
    by (exists []; by rewrite app_nil_r).
  destruct k; unfold click, clickBack, clickNext, MAX_PAGES.
  - destruct (Z.eqb_spec (pageIndex (comp w)) 0) as [Hz|Hz]; [done|].
    rewrite loadSlots_pageIndex, loadSlots_store.
    split; [cbn; lia|]. split; [done|].
    match goal with |- context [loadSlots ?x] =>
      destruct (loadSlots_reads x) as (evs & Ht & Hr) end.
    exists evs. split; [exact Ht | done].
  - destruct (Z.leb_spec (3 - 1) (pageIndex (comp w))) as [Hz|Hz]; [done|].
    rewrite loadSlots_pageIndex, loadSlots_store.
    split; [cbn; lia|]. split; [done|].
    match goal with |- context [loadSlots ?x] =>
      destruct (loadSlots_reads x) as (evs & Ht & Hr) end.
    exists evs. split; [exact Ht | done].
Qed.

(** X26. Page navigation is bounded and read-only: from a page index in
    [0, MAX_PAGES) no sequence of clicks on "back" and "next" leaves that
    range, the storage is as before, and everything sent is a read request
    or a toast. *)
Theorem navigate_stays_within_pages (ks : list Click) (w : World) :
  0 ≤ pageIndex (comp w) < MAX_PAGES ->
  0 ≤ pageIndex (comp (navigate ks w)) < MAX_PAGES
  ∧ store (navigate ks w) = store w
  ∧ ∃ evs, trace (navigate ks w) = trace w ++ evs ∧ forallb reads_only evs = true.
Proof.
  revert w. induction ks as [|k ks IH]; intros w Hp.
  - split; [done|]. split; [done|]. exists []. by rewrite app_nil_r.
  - change (navigate (k :: ks) w) with (navigate ks (click k w)).
    destruct (click_in_range k w Hp) as (Hp1 & Hs1 & evs1 & Ht1 & Hr1).
    destruct (IH _ Hp1) as (Hp2 & Hs2 & evs2 & Ht2 & Hr2).
    split; [done|]. split; [congruence|].
    exists (evs1 ++ evs2). rewrite Ht2, Ht1, app_assoc. split; [done|].
    by rewrite forallb_app, Hr1, Hr2.
Qed.

Lemma navigate_stays_within_pages_witness :
  0 ≤ pageIndex (comp (navigate [Next; Next; Next; Back; Next; Next] world1_loaded))
    < MAX_PAGES
  ∧ store (navigate [Next; Next; Next; Back; Next; Next] world1_loaded)
    = store world1_loaded
  ∧ ∃ evs, trace (navigate [Next; Next; Next; Back; Next; Next] world1_loaded)
           = trace world1_loaded ++ evs
      ∧ forallb reads_only evs = true.
Proof.
  apply (navigate_stays_within_pages [Next; Next; Next; Back; Next; Next] world1_loaded).
  vm_compute. split; [discriminate | reflexivity].
Defined.

Lemma navigate_snoc (ks : list Click) (k : Click) (w : World) :
  navigate (ks ++ [k]) w = click k (navigate ks w).
Proof. unfold navigate. by rewrite fold_left_app. Qed.

(** The state after the first load and [n] clicks on "next", every request
    succeeding. *)
Lemma next_pages (w : World) (b : string) (n : nat) :
  barberId (comp w) = Some b -> sessionToken w = true -> all_ok w ->
  pageIndex (comp w) = 0 -> Z.of_nat n < MAX_PAGES ->
  let w' := navigate (repeat Next n) (loadSlots w) in
  barberId (comp w') = Some b ∧ sessionToken w' = true ∧ all_ok w'
  ∧ today w' = today w ∧ store w' = store w
  ∧ pageIndex (comp w') = Z.of_nat n
  ∧ ∃ midnight data,
      weekSchedule (comp w')
      = newSchedule midnight (today w + Z.of_nat n * DAYS_PER_PAGE)
          (working_days (store w)) data.
Proof.
  intros Hb Htok Hok Hp0. cbv zeta. induction n as [|n IH]; intros Hn.
  - cbn [repeat navigate fold_left].
    destruct (loadSlots_ok w b Hb Htok Hok) as (Hws & Hst & _ & Hok').
    destruct (loadSlots_one_refetch w b Hb Htok) as (evs & Hc & _).
    destruct Hc as (Htd & _ & Htk & Hbid & Hpg & _).
    split; [congruence|]. split; [congruence|]. split; [done|].
    split; [done|]. split; [done|]. split; [by rewrite Hpg, Hp0|].
    do 2 eexists. rewrite Hws. unfold getPageStartDate. by rewrite Hp0.
  - replace (repeat Next (S n)) with (repeat Next n ++ [Next])
      by (by rewrite <- repeat_cons).
    rewrite navigate_snoc.
    destruct IH as (Hb1 & Htok1 & Hok1 & Htd1 & Hst1 & Hpg1 & _); [lia|].
    set (w1 := navigate (repeat Next n) (loadSlots w)) in *.
    unfold click, clickNext. rewrite Hpg1.
    unfold MAX_PAGES in *. destruct (Z.leb_spec (3 - 1) (Z.of_nat n)) as [Hz|Hz]; [lia|].
    set (w2 := setPageIndex (fun prev => prev + 1) w1).
    assert (Hb2 : barberId (comp w2) = Some b) by done.
    assert (Htok2 : sessionToken w2 = true) by done.
    assert (Hok2 : all_ok w2) by done.
    assert (Hpg2 : pageIndex (comp w2) = Z.of_nat (S n))
      by (cbn [w2 setPageIndex with_comp comp pageIndex]; lia).
    destruct (loadSlots_ok w2 b Hb2 Htok2 Hok2) as (Hws & Hst & _ & Hok').
    destruct (loadSlots_one_refetch w2 b Hb2 Htok2) as (evs & Hc & _).
    destruct Hc as (Htd & _ & Htk & Hbid & Hpg & _).
    split; [congruence|]. split; [congruence|]. split; [done|].
    split; [by rewrite Htd|]. split; [by rewrite Hst|]. split; [congruence|].
    do 2 eexists. rewrite Hws. unfold getPageStartDate. rewrite Hpg2.
    change (today w2) with (today w1). change (store w2) with (store w1).
    rewrite Htd1, Hst1. reflexivity.
Qed.

(** X27. The pages cover the days from today on without gap or overlap:
    with every request succeeding, each of the [MAX_PAGES * DAYS_PER_PAGE]
    days starting today is shown after the first load and some number of
    clicks on "next", and it is shown on one page at one position only. *)
Theorem each_day_is_on_one_page (w : World) (b : string) (dt : Z) :
  barberId (comp w) = Some b -> sessionToken w = true -> all_ok w ->
  pageIndex (comp w) = 0 ->
  today w ≤ dt < today w + MAX_PAGES * DAYS_PER_PAGE ->
  ∃ n idx,
    Z.of_nat n < MAX_PAGES
    ∧ shows_date (navigate (repeat Next n) (loadSlots w)) idx dt
    ∧ ∀ n' idx', Z.of_nat n' < MAX_PAGES ->
        shows_date (navigate (repeat Next n') (loadSlots w)) idx' dt ->
        n' = n ∧ idx' = idx.
Proof.
  intros Hb Htok Hok Hp0 Hdt. unfold MAX_PAGES, DAYS_PER_PAGE in Hdt.
  exists (Z.to_nat ((dt - today w) / 8)), ((dt - today w) mod 8).
  pose proof (Z.div_mod (dt - today w) 8 ltac:(lia)) as Hdm.
  pose proof (Z.mod_pos_bound (dt - today w) 8 ltac:(lia)) as Hmod.
  assert (Hq : 0 ≤ (dt - today w) / 8 < 3).
  { split; [apply Z.div_pos; lia | apply Z.div_lt_upper_bound; lia]. }
  split; [unfold MAX_PAGES; lia|]. split.
  - destruct (next_pages w b (Z.to_nat ((dt - today w) / 8)) Hb Htok Hok Hp0)
      as (_ & _ & _ & _ & _ & _ & midnight & data & Hws); [unfold MAX_PAGES; lia|].
    unfold shows_date. rewrite Hws.
    destruct (newSchedule_lookup midnight
                (today w + Z.of_nat (Z.to_nat ((dt - today w) / 8)) * DAYS_PER_PAGE)
                ((dt - today w) mod 8) (working_days (store w)) data)
      as (d & Hd & Hdate); [unfold DAYS_PER_PAGE; lia|].
    exists d. split; [done|]. rewrite Hdate. unfold DAYS_PER_PAGE. lia.
  - intros n' idx' Hn' (d & Hd & Hdate).
    destruct (next_pages w b n' Hb Htok Hok Hp0 Hn')
      as (_ & _ & _ & _ & _ & _ & midnight & data & Hws).
    rewrite Hws in Hd. apply newSchedule_at in Hd as [Hidx ->].
    cbn [date] in Hdate. unfold DAYS_PER_PAGE in *.
    assert (Hn : Z.of_nat n' = (dt - today w) / 8).
    { apply (Z.div_unique (dt - today w) 8 (Z.of_nat n') idx'); lia. }
    split; [lia|].
    apply (Z.mod_unique (dt - today w) 8 (Z.of_nat n') idx'); lia.
Qed.

Lemma each_day_is_on_one_page_witness :
  ∃ n idx,
    Z.of_nat n < MAX_PAGES
    ∧ shows_date (navigate (repeat Next n) (loadSlots world1)) idx 110
    ∧ ∀ n' idx', Z.of_nat n' < MAX_PAGES ->
        shows_date (navigate (repeat Next n') (loadSlots world1)) idx' 110 ->
        n' = n ∧ idx' = idx.
Proof.
  apply (each_day_is_on_one_page world1 "barber-1" 110).
  - reflexivity.
  - reflexivity.
  - constructor.
  - reflexivity.
  - vm_compute. split; [discriminate | reflexivity].
Defined.

(** ** The batch clear that fails at once *)

(** X28. A batch clear that is declined does nothing.  A confirmed one whose
    first delete is refused leaves the storage as it was, shows one error
    toast, and the reload that follows puts the stored slots back on the
    display in place of the days it had emptied ahead of the answer. *)
Theorem handleQuickSetupClear_first_delete_refused (w : World) (b : string)
    (a : Answer) (rest : list Answer) :
  barberId (comp w) = Some b -> sessionToken w = true -> 0 ≤ pageIndex (comp w) ->
  oracle w = a :: rest -> a ≠ Ok -> Forall (eq Ok) rest ->
  let w' := handleQuickSetupClear true w in
  let windowStart := getPageStartDate w (pageIndex (comp w)) in
  let windowEnd := windowStart + (DAYS_PER_PAGE - 1) in
  handleQuickSetupClear false w = w
  ∧ store w' = store w
  ∧ weekSchedule (comp w')
    = newSchedule (localMidnight w) windowStart (working_days (store w))
        (Storage.listByDateRange windowStart windowEnd (store w))
  ∧ isQuickSetupProcessing (comp w') = false
  ∧ trace w' = trace w ++ [ReqDeleteDay windowStart; Toast false "toast.networkError";
                           ReqListSlots windowStart windowEnd; ReqKvGet].
Proof.
  intros Hb Htok Hpg Horc Ha Hrest. cbv zeta.
  split; [unfold handleQuickSetupClear; by rewrite Hb|].
  unfold handleQuickSetupClear. rewrite Hb. cbn [negb]. cbv zeta.
  set (w1 := setWeekSchedule _ (setIsQuickSetupProcessing true w)).
  change (seqZ 0 DAYS_PER_PAGE) with (0 :: seqZ 1 7). cbn [clear_days]. cbv zeta.
  change (getActualDate w1 0 (pageIndex (comp w1)))
    with (getActualDate w 0 (pageIndex (comp w))).
  change (today w1) with (today w).
  assert (Hfirst : getActualDate w 0 (pageIndex (comp w))
                   = getPageStartDate w (pageIndex (comp w)))
    by (unfold getActualDate; lia).
  rewrite Hfirst.
  destruct (Z.ltb_spec (getPageStartDate w (pageIndex (comp w))) (today w)) as [Hlt|_].
  { unfold getPageStartDate, DAYS_PER_PAGE in Hlt. lia. }
  unfold request. change (oracle w1) with (oracle w). rewrite Horc. cbn [hd tl].
  assert (Hrun : ∀ x, barberId (comp x) = Some b -> sessionToken x = true ->
            all_ok x ->
            store (setIsQuickSetupProcessing false (loadSlots x)) = store x
            ∧ weekSchedule (comp (setIsQuickSetupProcessing false (loadSlots x)))
              = newSchedule (localMidnight x) (getPageStartDate x (pageIndex (comp x)))
                  (working_days (store x))
                  (Storage.listByDateRange (getPageStartDate x (pageIndex (comp x)))
                     (getPageStartDate x (pageIndex (comp x)) + (DAYS_PER_PAGE - 1))
                     (store x))
            ∧ isQuickSetupProcessing (comp (setIsQuickSetupProcessing false (loadSlots x)))
              = false
            ∧ trace (setIsQuickSetupProcessing false (loadSlots x))
              = trace x ++ [ReqListSlots (getPageStartDate x (pageIndex (comp x)))
                              (getPageStartDate x (pageIndex (comp x))
                               + (DAYS_PER_PAGE - 1)); ReqKvGet]).
  { intros x Hbx Htx Hox.
    destruct (loadSlots_ok x b Hbx Htx Hox) as (Hws & Hst & Htr & _).
    split; [exact Hst|]. split; [exact Hws|]. split; [reflexivity | exact Htr]. }
  destruct a; [done| |];
    (match goal with |- context [loadSlots ?x] =>
       destruct (Hrun x) as (Hst & Hws & Hqp & Htr); [done | done | exact Hrest |]
     end;
     split; [exact Hst|]; split; [exact Hws|]; split; [exact Hqp|];
     rewrite Htr; cbn [toast_error emit trace]; rewrite <- ?app_assoc; reflexivity).
Qed.

Lemma handleQuickSetupClear_first_delete_refused_witness :
  let w' := handleQuickSetupClear true world1_delete_refused in
  let windowStart :=
    getPageStartDate world1_delete_refused (pageIndex (comp world1_delete_refused)) in
  let windowEnd := windowStart + (DAYS_PER_PAGE - 1) in
  handleQuickSetupClear false world1_delete_refused = world1_delete_refused
  ∧ store w' = store world1_delete_refused
  ∧ weekSchedule (comp w')
    = newSchedule (localMidnight world1_delete_refused) windowStart
        (working_days (store world1_delete_refused))
        (Storage.listByDateRange windowStart windowEnd (store world1_delete_refused))
  ∧ isQuickSetupProcessing (comp w') = false
  ∧ trace w' = trace world1_delete_refused
               ++ [ReqDeleteDay windowStart; Toast false "toast.networkError";
                   ReqListSlots windowStart windowEnd; ReqKvGet].
Proof.
  apply (handleQuickSetupClear_first_delete_refused world1_delete_refused "barber-1"
           HttpError []).
  - reflexivity.
  - reflexivity.
  - vm_compute. discriminate.
  - reflexivity.
  - discriminate.
  - constructor.
Defined.

(** ** The batch clear that fails on the way *)

Lemma updateWorkingDayState_two_ok (dt : Z) (w : World) (o : list Answer) :
  sessionToken w = true -> oracle w = Ok :: Ok :: o ->
  let w' := updateWorkingDayState dt false w in
  working_days (store w') = delete dt (working_days (store w))
  ∧ barber_slots (store w') = barber_slots (store w)
  ∧ comp w' = comp w ∧ today w' = today w
  ∧ sessionToken w' = true ∧ oracle w' = o.
Proof.
  destruct w as [c st td cm clk tok orc tr]. simpl. intros -> ->. done.
Qed.

(** The deleting loop when the deletes of the days [pre] are accepted and
    the delete of the next day is refused. *)
Lemma clear_days_refused (pre : list Z) (i : Z) (post : list Z) (w : World)
    (a : Answer) (rest : list Answer) :
  sessionToken w = true ->
  (∀ j, j ∈ pre ++ [i] -> today w ≤ getActualDate w j (pageIndex (comp w))) ->
  oracle w = replicate (3 * length pre) Ok ++ a :: rest -> a ≠ Ok ->
  let w' := (clear_days (pre ++ i :: post) w).2 in
  (clear_days (pre ++ i :: post) w).1 = false
  ∧ (∀ r, r ∈ barber_slots (store w')
          ↔ r ∈ barber_slots (store w) ∧ cleared_date w pre (slot_date r) = false)
  ∧ (∀ dt, working_days (store w') !! dt
           = if cleared_date w pre dt then None else working_days (store w) !! dt).
Proof.
  revert w. induction pre as [|j pre IH]; intros w Htok Hfuture Horc Ha; cbv zeta.
  - cbn [app clear_days]. cbv zeta.
    destruct (Z.ltb_spec (getActualDate w i (pageIndex (comp w))) (today w)) as [Hlt|_].
    { specialize (Hfuture i ltac:(by constructor)). lia. }
    unfold request. rewrite Horc. cbn [replicate length Nat.mul app hd].
    destruct a; [done| |]; cbn [fst snd store cleared_date existsb];
      (split; [done|]; split; [intros r; tauto | done]).
  - cbn [app clear_days cleared_date existsb]. cbv zeta.
    fold (cleared_date w pre).
    set (dateStr := getActualDate w j (pageIndex (comp w))).
    destruct (Z.ltb_spec dateStr (today w)) as [Hlt|_]; cbn [negb andb orb].
    { specialize (Hfuture j ltac:(by constructor)). fold dateStr in Hfuture. lia. }
    cbn [length] in Horc.
    replace (3 * S (length pre))%nat with (S (S (S (3 * length pre)))) in Horc by lia.
    cbn [replicate app] in Horc.
    unfold request. rewrite Horc. cbn [hd tl].
    set (w1 := mkWorld (comp w) (store w) (today w) (currentMinutes w) (localMidnight w)
                 (sessionToken w)
                 (Ok :: Ok :: replicate (3 * length pre) Ok ++ a :: rest)
                 (trace w ++ [ReqDeleteDay dateStr])).
    set (w2 := with_store (Storage.deleteRange dateStr dateStr) w1).
    destruct (updateWorkingDayState_two_ok dateStr w2
                (replicate (3 * length pre) Ok ++ a :: rest))
      as (Hwd & Hrows & Hcomp3 & Htoday3 & Htok3 & Horc3); [exact Htok | done |].
    set (w3 := updateWorkingDayState dateStr false w2) in *.
    assert (Hcomp30 : comp w3 = comp w) by exact Hcomp3.
    assert (Htoday30 : today w3 = today w) by exact Htoday3.
    destruct (IH w3 Htok3) as (Hres & Hrows' & Hwd'); [|exact Horc3|exact Ha|].
    { intros j' Hj'. rewrite Hcomp30, Htoday30.
      unfold getActualDate, getPageStartDate. rewrite Htoday30.
      apply (Hfuture j'). cbn [app]. by constructor. }
    assert (Hsame : ∀ dt, cleared_date w3 pre dt = cleared_date w pre dt).
    { intros dt. unfold cleared_date, getActualDate, getPageStartDate.
      by rewrite Hcomp30, Htoday30. }
    split; [exact Hres|]. split.
    + intros r. rewrite Hrows', Hsame, Hrows. unfold w2. cbn [with_store store].
      rewrite deleteRange_day. cbn [w1 store].
      destruct (Z.eqb_spec (slot_date r) dateStr) as [Heq|Hne]; cbn [orb].
      * split; [by intros [[_ Hne] _] | by intros [_ ?]].
      * tauto.
    + intros dt. rewrite Hwd', Hsame, Hwd. unfold w2. cbn [with_store store
        Storage.deleteRange working_days w1].
      destruct (Z.eqb_spec dt dateStr) as [->|Hne]; cbn [orb].
      * rewrite lookup_delete_eq. by destruct (cleared_date w pre dateStr).
      * by rewrite lookup_delete_ne.
Qed.

Lemma cleared_date_prefix (w : World) (k dt : Z) :
  0 ≤ pageIndex (comp w) -> 0 ≤ k ->
  cleared_date w (seqZ 0 k) dt = true
  ↔ getPageStartDate w (pageIndex (comp w)) ≤ dt
    < getPageStartDate w (pageIndex (comp w)) + k.
Proof.
  intros Hpg Hk. unfold cleared_date, getActualDate, getPageStartDate, DAYS_PER_PAGE.
  rewrite existsb_exists. split.
  - intros (i & Hi & Hc). apply list_elem_of_In, elem_of_seqZ in Hi.
    apply andb_true_iff in Hc as [_ Heq]. apply Z.eqb_eq in Heq. lia.
  - intros Hdt. exists (dt - (today w + pageIndex (comp w) * 8)). split.
    + apply list_elem_of_In, elem_of_seqZ. lia.
    + apply andb_true_iff. split; [apply negb_true_iff, Z.ltb_ge | apply Z.eqb_eq]; lia.
Qed.

(** X29. The batch clear is not all or nothing.  When the deletes of the
    first [k] days of the page are accepted and the delete of the next day
    is refused, the loop stops there: the slots and working flags of those
    first [k] days are gone from the storage, and those of every other
    date, the rest of the page included, are as before. *)
Theorem handleQuickSetupClear_stops_at_refused_delete (w : World) (b : string)
    (k : nat) (a : Answer) (rest : list Answer) :
  barberId (comp w) = Some b -> sessionToken w = true -> 0 ≤ pageIndex (comp w) ->
  Z.of_nat k < DAYS_PER_PAGE ->
  oracle w = replicate (3 * k) Ok ++ a :: rest -> a ≠ Ok ->
  let w' := handleQuickSetupClear true w in
  let windowStart := getPageStartDate w (pageIndex (comp w)) in
  (∀ r, r ∈ barber_slots (store w')
        ↔ r ∈ barber_slots (store w)
          ∧ ¬ (windowStart ≤ slot_date r < windowStart + Z.of_nat k))
  ∧ (∀ dt, windowStart ≤ dt < windowStart + Z.of_nat k ->
           working_days (store w') !! dt = None)
  ∧ (∀ dt, ¬ (windowStart ≤ dt < windowStart + Z.of_nat k) ->
           working_days (store w') !! dt = working_days (store w) !! dt).
Proof.
  intros Hb Htok Hpg Hk Horc Ha. cbv zeta.
  unfold handleQuickSetupClear. rewrite Hb. cbn [negb]. cbv zeta.
  set (w1 := setWeekSchedule _ (setIsQuickSetupProcessing true w)).
  assert (Hsplit : seqZ 0 DAYS_PER_PAGE
                   = seqZ 0 (Z.of_nat k) ++ Z.of_nat k
                       :: seqZ (Z.succ (Z.of_nat k)) (Z.pred (DAYS_PER_PAGE - Z.of_nat k))).
  { replace DAYS_PER_PAGE with (Z.of_nat k + (DAYS_PER_PAGE - Z.of_nat k)) at 1 by lia.
    rewrite seqZ_app by lia. by rewrite (seqZ_cons (0 + Z.of_nat k)) by lia. }
  rewrite Hsplit.
  destruct (clear_days_refused (seqZ 0 (Z.of_nat k)) (Z.of_nat k)
              (seqZ (Z.succ (Z.of_nat k)) (Z.pred (DAYS_PER_PAGE - Z.of_nat k)))
              w1 a rest) as (Hres & Hrows & Hwd); [exact Htok| | |exact Ha|].
  { intros j Hj. change (today w1) with (today w).
    change (getActualDate w1 j (pageIndex (comp w1)))
      with (getActualDate w j (pageIndex (comp w))).
    apply elem_of_app in Hj as [Hj|Hj].
    - apply elem_of_seqZ in Hj.
      unfold getActualDate, getPageStartDate, DAYS_PER_PAGE. lia.
    - apply list_elem_of_singleton in Hj as ->.
      unfold getActualDate, getPageStartDate, DAYS_PER_PAGE. lia. }
  { rewrite length_seqZ, Nat2Z.id. exact Horc. }
  destruct (clear_days _ w1) as [cleared w2]. cbn [fst snd] in Hres, Hrows, Hwd.
  subst cleared.
  change (store (setIsQuickSetupProcessing false
                   (loadSlots (toast_error "toast.networkError" w2))))
    with (store (loadSlots (toast_error "toast.networkError" w2))).
  rewrite loadSlots_store.
  change (store (toast_error "toast.networkError" w2)) with (store w2).
  change (store w1) with (store w) in Hrows, Hwd.
  assert (Hcd : ∀ dt, cleared_date w1 (seqZ 0 (Z.of_nat k)) dt
                      = cleared_date w (seqZ 0 (Z.of_nat k)) dt) by done.
  pose proof (fun dt => cleared_date_prefix w (Z.of_nat k) dt Hpg ltac:(lia)) as Hpre.
  split; [|split].
  - intros r. rewrite Hrows, Hcd, <- Hpre.
    destruct (cleared_date w (seqZ 0 (Z.of_nat k)) (slot_date r)); intuition congruence.
  - intros dt Hdt%Hpre. by rewrite Hwd, Hcd, Hdt.
  - intros dt Hdt. rewrite Hwd, Hcd.
    destruct (cleared_date w (seqZ 0 (Z.of_nat k)) dt) eqn:Hc; [|done].
    by apply Hpre in Hc.
Qed.

Lemma handleQuickSetupClear_stops_at_refused_delete_witness :
  let w' := handleQuickSetupClear true world1_second_delete_refused in
  let windowStart :=
    getPageStartDate world1_second_delete_refused
      (pageIndex (comp world1_second_delete_refused)) in
  (∀ r, r ∈ barber_slots (store w')
        ↔ r ∈ barber_slots (store world1_second_delete_refused)
          ∧ ¬ (windowStart ≤ slot_date r < windowStart + Z.of_nat 1))
  ∧ (∀ dt, windowStart ≤ dt < windowStart + Z.of_nat 1 ->
           working_days (store w') !! dt = None)
  ∧ (∀ dt, ¬ (windowStart ≤ dt < windowStart + Z.of_nat 1) ->
           working_days (store w') !! dt
           = working_days (store world1_second_delete_refused) !! dt).
Proof.
  apply (handleQuickSetupClear_stops_at_refused_delete world1_second_delete_refused
           "barber-1" 1 HttpError []).
  - reflexivity.
  - reflexivity.
  - vm_compute. discriminate.
  - vm_compute. reflexivity.
  - reflexivity.
  - discriminate.
Defined.

(** The same run on the stored rows: the three slots of day 100 are gone,
    those of days 107 and 110 stay, although day 107 is on the page. *)
Example clear_stopped_after_day100 :
  slot_date <$> barber_slots
                  (store (handleQuickSetupClear true world1_second_delete_refused))
  = [107; 110].
Proof. vm_compute. reflexivity. Qed.

(** ** Provider visibility *)

(** X30. The switch and the stored flag stay in step.  An accepted toggle
    stores the negation of the switch position, and a load that follows
    shows the switch where the toggle put it; a refused toggle leaves both
    the stored flag and the switch as they were and shows one error toast;
    a row without a stored flag loads as visible. *)
Theorem availability_toggle_round_trip (s : Availability.State) (b : string)
    (checked : bool) (a : Answer) :
  Availability.barber s = Some b ->
  let s' := Availability.handleAvailabilityToggle checked Ok s in
  Availability.is_available s' = Some (negb checked)
  ∧ Availability.unavailable s' = checked
  ∧ Availability.unavailable (Availability.loadAvailability Ok s') = checked
  ∧ (a ≠ Ok ->
     let s'' := Availability.handleAvailabilityToggle checked a s in
     Availability.is_available s'' = Availability.is_available s
     ∧ Availability.unavailable s'' = Availability.unavailable s
     ∧ Availability.toasts s''
       = Availability.toasts s ++ [(false, "toast.availabilityUpdateFailed")])
  ∧ (Availability.is_available s = None ->
     Availability.unavailable (Availability.loadAvailability Ok s) = false).
Proof.
  intros Hb. cbv zeta.
  unfold Availability.handleAvailabilityToggle, Availability.loadAvailability.
  rewrite Hb. cbn. rewrite ?Hb. cbn.
  split; [done|]. split; [done|]. split; [by destruct checked|].
  split; [by destruct a | by intros ->].
Qed.

Lemma availability_toggle_round_trip_witness :
  let s' := Availability.handleAvailabilityToggle true Ok Availability.state0 in
  Availability.is_available s' = Some (negb true)
  ∧ Availability.unavailable s' = true
  ∧ Availability.unavailable (Availability.loadAvailability Ok s') = true
  ∧ (HttpError ≠ Ok ->
     let s'' := Availability.handleAvailabilityToggle true HttpError Availability.state0 in
     Availability.is_available s'' = Availability.is_available Availability.state0
     ∧ Availability.unavailable s'' = Availability.unavailable Availability.state0
     ∧ Availability.toasts s''
       = Availability.toasts Availability.state0
           ++ [(false, "toast.availabilityUpdateFailed")])
  ∧ (Availability.is_available Availability.state0 = None ->
     Availability.unavailable (Availability.loadAvailability Ok Availability.state0)
     = false).
Proof.
  apply (availability_toggle_round_trip Availability.state0 "barber-1" true HttpError).
  reflexivity.
Defined.
